(** * train.py: the training / validation control loop of the BiSeNet runs

    A shallow embedding of [src/train.py] ([val], [train], [main]) and the
    properties of its epoch bookkeeping, checkpointing, best-model tracking,
    loss aggregation and validation metrics.

    The network, the optimizers, the data loaders, the mixed-precision
    scaler and the helpers of [utils] are collaborators the script only
    calls; they appear here as the fields of a class, and every definition
    below is stated over an arbitrary instance of it. *)

From Stdlib Require Import ZArith List Ascii String Bool Lia Reals Lra.
From Stdlib Require Import Floats.SpecFloat.
From stdpp Require Import gmap strings list.

Local Open Scope Z_scope.

(** ** Python floats

    [miou], [precision] and the epoch losses are IEEE binary64 values
    (numpy [float64]); they are modelled by [spec_float], whose comparison
    [SFltb] is false as soon as one side is NaN, like Python's [>]. *)

Module Float.

Abbreviation float := spec_float.

(** The integer literal [0] of [max_miou = 0], compared against a float. *)
Definition zero : float := S754_zero false.

(** Python's [a > b]. *)
Definition gt (a b : float) : bool := SFltb b a.

(** Python's [a <= b]. *)
Definition le (a b : float) : bool := SFleb a b.

Definition is_nan (a : float) : bool :=
  match a with S754_nan => true | _ => false end.

End Float.
Import Float.

(** ** Python runtime: exceptions raised by the script's own control flow *)

Inductive exn :=
| UnboundLocalError (name : string)
| ZeroDivisionError
| AttributeError (attr : string)
| TypeError (what : string)
| ValueError (what : string)
| KeyError (key : string)
| FileNotFoundError (path : string).

Inductive result (A : Type) :=
| Ok (a : A)
| Raise (e : exn).
Arguments Ok {A} a.
Arguments Raise {A} e.

Definition is_ok {A : Type} (r : result A) : bool :=
  match r with Ok _ => true | Raise _ => false end.

(** ** Strings and paths *)

Definition nl : string := String "010"%char "".
Definition tab : string := String "009"%char "".

(** Python's [s * n]. *)
Fixpoint str_mul (s : string) (n : nat) : string :=
  match n with
  | O => ""
  | S n' => s +:+ str_mul s n'
  end.

Fixpoint ends_with_slash (s : string) : bool :=
  match s with
  | "" => false
  | String c "" => Ascii.eqb c "/"%char
  | String _ s' => ends_with_slash s'
  end.

(** What [os.path.join a b] puts in front of a relative [b]. *)
Definition dir_prefix (a : string) : string :=
  if String.eqb a "" then ""
  else if ends_with_slash a then a
  else a +:+ "/".

(** [os.path.join a b] for a relative second component (every call of the
    script joins a directory with a constant relative name). *)
Definition os_path_join (a b : string) : string := dir_prefix a +:+ b.

(** Python's [range(a, b)]. *)
Definition py_range (a b : Z) : list Z := seqZ a (b - a).

(** ** Configuration: the [argparse] namespace *)

Record Args (Rate : Type) := {
  num_epochs : Z;
  epoch_start_i : Z;
  checkpoint_step : Z;
  validation_step : Z;
  dataset : string;
  crop_height : Z;
  crop_width : Z;
  batch_size : Z;
  context_path : string;
  learning_rate : Rate;
  data : string;
  num_workers : Z;
  num_classes : Z;
  cuda : string;
  use_gpu : bool;
  pretrained_model_path : option string;   (* default None *)
  save_model_path : option string;         (* default None *)
  optimizer_name : string;                 (* --optimizer *)
  loss : string
}.
Arguments num_epochs {Rate} _.
Arguments epoch_start_i {Rate} _.
Arguments checkpoint_step {Rate} _.
Arguments validation_step {Rate} _.
Arguments dataset {Rate} _.
Arguments crop_height {Rate} _.
Arguments crop_width {Rate} _.
Arguments batch_size {Rate} _.
Arguments context_path {Rate} _.
Arguments learning_rate {Rate} _.
Arguments data {Rate} _.
Arguments num_workers {Rate} _.
Arguments num_classes {Rate} _.
Arguments cuda {Rate} _.
Arguments use_gpu {Rate} _.
Arguments pretrained_model_path {Rate} _.
Arguments save_model_path {Rate} _.
Arguments optimizer_name {Rate} _.
Arguments loss {Rate} _.

(** ** Optimizer objects

    A [torch.optim] optimizer holds its parameter groups (each with its own
    [lr] field and the other keyword options it was built with) and the
    per-parameter accumulators. [state_dict()] snapshots both. *)

Inductive OptKind := RMSprop | SGD | Adam.

Record ParamGroup (Rate : Type) := {
  lr : Rate;
  options : list (string * string)
}.
Arguments lr {Rate} _.
Arguments options {Rate} _.

Record Optimizer (Rate OptAcc : Type) := {
  opt_kind : OptKind;
  param_groups : list (ParamGroup Rate);
  opt_state : OptAcc
}.
Arguments opt_kind {Rate OptAcc} _.
Arguments param_groups {Rate OptAcc} _.
Arguments opt_state {Rate OptAcc} _.

(** ** Confusion matrices

    [hist] is a [num_classes x num_classes] array of pixel counts (row: true
    class, column: predicted class). numpy stores the counts in float64,
    which is exact for integers below 2^53; they are integers here. *)

Abbreviation Hist := (list (list Z)).

(** [np.zeros((n, n))]. *)
Definition np_zeros (n : nat) : Hist := replicate n (replicate n 0).

(** [hist += h], entry by entry. *)
Definition hist_add (h1 h2 : Hist) : Hist := zip_with (zip_with Z.add) h1 h2.

(** matrix[i][j] += 1 *)
Definition hist_incr (h : Hist) (i j : nat) : Hist :=
  alter (alter Z.succ j) i h.

(** Modelled from the spec: [utils.fast_hist] is not under src/. "For every
    pixel position where the label value lies in [0, num_classes),
    increments matrix[label][pred] by 1; pixels with out-of-range labels are
    excluded from accumulation". A prediction outside [0, num_classes) has
    no cell to increment and is left out as well. *)
Definition fast_hist (label pred : list Z) (n : Z) : Hist :=
  fold_left
    (fun h '(l, p) =>
       if (0 <=? l) && (l <? n) && (0 <=? p) && (p <? n)
       then hist_incr h (Z.to_nat l) (Z.to_nat p)
       else h)
    (combine label pred) (np_zeros (Z.to_nat n)).

(** ** The collaborators

    Everything [train.py] imports and only calls: the network
    ([model.build_BiSeNet]), the losses, [torch.optim] and
    [torch.cuda.amp], the dataset and its loaders, and the helpers of
    [utils] and numpy. [Rate] is the type of learning rates. *)

Inductive PathArg := OnePath (p : string) | Paths (ps : list string).

Class Collab (Rate : Type) := {
  Tensor : Type;
  NDArray : Type;
  Params : Type;          (* a module's parameters, buffers and gradients *)
  OptAcc : Type;          (* an optimizer's accumulators *)
  Scaler : Type;          (* GradScaler: the dynamic loss scale *)
  Dataset : Type;
  Loader : Type;          (* a DataLoader and the state of its sampler *)
  (* torch.cuda.is_available() *)
  cuda_is_available : bool;
  (* model *)
  BiSeNet : Z -> string -> Params;
  forward_train : Params -> Tensor -> Tensor * Tensor * Tensor;
  forward_eval : Params -> Tensor -> Tensor;
  (* losses and scalar tensors *)
  DiceLoss : Tensor -> Tensor -> Tensor;
  CrossEntropyLoss : Tensor -> Tensor -> Tensor;
  tensor_add : Tensor -> Tensor -> Tensor;
  item : Tensor -> float;
  (* optimizer and scaler *)
  optim_init : OptKind -> Params -> OptAcc;
  zero_grad : Params -> Params;
  GradScaler : Scaler;
  scaled_backward : Scaler -> Tensor -> Params -> Params;
  scaler_step :
    Scaler -> list (ParamGroup Rate) -> OptAcc -> Params ->
    Scaler * OptAcc * Params;
  scaler_update : Scaler -> Scaler;
  poly_lr_scheduler :
    Optimizer Rate OptAcc -> Rate -> Z -> Z -> Optimizer Rate OptAcc * Rate;
  (* data *)
  CamVid : PathArg -> PathArg -> string -> Z * Z -> string -> string -> Dataset;
  DataLoader : Dataset -> Z -> bool -> Z -> bool -> Loader;
  loader_len : Loader -> Z;
  loader_iter : Loader -> list (Tensor * Tensor) * Loader;
  (* utils and numpy *)
  squeeze : Tensor -> Tensor;
  reverse_one_hot : Tensor -> Tensor;
  to_numpy : Tensor -> NDArray;
  flatten : NDArray -> list Z;
  compute_global_accuracy : NDArray -> NDArray -> float;
  per_class_iu : Hist -> list float;
  np_mean : list float -> float
}.

Section Program.

Context {Rate : Type} `{C : Collab Rate}.

(** ** Objects, files and observable events *)

(** The network object: possibly wrapped in [DataParallel] (only then does
    it have a [.module]), in training or inference mode. *)
Record Model := {
  wrapped : bool;
  training : bool;
  params : Params
}.

(** [optimizer.state_dict()]. *)
Record OptimizerState := {
  sd_param_groups : list (ParamGroup Rate);
  sd_state : OptAcc
}.

(** What [torch.save] wrote at a path: the three-key checkpoint dict, or a
    bare module state dict. *)
Inductive File :=
| CheckpointFile (epoch : Z) (model_state_dict : Params)
                 (optimizer_state_dict : OptimizerState)
| StateDictFile (model_state_dict : Params).

Inductive ScalarValue := SVTensor (t : Tensor) | SVFloat (x : float).

Inductive TqdmEvent :=
| TqOpen (total : Z)
| TqDescription (epoch : Z) (lr : Rate)
| TqUpdate (n : Z)
| TqPostfix (loss : Tensor)
| TqClose.

Inductive Event :=
| EPrint (text : string)
| EPrintArgs (args : Args Rate)
| EPrintFloat (prefix : string) (digits : nat) (x : float)
| EPrintInt (prefix : string) (z : Z)
| ETqdm (e : TqdmEvent)
| ESummaryWriter (comment : string)
| EAddScalar (tag : string) (value : ScalarValue) (global_step : Z)
| ESetEnv (name value : string)
| EModelCall (training_mode : bool) (input : Tensor)
| EMkdir (path : string)
| ESave (path : string) (f : File)
| ELoad (path : string).

(** The world outside the interpreter: the files written by [torch.save],
    the directories, and everything the run printed, logged or called, in
    order. File-system calls are taken to succeed. *)
Record World := {
  files : gmap string File;
  dirs : gset string;
  trace : list Event
}.

(** ** The monad: world passing with exceptions

    An exception keeps the world as it was when it was raised. *)

Definition M (A : Type) : Type := World -> result A * World.

#[global] Instance M_ret : MRet M := fun A a w => (Ok a, w).

#[global] Instance M_bind : MBind M := fun A B f m w =>
  match m w with
  | (Ok a, w') => f a w'
  | (Raise e, w') => (Raise e, w')
  end.

Definition raise {A : Type} (e : exn) : M A := fun w => (Raise e, w).

Definition emit (e : Event) : M unit := fun w =>
  (Ok tt, {| files := files w; dirs := dirs w; trace := trace w ++ [e] |}).

Definition print (text : string) : M unit := emit (EPrint text).

(** [for x in l: s = body(s, x)] *)
Fixpoint for_each {A S : Type} (l : list A) (body : S -> A -> M S) (s : S)
  : M S :=
  match l with
  | [] => mret s
  | x :: l' => s' ← body s x; for_each l' body s'
  end.

(** [a % b] on Python integers. *)
Definition py_mod (a b : Z) : M Z :=
  if b =? 0 then raise ZeroDivisionError else mret (a mod b).

(** Reading a local variable that may not have been assigned. *)
Definition read_local {A : Type} (name : string) (v : option A) : M A :=
  match v with
  | Some a => mret a
  | None => raise (UnboundLocalError name)
  end.

(** A path argument of [os.path] / [os]: [None] is a [TypeError]. *)
Definition fspath (p : option string) : M string :=
  match p with
  | Some s => mret s
  | None => raise (TypeError "expected str, bytes or os.PathLike object, not NoneType")
  end.

Definition os_path_isdir (p : string) : M bool := fun w =>
  (Ok (bool_decide (p ∈ dirs w)), w).

Definition os_mkdir (p : string) : M unit := fun w =>
  (Ok tt, {| files := files w; dirs := {[p]} ∪ dirs w;
             trace := trace w ++ [EMkdir p] |}).

(** [os.makedirs(p, exist_ok=True)] *)
Definition os_makedirs (p : string) : M unit := fun w =>
  if bool_decide (p ∈ dirs w) then (Ok tt, w) else os_mkdir p w.

Definition torch_save (f : File) (path : string) : M unit := fun w =>
  (Ok tt, {| files := <[path := f]> (files w); dirs := dirs w;
             trace := trace w ++ [ESave path f] |}).

Definition torch_load (path : string) : M File := fun w =>
  match files w !! path with
  | Some f =>
      (Ok f, {| files := files w; dirs := dirs w;
                trace := trace w ++ [ELoad path] |})
  | None => (Raise (FileNotFoundError path), w)
  end.

(** ** Model and optimizer methods *)

Definition set_training (b : bool) (m : Model) : Model :=
  {| wrapped := wrapped m; training := b; params := params m |}.

Definition set_params (p : Params) (m : Model) : Model :=
  {| wrapped := wrapped m; training := training m; params := p |}.

(** [torch.nn.DataParallel(model).cuda()] *)
Definition DataParallel (m : Model) : Model :=
  {| wrapped := true; training := training m; params := params m |}.

Inductive ModelOut :=
| Single (out : Tensor)
| Triple (out sup1 sup2 : Tensor).

(** [model(data)]: three outputs in training mode, one in inference mode. *)
Definition call_model (m : Model) (input : Tensor) : M ModelOut :=
  emit (EModelCall (training m) input);;
  mret (if training m
        then let '(o, s1, s2) := forward_train (params m) input in Triple o s1 s2
        else Single (forward_eval (params m) input)).

(** [model.module.state_dict()] *)
Definition module_state_dict (m : Model) : M Params :=
  if wrapped m then mret (params m) else raise (AttributeError "module").

Definition state_dict (o : Optimizer Rate OptAcc) : OptimizerState :=
  {| sd_param_groups := param_groups o; sd_state := opt_state o |}.

Definition load_state_dict (o : Optimizer Rate OptAcc) (sd : OptimizerState)
  : Optimizer Rate OptAcc :=
  {| opt_kind := opt_kind o;
     param_groups := sd_param_groups sd;
     opt_state := sd_state sd |}.

(** ** [val] (lines 17-62) *)

Definition banner (c : string) : string := str_mul c 100.

(** One iteration of the loop of lines 25-46. The [.cuda()] moves of lines
    26-28 change where a tensor lives, not its value. *)
Definition val_batch (args : Args Rate) (model : Model)
    (acc : list float * Hist) (batch : Tensor * Tensor)
  : M (list float * Hist) :=
  let '(precision_record, hist) := acc in
  let '(data, label) := batch in
  out ← call_model model data;
  predict ← match out with
            | Single o => mret (squeeze o)
            | Triple _ _ _ => raise (AttributeError "squeeze")
            end;
  let predict := reverse_one_hot predict in
  let predict := to_numpy predict in
  let label := squeeze label in
  let label := if String.eqb (loss args) "dice"
               then reverse_one_hot label else label in
  let label := to_numpy label in
  let precision := compute_global_accuracy predict label in
  let hist := hist_add hist
                (fast_hist (flatten label) (flatten predict) (num_classes args)) in
  mret (precision_record ++ [precision], hist).

Definition val_loop (args : Args Rate) (model : Model)
    (batches : list (Tensor * Tensor)) (hist0 : Hist)
  : M (list float * Hist) :=
  for_each batches (val_batch args model) ([], hist0).

Definition val (args : Args Rate) (model : Model) (dataloader : Loader)
    (csv_path : string) : M (float * float * Model * Loader) :=
  print (nl +:+ banner "=");;
  print "Start val!";;
  let model := set_training false model in
  hist0 ← (if num_classes args <? 0
           then raise (ValueError "negative dimensions are not allowed")
           else mret (np_zeros (Z.to_nat (num_classes args))));
  let '(batches, dataloader) := loader_iter dataloader in
  '(precision_record, hist) ← val_loop args model batches hist0;
  let precision := np_mean precision_record in
  let miou_list := removelast (per_class_iu hist) in
  let miou := np_mean miou_list in
  emit (EPrintFloat "precision per pixel for test: " 3 precision);;
  emit (EPrintFloat "mIoU for validation: " 3 miou);;
  print (banner "=" +:+ nl);;
  mret (precision, miou, model, dataloader).

(** ** [train] (lines 65-142) *)

(** The objects [train] mutates and its loop-carried locals. *)
Record TrainState := {
  model : Model;
  optimizer : Optimizer Rate OptAcc;
  scaler : Scaler;
  dataloader_train : Loader;
  dataloader_val : Loader;
  max_miou : float;
  step : Z
}.

Abbreviation LossFn := (Tensor -> Tensor -> Tensor).

(** Lines 69-72: [loss_func] is assigned for the two known names only. *)
Definition select_loss (args : Args Rate) : option LossFn :=
  if String.eqb (loss args) "dice" then Some DiceLoss
  else if String.eqb (loss args) "crossentropy" then Some CrossEntropyLoss
  else None.

(** Lines 92-95. *)
Definition aggregate_loss (loss_func : LossFn)
    (output output_sup1 output_sup2 label : Tensor) : Tensor :=
  let loss1 := loss_func output label in
  let loss2 := loss_func output_sup1 label in
  let loss3 := loss_func output_sup2 label in
  tensor_add (tensor_add loss1 loss2) loss3.

(** Lines 100-103 and 108: zero the gradients, backpropagate the scaled
    loss, step the optimizer through the scaler, update the scale. The
    step moves the accumulators and the parameters; the parameter groups
    are read, not written. *)
Definition backward_and_step (st : TrainState) (loss : Tensor) : TrainState :=
  let p := zero_grad (params (model st)) in
  let p := scaled_backward (scaler st) loss p in
  let '(sc, acc, p) :=
    scaler_step (scaler st) (param_groups (optimizer st))
                (opt_state (optimizer st)) p in
  {| model := set_params p (model st);
     optimizer := {| opt_kind := opt_kind (optimizer st);
                     param_groups := param_groups (optimizer st);
                     opt_state := acc |};
     scaler := scaler_update sc;
     dataloader_train := dataloader_train st;
     dataloader_val := dataloader_val st;
     max_miou := max_miou st;
     step := step st + 1 |}.

(** One iteration of the batch loop, lines 84-108. *)
Definition train_batch (args : Args Rate) (loss_func : option LossFn)
    (acc : TrainState * list float) (batch : Tensor * Tensor)
  : M (TrainState * list float) :=
  let '(st, loss_record) := acc in
  let '(data, label) := batch in
  out ← call_model (model st) data;
  '(output, output_sup1, output_sup2) ←
    match out with
    | Triple o s1 s2 => mret (o, s1, s2)
    | Single _ => raise (ValueError "not enough values to unpack")
    end;
  f ← read_local "loss_func" loss_func;
  let loss := aggregate_loss f output output_sup1 output_sup2 label in
  emit (ETqdm (TqUpdate (batch_size args)));;
  emit (ETqdm (TqPostfix loss));;
  let st := backward_and_step st loss in
  emit (EAddScalar "loss_step" (SVTensor loss) (step st));;
  mret (st, loss_record ++ [item loss]).

Definition latest_path (dir : string) : string :=
  os_path_join dir "latest_dice_loss.pth".

Definition best_path (dir : string) : string :=
  os_path_join dir "best_dice_loss.pth".

(** Lines 116-131. *)
Definition checkpoint_phase (args : Args Rate) (epoch : Z) (st : TrainState)
  : M unit :=
  r ← py_mod epoch (checkpoint_step args);
  if (r =? 0) && negb (epoch =? 0) then
    print (nl +:+ banner "*");;
    print "Saving checkpoint...";;
    dir ← fspath (save_model_path args);
    isdir ← os_path_isdir dir;
    (if (isdir : bool) then mret tt else os_mkdir dir);;
    msd ← module_state_dict (model st);
    let checkpoint := CheckpointFile epoch msd (state_dict (optimizer st)) in
    torch_save checkpoint (latest_path dir);;
    print "Done!";;
    print (banner "*" +:+ nl)
  else mret tt.

Definition set_val_result (st : TrainState) (m : Model) (dl : Loader)
  : TrainState :=
  {| model := m; optimizer := optimizer st; scaler := scaler st;
     dataloader_train := dataloader_train st; dataloader_val := dl;
     max_miou := max_miou st; step := step st |}.

Definition set_max_miou (st : TrainState) (x : float) : TrainState :=
  {| model := model st; optimizer := optimizer st; scaler := scaler st;
     dataloader_train := dataloader_train st;
     dataloader_val := dataloader_val st;
     max_miou := x; step := step st |}.

(** Lines 134-142. *)
Definition validation_phase (args : Args Rate) (csv_path : string)
    (epoch : Z) (st : TrainState) : M TrainState :=
  r ← py_mod epoch (validation_step args);
  if (r =? 0) && negb (epoch =? 0) then
    '(precision, miou, m, dl) ← val args (model st) (dataloader_val st) csv_path;
    let st := set_val_result st m dl in
    st ← (if gt miou (max_miou st) then
            let st := set_max_miou st miou in
            dir ← fspath (save_model_path args);
            os_makedirs dir;;
            msd ← module_state_dict (model st);
            torch_save (StateDictFile msd) (best_path dir);;
            mret st
          else mret st);
    emit (EAddScalar "epoch/precision_val" (SVFloat precision) epoch);;
    emit (EAddScalar "epoch/miou val" (SVFloat miou) epoch);;
    mret st
  else mret st.

(** Lines 77-78: the scheduler rewrites the optimizer, the model goes to
    training mode. *)
Definition epoch_prologue (args : Args Rate) (epoch : Z) (st : TrainState)
  : TrainState * Rate :=
  let '(opt, lr) :=
    poly_lr_scheduler (optimizer st) (learning_rate args) epoch
                      (num_epochs args) in
  ({| model := set_training true (model st);
      optimizer := opt;
      scaler := scaler st;
      dataloader_train := dataloader_train st;
      dataloader_val := dataloader_val st;
      max_miou := max_miou st;
      step := step st |}, lr).

Definition set_dataloader_train (st : TrainState) (dl : Loader) : TrainState :=
  {| model := model st; optimizer := optimizer st; scaler := scaler st;
     dataloader_train := dl; dataloader_val := dataloader_val st;
     max_miou := max_miou st; step := step st |}.

(** The body of the epoch loop, lines 77-142. *)
Definition train_epoch (args : Args Rate) (loss_func : option LossFn)
    (csv_path : string) (st : TrainState) (epoch : Z) : M TrainState :=
  let '(st, lr) := epoch_prologue args epoch st in
  emit (ETqdm (TqOpen (loader_len (dataloader_train st) * batch_size args)));;
  emit (ETqdm (TqDescription epoch lr));;
  let '(batches, dl) := loader_iter (dataloader_train st) in
  let st := set_dataloader_train st dl in
  '(st, loss_record) ← for_each batches (train_batch args loss_func) (st, []);
  emit (ETqdm TqClose);;
  let loss_train_mean := np_mean loss_record in
  emit (EAddScalar "epoch/loss_epoch_train" (SVFloat loss_train_mean) epoch);;
  emit (EPrintFloat "loss for train : " 6 loss_train_mean);;
  checkpoint_phase args epoch st;;
  validation_phase args csv_path epoch st.

Definition train (args : Args Rate) (model : Model)
    (optimizer : Optimizer Rate OptAcc)
    (dataloader_train dataloader_val : Loader) (csv_path : string)
    (curr_epoch : Z) : M TrainState :=
  (* ''.format(args.optimizer, args.context_path) is the empty string *)
  emit (ESummaryWriter "");;
  let scaler := GradScaler in
  let loss_func := select_loss args in
  let st := {| model := model; optimizer := optimizer; scaler := scaler;
               dataloader_train := dataloader_train;
               dataloader_val := dataloader_val;
               max_miou := zero; step := 0 |} in
  for_each (py_range (curr_epoch + 1) (num_epochs args + 1))
           (train_epoch args loss_func csv_path) st.

(** ** [main] (lines 145-238), from the parsed arguments on *)

(** Lines 210-218. *)
Definition build_optimizer (args : Args Rate) (m : Model)
  : option (Optimizer Rate OptAcc) :=
  let mk kind opts :=
    {| opt_kind := kind;
       param_groups := [ {| lr := learning_rate args; options := opts |} ];
       opt_state := optim_init kind (params m) |} in
  if String.eqb (optimizer_name args) "rmsprop" then Some (mk RMSprop [])
  else if String.eqb (optimizer_name args) "sgd"
  then Some (mk SGD [("momentum", "0.9"); ("weight_decay", "1e-4")])
  else if String.eqb (optimizer_name args) "adam" then Some (mk Adam [])
  else None.

(** Lines 221-233. *)
Definition load_pretrained (args : Args Rate) (m : Model)
    (o : Optimizer Rate OptAcc) : M (Model * Optimizer Rate OptAcc * Z) :=
  match pretrained_model_path args with
  | None => mret (m, o, 0)
  | Some path =>
      print (nl +:+ banner "*");;
      print ("Loading model from " +:+ path +:+ " ...");;
      loaded_checkpoint ← torch_load path;
      (if wrapped m then mret tt else raise (AttributeError "module"));;
      match loaded_checkpoint with
      | StateDictFile _ => raise (KeyError "model_state_dict")
      | CheckpointFile epoch msd osd =>
          let m := set_params msd m in
          let o := load_state_dict o osd in
          let curr_epoch := epoch + 1 in
          emit (EPrintInt (tab +:+ "- epoch done from last checkpoint: ")
                          (curr_epoch - 1));;
          print "Done!";;
          print (banner "*" +:+ nl);;
          mret (m, o, curr_epoch)
      end
  end.

(** Lines 173-201: the two loaders. *)
Definition csv_path_of (args : Args Rate) : string :=
  os_path_join (data args) "class_dict.csv".

Definition build_dataloader_train (args : Args Rate) : Loader :=
  let train_path :=
    [os_path_join (data args) "train"; os_path_join (data args) "val"] in
  let train_label_path :=
    [os_path_join (data args) "train_labels";
     os_path_join (data args) "val_labels"] in
  let dataset_train :=
    CamVid (Paths train_path) (Paths train_label_path) (csv_path_of args)
           (crop_height args, crop_width args) (loss args) "train" in
  DataLoader dataset_train (batch_size args) true (num_workers args) true.

Definition build_dataloader_val (args : Args Rate) : Loader :=
  let test_path := os_path_join (data args) "test" in
  let test_label_path := os_path_join (data args) "test_labels" in
  let dataset_val :=
    CamVid (OnePath test_path) (OnePath test_label_path) (csv_path_of args)
           (crop_height args, crop_width args) (loss args) "test" in
  (* this has to be 1 *)
  DataLoader dataset_val 1 true (num_workers args) false.

(** Lines 205-207. A fresh module is in training mode. *)
Definition build_model (args : Args Rate) : Model :=
  let model := {| wrapped := false; training := true;
                  params := BiSeNet (num_classes args) (context_path args) |} in
  if cuda_is_available && use_gpu args then DataParallel model else model.

Definition main (args : Args Rate) : M unit :=
  emit (EPrintArgs args);;
  let csv_path := csv_path_of args in
  let dataloader_train := build_dataloader_train args in
  let dataloader_val := build_dataloader_val args in
  emit (ESetEnv "CUDA_VISIBLE_DEVICES" (cuda args));;
  let model := build_model args in
  match build_optimizer args model with
  | None => print ("not supported optimizer " +:+ nl)
  | Some optimizer =>
      '(model, optimizer, curr_epoch) ← load_pretrained args model optimizer;
      st ← train args model optimizer dataloader_train dataloader_val
                 csv_path curr_epoch;
      val args (Program.model st) (Program.dataloader_val st) csv_path;;
      mret tt
  end.

(** The epoch counter [main] hands to [train]: 0, or the checkpoint's
    epoch plus one. *)
Definition resume_epoch (args : Args Rate) (w : World) : Z :=
  match pretrained_model_path args with
  | None => 0
  | Some path =>
      match files w !! path with
      | Some (CheckpointFile epoch _ _) => epoch + 1
      | _ => 0
      end
  end.

(** What loading a checkpoint prints. *)
Definition load_events (path : string) (epoch : Z) : list Event :=
  [EPrint (nl +:+ banner "*");
   EPrint ("Loading model from " +:+ path +:+ " ...");
   ELoad path;
   EPrintInt (tab +:+ "- epoch done from last checkpoint: ") (epoch + 1 - 1);
   EPrint "Done!";
   EPrint (banner "*" +:+ nl)].

(** ** Reading a trace *)

(** The epochs whose body started: one [set_description] per epoch. *)
Definition epoch_of_event (e : Event) : option Z :=
  match e with
  | ETqdm (TqDescription epoch _) => Some epoch
  | _ => None
  end.

Definition epochs_run (tr : list Event) : list Z := omap epoch_of_event tr.

(** The forward passes. *)
Definition model_call_of_event (e : Event) : option (bool * Tensor) :=
  match e with
  | EModelCall mode input => Some (mode, input)
  | _ => None
  end.

Definition model_calls (tr : list Event) : list (bool * Tensor) :=
  omap model_call_of_event tr.

(** Every [torch.save], in order. *)
Definition save_of_event (e : Event) : option (string * File) :=
  match e with
  | ESave path f => Some (path, f)
  | _ => None
  end.

Definition saves (tr : list Event) : list (string * File) :=
  omap save_of_event tr.

Definition is_checkpoint (pf : string * File) : bool :=
  match snd pf with
  | CheckpointFile _ _ _ => true
  | StateDictFile _ => false
  end.

(** The three-key checkpoints written, with their paths. *)
Definition checkpoints_written (tr : list Event) : list (string * File) :=
  filter (fun pf => is_checkpoint pf = true) (saves tr).

(** The mean-IoU of every validation logged under ['epoch/miou val']. *)
Definition miou_of_event (e : Event) : option float :=
  match e with
  | EAddScalar tag (SVFloat x) _ =>
      if String.eqb tag "epoch/miou val" then Some x else None
  | _ => None
  end.

Definition val_mious (tr : list Event) : list float := omap miou_of_event tr.

(** Which validations were preceded by a write of the best-model file:
    [pending] remembers a save at [bp] until the next logged mean-IoU. *)
Fixpoint best_log (bp : string) (pending : bool) (tr : list Event)
  : list (float * bool) :=
  match tr with
  | [] => []
  | e :: tr' =>
      match e with
      | ESave path _ =>
          best_log bp (if String.eqb path bp then true else pending) tr'
      | _ =>
          match miou_of_event e with
          | Some x => (x, pending) :: best_log bp false tr'
          | None => best_log bp pending tr'
          end
      end
  end.

(** How many times a trace wrote the file at [bp]. *)
Definition best_writes (bp : string) (tr : list Event) : nat :=
  length (filter (fun pf => fst pf = bp) (saves tr)).

(** How many validations of a log are flagged as having written it. *)
Definition flagged (l : list (float * bool)) : nat :=
  length (filter (fun x => snd x = true) l).

(** The value of [pending] once a trace has been read. *)
Fixpoint pending_end (bp : string) (pending : bool) (tr : list Event) : bool :=
  match tr with
  | [] => pending
  | e :: tr' =>
      match e with
      | ESave path _ =>
          pending_end bp (if String.eqb path bp then true else pending) tr'
      | _ =>
          match miou_of_event e with
          | Some _ => pending_end bp false tr'
          | None => pending_end bp pending tr'
          end
      end
  end.

(** Events that are no save, no logged mean-IoU and no epoch header. *)
Definition quiet (e : Event) : bool :=
  match e with
  | ESave _ _ => false
  | ETqdm (TqDescription _ _) => false
  | EAddScalar tag (SVFloat _) _ => negb (String.eqb tag "epoch/miou val")
  | _ => true
  end.

(** ** The best-model rule, on its own

    What lines 136-140 do to a sequence of validation results: a result is
    saved when it is strictly greater than the maximum so far. *)
Fixpoint tracker (mx : float) (ms : list float) : list (float * bool) :=
  match ms with
  | [] => []
  | m :: ms' =>
      if gt m mx then (m, true) :: tracker m ms'
      else (m, false) :: tracker mx ms'
  end.

(** The value of [max_miou] after each validation. *)
Fixpoint max_history (mx : float) (ms : list float) : list float :=
  match ms with
  | [] => []
  | m :: ms' =>
      let mx' := if gt m mx then m else mx in
      mx' :: max_history mx' ms'
  end.

Definition running_max (mx : float) (ms : list float) : float :=
  fold_left (fun mx m => if gt m mx then m else mx) ms mx.

(** Consecutive values never decrease. *)
Fixpoint non_decreasing (l : list float) : Prop :=
  match l with
  | a :: (b :: _) as l' => le a b = true /\ non_decreasing l'
  | _ => True
  end.

(** ** The validation result, as the specification words it *)

Definition batch_predict (m : Model) (batch : Tensor * Tensor) : NDArray :=
  to_numpy (reverse_one_hot (squeeze (forward_eval (params m) (fst batch)))).

Definition batch_label (args : Args Rate) (batch : Tensor * Tensor) : NDArray :=
  to_numpy (if String.eqb (loss args) "dice"
            then reverse_one_hot (squeeze (snd batch))
            else squeeze (snd batch)).

(** Global pixel accuracy of one batch. *)
Definition batch_accuracy (args : Args Rate) (m : Model)
    (batch : Tensor * Tensor) : float :=
  compute_global_accuracy (batch_predict m batch) (batch_label args batch).

(** Confusion matrix of one batch. *)
Definition batch_hist (args : Args Rate) (m : Model)
    (batch : Tensor * Tensor) : Hist :=
  fast_hist (flatten (batch_label args batch))
            (flatten (batch_predict m batch)) (num_classes args).

(** The matrix accumulated over a pass, from the zero matrix. *)
Definition accumulated_hist (args : Args Rate) (m : Model)
    (batches : list (Tensor * Tensor)) : Hist :=
  fold_left hist_add (map (batch_hist args m) batches)
            (np_zeros (Z.to_nat (num_classes args))).

(** Mean of the per-batch accuracies; mean of the per-class IoU without
    its last entry. *)
Definition val_spec (args : Args Rate) (m : Model)
    (batches : list (Tensor * Tensor)) : float * float :=
  (np_mean (map (batch_accuracy args m) batches),
   np_mean (removelast (per_class_iu (accumulated_hist args m batches)))).

(** ** The training step, as the specification words it *)

(** The loss applied to each of the three outputs against the same label,
    and the three results added up without weights. *)
Definition three_head_loss (loss_func : LossFn) (p : Params)
    (data label : Tensor) : Tensor :=
  let outs := forward_train p data in
  tensor_add
    (tensor_add (loss_func (fst (fst outs)) label)
                (loss_func (snd (fst outs)) label))
    (loss_func (snd outs) label).

(** What one batch puts on the trace. *)
Definition batch_events (args : Args Rate) (st : TrainState)
    (data : Tensor) (l : Tensor) : list Event :=
  [EModelCall true data; ETqdm (TqUpdate (batch_size args));
   ETqdm (TqPostfix l); EAddScalar "loss_step" (SVTensor l) (step st + 1)].

(** What the batch loop leaves alone: everything but the weights, the
    accumulators, the scale and the step counter. *)
Definition same_but_weights (st st' : TrainState) : Prop :=
  max_miou st' = max_miou st
  /\ param_groups (optimizer st') = param_groups (optimizer st)
  /\ opt_kind (optimizer st') = opt_kind (optimizer st)
  /\ wrapped (model st') = wrapped (model st)
  /\ training (model st') = training (model st)
  /\ dataloader_train st' = dataloader_train st
  /\ dataloader_val st' = dataloader_val st.

(** The epochs at which line 116 saves a checkpoint. *)
Definition checkpoint_due (args : Args Rate) (epoch : Z) : Prop :=
  epoch mod checkpoint_step args = 0 /\ epoch <> 0.

(** The epochs at which line 134 validates. *)
Definition validation_due (args : Args Rate) (epoch : Z) : Prop :=
  epoch mod validation_step args = 0 /\ epoch <> 0.

(** What a computation appended to the trace, between [w] and [w']. *)
Definition new_events (w w' : World) : list Event :=
  drop (length (trace w)) (trace w').

(** The state with which the batch loop of an epoch starts. *)
Definition epoch_start (args : Args Rate) (epoch : Z) (st : TrainState)
  : TrainState :=
  set_dataloader_train (fst (epoch_prologue args epoch st))
    (snd (loader_iter (dataloader_train st))).

(** Every write of a run goes to one of the two fixed names under the
    configured directory: checkpoints to the first, bare state dicts to the
    second. *)
Definition save_ok (args : Args Rate) (pf : string * File) : Prop :=
  exists dir,
    save_model_path args = Some dir
    /\ ((fst pf = latest_path dir /\ is_checkpoint pf = true)
        \/ (fst pf = best_path dir /\ exists msd, snd pf = StateDictFile msd)).

(** A configuration with which the script's own control flow raises
    nothing: a supported loss, non-zero steps, a class count that is not
    negative, an output directory. *)
Record well_configured (args : Args Rate) : Prop := {
  wc_loss : exists f, select_loss args = Some f;
  wc_checkpoint_step : checkpoint_step args <> 0;
  wc_validation_step : validation_step args <> 0;
  wc_num_classes : 0 <= num_classes args;
  wc_save_model_path : exists dir, save_model_path args = Some dir
}.

(** Everything a validation pass prints and calls. *)
Definition val_events (args : Args Rate) (m : Model)
    (batches : list (Tensor * Tensor)) : list Event :=
  [EPrint (nl +:+ banner "="); EPrint "Start val!"]
  ++ map (fun b => EModelCall false (fst b)) batches
  ++ [EPrintFloat "precision per pixel for test: " 3
        (fst (val_spec args m batches));
      EPrintFloat "mIoU for validation: " 3 (snd (val_spec args m batches));
      EPrint (banner "=" +:+ nl)].

(** [w] with [t] appended to its trace. *)
Definition log (w : World) (t : list Event) : World :=
  {| files := files w; dirs := dirs w; trace := trace w ++ t |}.

(** ** More readings of a trace *)

(** The test of line 116, as the interpreter evaluates it. *)
Definition checkpoint_due_b (args : Args Rate) (epoch : Z) : bool :=
  (epoch mod checkpoint_step args =? 0) && negb (epoch =? 0).

(** The epoch fields of the checkpoints written, in order. *)
Definition checkpoint_epoch_of (pf : string * File) : option Z :=
  match snd pf with
  | CheckpointFile epoch _ _ => Some epoch
  | StateDictFile _ => None
  end.

Definition checkpoint_epochs (tr : list Event) : list Z :=
  omap checkpoint_epoch_of (saves tr).

(** The inputs of the forward passes in training mode, and in inference
    mode. *)
Definition training_call_of_event (e : Event) : option Tensor :=
  match e with
  | EModelCall true input => Some input
  | _ => None
  end.

Definition training_calls (tr : list Event) : list Tensor :=
  omap training_call_of_event tr.

Definition eval_call_of_event (e : Event) : option Tensor :=
  match e with
  | EModelCall false input => Some input
  | _ => None
  end.

Definition eval_calls (tr : list Event) : list Tensor :=
  omap eval_call_of_event tr.

(** The global steps under which ['loss_step'] was logged. *)
Definition loss_step_of_event (e : Event) : option Z :=
  match e with
  | EAddScalar tag (SVTensor _) global_step =>
      if String.eqb tag "loss_step" then Some global_step else None
  | _ => None
  end.

Definition loss_steps (tr : list Event) : list Z := omap loss_step_of_event tr.

(** Prints and directory creations: events that call no network, log no
    scalar and save nothing. *)
Definition silent (e : Event) : bool :=
  match e with
  | EPrint _ | EPrintFloat _ _ _ | EPrintInt _ _ | EMkdir _ | ELoad _
  | EPrintArgs _ | ESetEnv _ _ | ESummaryWriter _ => true
  | _ => false
  end.

(** The test of line 134, as the interpreter evaluates it. *)
Definition validation_due_b (args : Args Rate) (epoch : Z) : bool :=
  (epoch mod validation_step args =? 0) && negb (epoch =? 0).

(** The global steps under which ['epoch/miou val'] was logged: the epochs
    that were validated. *)
Definition val_epoch_of_event (e : Event) : option Z :=
  match e with
  | EAddScalar tag (SVFloat _) global_step =>
      if String.eqb tag "epoch/miou val" then Some global_step else None
  | _ => None
  end.

Definition val_epochs (tr : list Event) : list Z := omap val_epoch_of_event tr.

(** The epoch field of a file, when it is a checkpoint. *)
Definition file_epoch (f : option File) : option Z :=
  match f with
  | Some (CheckpointFile epoch _ _) => Some epoch
  | _ => None
  end.

End Program.

(** ** The learning-rate schedule of the specification *)

Module Schedule.

Local Open Scope R_scope.

(** Python's [x ** p] on a non-negative float base: [0 ** p] is [0] for a
    positive exponent. (A negative base gives a complex number in Python;
    the epochs of the loop keep the base in [0, 1).) *)
Definition py_pow (x p : R) : R :=
  if Req_dec_T x 0 then 0 else Rpower x p.

Definition power : R := 9 / 10.

(** [lr0 * (1 - t/T)^power] *)
Definition poly (lr0 : R) (t T : Z) : R :=
  lr0 * py_pow (1 - IZR t / IZR T) power.

(** The floor: a value below the threshold becomes the threshold. *)
Definition clamp (min_lr x : R) : R :=
  if Rlt_dec x min_lr then min_lr else x.

Definition poly_lr (min_lr lr0 : R) (t T : Z) : R :=
  clamp min_lr (poly lr0 t T).

Definition set_lr {Rate : Type} (r : Rate) (g : ParamGroup Rate)
  : ParamGroup Rate :=
  {| lr := r; options := options g |}.

(** Modelled from the spec: [utils.poly_lr_scheduler] is not under src/.
    "compute lr(t) = lr0 * (1 - t/T)^power with a fixed power (0.9) and a
    floor: if the computed value is below a small minimum threshold, clamp
    to that minimum. Side effect: every parameter group in the optimizer's
    state has its learning-rate field overwritten with this value. Returns
    the applied rate". The threshold [min_lr] is not given by the spec and
    is a parameter; floats are idealised as reals. *)
Definition poly_lr_scheduler_spec {OptAcc : Type} (min_lr : R)
    (o : Optimizer R OptAcc) (init_lr : R) (iter max_iter : Z)
  : Optimizer R OptAcc * R :=
  let r := poly_lr min_lr init_lr iter max_iter in
  ({| opt_kind := opt_kind o;
      param_groups := map (set_lr r) (param_groups o);
      opt_state := opt_state o |}, r).

End Schedule.

(** ** A small concrete instance

    A two-class problem on lists of class indices, with the helpers of
    [utils] written out in binary64 arithmetic. It is used to run the
    definitions above on concrete inputs. *)

Module Toy.

Definition of_Z (z : Z) : float := binary_normalize 53 1024 z 0 false.
Definition fdiv : float -> float -> float := SFdiv 53 1024.
Definition fadd : float -> float -> float := SFadd 53 1024.

(** The doubles nearest to 0.40, 0.35 and 0.50. *)
Definition f040 : float := S754_finite false 7205759403792794 (-54).
Definition f035 : float := S754_finite false 6305039478318694 (-54).
Definition f050 : float := S754_finite false 4503599627370496 (-53).

Definition row_sum (h : Hist) (i : nat) : Z :=
  foldr Z.add 0 (default [] (h !! i)).

Definition col_sum (h : Hist) (j : nat) : Z :=
  foldr Z.add 0 (map (fun r => default 0 (r !! j)) h).

Definition diag (h : Hist) (i : nat) : Z :=
  default 0 (default [] (h !! i) !! i).

(** Modelled from the spec: [utils.per_class_iu] is not under src/.
    "intersection = matrix[i][i], union = row_sum(i) + col_sum(i) -
    matrix[i][i]; IoU = intersection/union if union > 0 else NaN". *)
Definition class_iu (h : Hist) : list float :=
  map (fun i =>
         let inter := diag h i in
         let union := row_sum h i + col_sum h i - inter in
         if 0 <? union then fdiv (of_Z inter) (of_Z union) else S754_nan)
      (seq 0 (length h)).

(** A mean: the sum from the left, divided by the length; NaN when empty. *)
Definition mean (l : list float) : float :=
  match l with
  | [] => S754_nan
  | _ => fdiv (fold_left fadd l (of_Z 0)) (of_Z (Z.of_nat (length l)))
  end.

Definition count_equal (a b : list Z) : Z :=
  Z.of_nat (length (filter (fun ab => fst ab = snd ab) (combine a b))).

(** Modelled from the spec: [utils.compute_global_accuracy] is not under
    src/. "fraction of positions where pred equals label, counting all
    positions as the denominator". *)
Definition global_accuracy (pred label : list Z) : float :=
  fdiv (of_Z (count_equal pred label)) (of_Z (Z.of_nat (length label))).

(** A network that is a number of optimizer steps: after [p] steps it
    predicts class 0 on the first [quality p] pixels. *)
Definition quality (p : Z) : Z :=
  if p =? 1 then 8 else if p =? 2 then 7 else if p =? 3 then 10
  else if p =? 6 then 5 else 0.

Definition net_eval (p : Z) (input : list Z) : list Z :=
  map (fun x => if x <? quality p then 0 else 1) input.

Definition mismatches (o l : list Z) : Z :=
  Z.of_nat (length l) - count_equal o l.

Definition train_batches : list (list Z * list Z) :=
  [([0; 1; 2; 3], [0; 1; 0; 1])].

Definition val_batches : list (list Z * list Z) :=
  [(seqZ 0 20, replicate 20 0)].

(** The loader of a split; [drop_last] with a batch larger than the four
    training samples leaves no batch. *)
Definition loader_of (ds : string) (bs : Z) (shuffle : bool) (nw : Z)
    (drop_last : bool) : list (list Z * list Z) :=
  if String.eqb ds "train"
  then if drop_last && (4 <? bs) then [] else train_batches
  else val_batches.

Definition collab (Rate : Type)
    (sched : Optimizer Rate Z -> Rate -> Z -> Z -> Optimizer Rate Z * Rate)
  : Collab Rate :=
  {| Tensor := list Z;
     NDArray := list Z;
     Params := Z;
     OptAcc := Z;
     Scaler := Z;
     Dataset := string;
     Loader := list (list Z * list Z);
     cuda_is_available := true;
     BiSeNet := fun _ _ => 0;
     forward_train := fun p x => (net_eval p x, x, x);
     forward_eval := net_eval;
     DiceLoss := fun o l => [mismatches o l];
     CrossEntropyLoss := fun o l => [2 * mismatches o l];
     tensor_add := zip_with Z.add;
     item := fun t => of_Z (hd 0 t);
     optim_init := fun _ _ => 0;
     zero_grad := fun p => p;
     GradScaler := 16;
     scaled_backward := fun _ _ p => p;
     scaler_step := fun sc _ acc p => (sc, acc + 1, p + 1);
     scaler_update := fun sc => sc + 1;
     poly_lr_scheduler := sched;
     CamVid := fun _ _ _ _ _ mode => mode;
     DataLoader := loader_of;
     loader_len := fun dl => Z.of_nat (length dl);
     loader_iter := fun dl => (dl, dl);
     squeeze := fun t => t;
     reverse_one_hot := fun t => t;
     to_numpy := fun t => t;
     flatten := fun a => a;
     compute_global_accuracy := global_accuracy;
     per_class_iu := class_iu;
     np_mean := mean |}.

(** An integer stand-in for the schedule: [lr0 * (T - t)] on every group. *)
Definition linear_scheduler (o : Optimizer Z Z) (lr0 t T : Z)
  : Optimizer Z Z * Z :=
  let r := lr0 * (T - t) in
  ({| opt_kind := opt_kind o;
      param_groups := map (Schedule.set_lr r) (param_groups o);
      opt_state := opt_state o |}, r).

#[local] Instance collabZ : Collab Z := collab Z linear_scheduler.

Definition args : Args Z :=
  {| num_epochs := 3; epoch_start_i := 0; checkpoint_step := 2;
     validation_step := 1; dataset := "CamVid"; crop_height := 720;
     crop_width := 960; batch_size := 4; context_path := "resnet18";
     learning_rate := 1; data := "../datasets/CamVid/"; num_workers := 8;
     num_classes := 2; cuda := "0"; use_gpu := true;
     pretrained_model_path := None;
     save_model_path := Some "./checkpoints_18_sgd_100";
     optimizer_name := "sgd"; loss := "dice" |}.

Definition world0 : World := {| files := ∅; dirs := ∅; trace := [] |}.

(** A wrapped network with [p] steps behind it. *)
Definition net (training : bool) (p : Z) : Model :=
  {| wrapped := true; training := training; params := p |}.

Definition sgd_groups (rate : Z) : list (ParamGroup Z) :=
  [ {| lr := rate;
       options := [("momentum", "0.9"); ("weight_decay", "1e-4")] |} ].

(** An SGD optimizer with one group at [rate] and [acc] steps behind it,
    and its state dict. *)
Definition sgd (rate acc : Z) : Optimizer Z Z :=
  {| opt_kind := SGD; param_groups := sgd_groups rate; opt_state := acc |}.

Definition sgd_state (rate acc : Z) : OptimizerState :=
  {| sd_param_groups := sgd_groups rate; sd_state := acc |}.

(** The state in which [train] enters its loop on [args]. *)
Definition state0 : TrainState :=
  {| model := build_model args;
     optimizer := sgd 1 0;
     scaler := GradScaler;
     dataloader_train := build_dataloader_train args;
     dataloader_val := build_dataloader_val args;
     max_miou := zero;
     step := 0 |}.

Definition with_loss (a : Args Z) (name : string) : Args Z :=
  {| num_epochs := num_epochs a; epoch_start_i := epoch_start_i a;
     checkpoint_step := checkpoint_step a;
     validation_step := validation_step a; dataset := dataset a;
     crop_height := crop_height a; crop_width := crop_width a;
     batch_size := batch_size a; context_path := context_path a;
     learning_rate := learning_rate a; data := data a;
     num_workers := num_workers a; num_classes := num_classes a;
     cuda := cuda a; use_gpu := use_gpu a;
     pretrained_model_path := pretrained_model_path a;
     save_model_path := save_model_path a;
     optimizer_name := optimizer_name a; loss := name |}.

Definition with_optimizer (a : Args Z) (name : string) : Args Z :=
  {| num_epochs := num_epochs a; epoch_start_i := epoch_start_i a;
     checkpoint_step := checkpoint_step a;
     validation_step := validation_step a; dataset := dataset a;
     crop_height := crop_height a; crop_width := crop_width a;
     batch_size := batch_size a; context_path := context_path a;
     learning_rate := learning_rate a; data := data a;
     num_workers := num_workers a; num_classes := num_classes a;
     cuda := cuda a; use_gpu := use_gpu a;
     pretrained_model_path := pretrained_model_path a;
     save_model_path := save_model_path a;
     optimizer_name := name; loss := loss a |}.

Definition with_batch_size (a : Args Z) (n : Z) : Args Z :=
  {| num_epochs := num_epochs a; epoch_start_i := epoch_start_i a;
     checkpoint_step := checkpoint_step a;
     validation_step := validation_step a; dataset := dataset a;
     crop_height := crop_height a; crop_width := crop_width a;
     batch_size := n; context_path := context_path a;
     learning_rate := learning_rate a; data := data a;
     num_workers := num_workers a; num_classes := num_classes a;
     cuda := cuda a; use_gpu := use_gpu a;
     pretrained_model_path := pretrained_model_path a;
     save_model_path := save_model_path a;
     optimizer_name := optimizer_name a; loss := loss a |}.

(** A run with [--loss foo]. *)
Definition args_foo_loss : Args Z := with_loss args "foo".

(** The same with a batch larger than the training set. *)
Definition args_foo_loss_no_batch : Args Z := with_batch_size args_foo_loss 8.

(** A run with [--optimizer foo]. *)
Definition args_foo_optimizer : Args Z := with_optimizer args "foo".

(** Resuming: the checkpoint of epoch 5 of an earlier run, and a run of 8
    epochs started from it. *)
Definition ckpt_path : string := "./checkpoints_18_sgd_100/latest_dice_loss.pth".

Definition saved_optimizer : OptimizerState := sgd_state 3 5.

Definition resume_args : Args Z :=
  {| num_epochs := 8; epoch_start_i := 0; checkpoint_step := 2;
     validation_step := 1; dataset := "CamVid"; crop_height := 720;
     crop_width := 960; batch_size := 4; context_path := "resnet18";
     learning_rate := 1; data := "../datasets/CamVid/"; num_workers := 8;
     num_classes := 2; cuda := "0"; use_gpu := true;
     pretrained_model_path := Some ckpt_path;
     save_model_path := Some "./checkpoints_18_sgd_100";
     optimizer_name := "sgd"; loss := "dice" |}.

(** The earlier run also left the weights of its best validation, the one
    of step 3 with a mean-IoU of 0.50. *)
Definition best_file_path : string :=
  "./checkpoints_18_sgd_100/best_dice_loss.pth".

Definition resume_world : World :=
  {| files := <[ best_file_path := StateDictFile 3 ]>
              {[ ckpt_path := CheckpointFile 5 5 saved_optimizer ]};
     dirs := {[ "./checkpoints_18_sgd_100" ]};
     trace := [] |}.

(** The runs looked at below. *)
Definition resumed_run : result unit * World := main resume_args resume_world.

Definition foo_loss_run : result unit * World := main args_foo_loss world0.

Definition foo_loss_no_batch_run : result unit * World :=
  main args_foo_loss_no_batch world0.

(** What is read off the state a run returns. *)
Definition final_weights (r : result TrainState * World)
  : option (Z * OptimizerState) :=
  match fst r with
  | Ok st => Some (params (model st), state_dict (optimizer st))
  | Raise _ => None
  end.

Definition final_max_miou (r : result TrainState * World) : option float :=
  match fst r with
  | Ok st => Some (max_miou st)
  | Raise _ => None
  end.

(** Arguments that differ from [args] in what a scenario needs. *)
Definition mk_args (epochs cstep vstep bsize : Z)
    (pretrained save : option string) (opt ls : string) : Args Z :=
  {| num_epochs := epochs; epoch_start_i := 0; checkpoint_step := cstep;
     validation_step := vstep; dataset := "CamVid"; crop_height := 720;
     crop_width := 960; batch_size := bsize; context_path := "resnet18";
     learning_rate := 1; data := "../datasets/CamVid/"; num_workers := 8;
     num_classes := 2; cuda := "0"; use_gpu := true;
     pretrained_model_path := pretrained; save_model_path := save;
     optimizer_name := opt; loss := ls |}.

Definition out_dir : string := "./checkpoints_18_sgd_100".

(** No [--save_model_path]: the default, [None]. *)
Definition args_no_save_path : Args Z :=
  mk_args 3 2 1 4 None None "sgd" "dice".

(** [--checkpoint_step 0]. *)
Definition args_zero_step : Args Z :=
  mk_args 3 0 1 4 None (Some out_dir) "sgd" "dice".

(** Resuming from the best-model file instead of a checkpoint. *)
Definition args_resume_best : Args Z :=
  mk_args 8 2 1 4 (Some best_file_path) (Some out_dir) "sgd" "dice".

(** Resuming from a path where there is no file. *)
Definition args_resume_missing : Args Z :=
  mk_args 8 2 1 4 (Some "./nowhere.pth") (Some out_dir) "sgd" "dice".

(** Resuming a run of 6 epochs from the checkpoint of epoch 5. *)
Definition args_resume_finished : Args Z :=
  mk_args 6 2 1 4 (Some ckpt_path) (Some out_dir) "sgd" "foo".

(** The run of [args] with four classes, of which no label and no
    prediction has the last two: the last is left out of the mean, the
    third makes every mean-IoU NaN. *)
Definition args_four_classes : Args Z :=
  {| num_epochs := 3; epoch_start_i := 0; checkpoint_step := 2;
     validation_step := 1; dataset := "CamVid"; crop_height := 720;
     crop_width := 960; batch_size := 4; context_path := "resnet18";
     learning_rate := 1; data := "../datasets/CamVid/"; num_workers := 8;
     num_classes := 4; cuda := "0"; use_gpu := true;
     pretrained_model_path := None; save_model_path := Some out_dir;
     optimizer_name := "sgd"; loss := "dice" |}.


(** Two validation sets with the same batches in two orders, and a network
    that has seen two steps. *)
Definition val_set_a : list (list Z * list Z) :=
  [([0; 1; 2; 3], [0; 0; 1; 1]); ([4; 5; 6; 7; 8; 9], [0; 1; 1; 1; 0; 0])].

Definition val_set_b : list (list Z * list Z) :=
  [([4; 5; 6; 7; 8; 9], [0; 1; 1; 1; 0; 0]); ([0; 1; 2; 3], [0; 0; 1; 1])].

(** The same instance with real learning rates and the schedule of the
    specification, for the run of the script's own parameter list:
    100 epochs from a base rate of 2.5e-2. *)
Definition min_lr : R := (1 / 100000000)%R.

Definition collabR : Collab R :=
  collab R (Schedule.poly_lr_scheduler_spec min_lr).

Definition argsR : Args R :=
  {| num_epochs := 100; epoch_start_i := 0; checkpoint_step := 2;
     validation_step := 10; dataset := "CamVid"; crop_height := 720;
     crop_width := 960; batch_size := 4; context_path := "resnet18";
     learning_rate := (25 / 1000)%R; data := "../datasets/CamVid/";
     num_workers := 8; num_classes := 12; cuda := "0"; use_gpu := true;
     pretrained_model_path := None;
     save_model_path := Some "./checkpoints_18_sgd_100";
     optimizer_name := "sgd"; loss := "dice" |}.

Definition world0R : @World R collabR :=
  {| files := ∅; dirs := ∅; trace := [] |}.

Definition state0R : @TrainState R collabR :=
  {| model := @build_model R collabR argsR;
     optimizer := {| opt_kind := SGD;
                     param_groups :=
                       [ {| lr := (25 / 1000)%R;
                            options := [("momentum", "0.9");
                                        ("weight_decay", "1e-4")] |} ];
                     opt_state := 0 |};
     scaler := 16;
     dataloader_train := @build_dataloader_train R collabR argsR;
     dataloader_val := @build_dataloader_val R collabR argsR;
     max_miou := zero;
     step := 0 |}.

End Toy.

(** * Properties *)

(** ** Order facts on binary64 values *)

Module FloatFacts.

Lemma zero_not_nan : is_nan zero = false.
Proof. reflexivity. Qed.

Lemma le_zero_zero : le zero zero = true.
Proof. reflexivity. Qed.

Lemma compare_refl (a : float) :
  is_nan a = false -> SFcompare a a = Some Eq.
Proof.
  destruct a as [s|s| |s m e]; simpl; try discriminate; intros _.
  - reflexivity.
  - destruct s; reflexivity.
  - destruct s; rewrite Z.compare_refl, Pos.compare_cont_refl; reflexivity.
Qed.

Lemma le_refl (a : float) : is_nan a = false -> le a a = true.
Proof. intros H. unfold le, SFleb. rewrite compare_refl; auto. Qed.

Lemma gt_le (a b : float) : gt b a = true -> le a b = true.
Proof.
  unfold gt, le, SFltb, SFleb.
  destruct (SFcompare a b) as [[]|]; congruence.
Qed.

Lemma gt_not_nan (a b : float) : gt b a = true -> is_nan b = false.
Proof.
  unfold gt, SFltb. destruct b; try reflexivity.
  destruct a; simpl; congruence.
Qed.

Lemma le_zero_not_nan (a : float) : le zero a = true -> is_nan a = false.
Proof. unfold le, SFleb. destruct a; simpl; congruence. Qed.

(** [0 <= a] and [m <= 0] leave no room for [m > a]. *)
Lemma le_zero_not_gt (a m : float) :
  le zero a = true -> le m zero = true -> gt m a = false.
Proof.
  unfold le, gt, SFleb, SFltb, zero.
  destruct a as [sa|sa| |sa ma ea], m as [sm|sm| |sm mm em]; simpl;
    try congruence;
    repeat match goal with s : bool |- _ => destruct s end; simpl; congruence.
Qed.

(** The maximum only moves up. *)
Lemma le_update (mx m : float) :
  is_nan mx = false -> le mx (if gt m mx then m else mx) = true.
Proof.
  intros H. destruct (gt m mx) eqn:E.
  - apply gt_le; exact E.
  - apply le_refl; exact H.
Qed.

Lemma update_not_nan (mx m : float) :
  is_nan mx = false -> is_nan (if gt m mx then m else mx) = false.
Proof.
  intros H. destruct (gt m mx) eqn:E; [eapply gt_not_nan; eauto | exact H].
Qed.

(** [0 <= mx] is kept by an update. *)
Lemma le_zero_update (mx m : float) :
  le zero mx = true -> le zero (if gt m mx then m else mx) = true.
Proof.
  intros H. destruct (gt m mx) eqn:E; [|exact H].
  unfold le, gt, SFleb, SFltb, zero in *.
  destruct mx as [s|s| |s mm e], m as [s'|s'| |s' mm' e']; simpl in *;
    repeat match goal with s : bool |- _ => destruct s end; simpl in *;
    congruence.
Qed.

End FloatFacts.

(** ** Path facts *)

Lemma append_inj_r (s a b : string) : s +:+ a = s +:+ b -> a = b.
Proof.
  induction s as [|c s IH]; simpl; intros H; [exact H|].
  injection H as H. apply IH; exact H.
Qed.

Lemma latest_ne_best (dir : string) : latest_path dir <> best_path dir.
Proof.
  unfold latest_path, best_path, os_path_join. intros H.
  apply append_inj_r in H. discriminate H.
Qed.

Lemma eqb_latest_best (dir : string) :
  String.eqb (latest_path dir) (best_path dir) = false.
Proof. apply String.eqb_neq, latest_ne_best. Qed.

Lemma py_range_nil (a b : Z) : b <= a -> py_range a b = [].
Proof.
  intros H. unfold py_range, seqZ.
  replace (Z.to_nat (b - a)) with O by lia. reflexivity.
Qed.

Lemma py_range_cons (a b : Z) : a < b -> py_range a b = a :: py_range (a + 1) b.
Proof.
  intros H. unfold py_range.
  rewrite (seqZ_cons a (b - a)) by lia.
  f_equal. f_equal; lia.
Qed.

Section ProgramFacts.

Context {Rate : Type} `{C : Collab Rate}.

Implicit Types (w : World) (t : list Event) (st : TrainState).

Abbreviation LossFn := (Tensor -> Tensor -> Tensor).

#[local] Arguments banner : simpl never.
#[local] Arguments nl : simpl never.
#[local] Arguments tab : simpl never.
#[local] Arguments latest_path : simpl never.
#[local] Arguments best_path : simpl never.
#[local] Arguments val_events : simpl never.
#[local] Arguments val_spec : simpl never.
#[local] Arguments String.append : simpl never.

(** ** The monad *)

Lemma log_nil w : log w [] = w.
Proof. destruct w; unfold log; simpl. rewrite app_nil_r. reflexivity. Qed.

Lemma log_log w t1 t2 : log (log w t1) t2 = log w (t1 ++ t2).
Proof. unfold log; simpl. rewrite app_assoc. reflexivity. Qed.

Lemma emit_log (e : Event) w : emit e w = (Ok tt, log w [e]).
Proof. reflexivity. Qed.

Lemma bind_ok_inv {A B : Type} (m : M A) (f : A -> M B) w (b : B) w' :
  (m ≫= f) w = (Ok b, w') ->
  exists a w1, m w = (Ok a, w1) /\ f a w1 = (Ok b, w').
Proof.
  unfold mbind, M_bind. destruct (m w) as [[a|e] w1]; intros H.
  - exists a, w1. split; [reflexivity | exact H].
  - discriminate H.
Qed.

Lemma bind_ok {A B : Type} (m : M A) (f : A -> M B) w (a : A) w1 :
  m w = (Ok a, w1) -> (m ≫= f) w = f a w1.
Proof. intros H. unfold mbind, M_bind. rewrite H. reflexivity. Qed.

Lemma bind_raise {A B : Type} (m : M A) (f : A -> M B) w (e : exn) w1 :
  m w = (Raise e, w1) -> (m ≫= f) w = (Raise e, w1).
Proof. intros H. unfold mbind, M_bind. rewrite H. reflexivity. Qed.

(** ** Digests of a trace *)

Lemma epochs_run_app t1 t2 : epochs_run (t1 ++ t2) = epochs_run t1 ++ epochs_run t2.
Proof. apply omap_app. Qed.

Lemma saves_app t1 t2 : saves (t1 ++ t2) = saves t1 ++ saves t2.
Proof. apply omap_app. Qed.

Lemma val_mious_app t1 t2 : val_mious (t1 ++ t2) = val_mious t1 ++ val_mious t2.
Proof. apply omap_app. Qed.

Lemma model_calls_app t1 t2 :
  model_calls (t1 ++ t2) = model_calls t1 ++ model_calls t2.
Proof. apply omap_app. Qed.

Lemma checkpoints_written_app t1 t2 :
  checkpoints_written (t1 ++ t2)
  = checkpoints_written t1 ++ checkpoints_written t2.
Proof. unfold checkpoints_written. rewrite saves_app. apply filter_app. Qed.

Lemma best_log_app (bp : string) t1 t2 (p : bool) :
  best_log bp p (t1 ++ t2)
  = best_log bp p t1 ++ best_log bp (pending_end bp p t1) t2.
Proof.
  revert p. induction t1 as [|e t1 IH]; intros p; simpl; [reflexivity|].
  destruct e; simpl; try apply IH.
  destruct value; simpl; try apply IH.
  destruct (String.eqb tag "epoch/miou val"); simpl; [|apply IH].
  rewrite IH. reflexivity.
Qed.

Lemma pending_end_app (bp : string) t1 t2 (p : bool) :
  pending_end bp p (t1 ++ t2) = pending_end bp (pending_end bp p t1) t2.
Proof.
  revert p. induction t1 as [|e t1 IH]; intros p; simpl; [reflexivity|].
  destruct e; simpl; try apply IH.
  destruct value; simpl; try apply IH.
  destruct (String.eqb tag "epoch/miou val"); simpl; apply IH.
Qed.

(** A stretch of quiet events is invisible to every digest. *)
Lemma quiet_digests t :
  Forall (fun e => quiet e = true) t ->
  epochs_run t = [] /\ saves t = [] /\ val_mious t = []
  /\ (forall bp p, best_log bp p t = [] /\ pending_end bp p t = p).
Proof.
  induction 1 as [|e t He _ (IH1 & IH2 & IH3 & IH4)]; [repeat split|].
  unfold epochs_run, saves, val_mious in *.
  destruct e as [?|?|? ? ?|? ?|tq|?|tag v gs|? ?|? ?|?|? ?|?];
    try destruct tq; try destruct v; simpl in *;
    try discriminate He; repeat split; try assumption;
    try intros bp p; try apply IH4.
  all: destruct (String.eqb tag "epoch/miou val"); try discriminate He;
    simpl; try assumption; apply IH4.
Qed.

Lemma quiet_epochs_run t :
  Forall (fun e => quiet e = true) t -> epochs_run t = [].
Proof. intros H. apply quiet_digests in H. tauto. Qed.

Lemma quiet_saves t : Forall (fun e => quiet e = true) t -> saves t = [].
Proof. intros H. apply quiet_digests in H. tauto. Qed.

Lemma quiet_checkpoints t :
  Forall (fun e => quiet e = true) t -> checkpoints_written t = [].
Proof. intros H. unfold checkpoints_written. rewrite quiet_saves; auto. Qed.

Lemma quiet_val_mious t :
  Forall (fun e => quiet e = true) t -> val_mious t = [].
Proof. intros H. apply quiet_digests in H. tauto. Qed.

Lemma quiet_best_log t (bp : string) (p : bool) :
  Forall (fun e => quiet e = true) t -> best_log bp p t = [].
Proof. intros H. apply quiet_digests in H. apply H. Qed.

Lemma quiet_pending_end t (bp : string) (p : bool) :
  Forall (fun e => quiet e = true) t -> pending_end bp p t = p.
Proof. intros H. apply quiet_digests in H. apply H. Qed.

Lemma quiet_val_events (args : Args Rate) (m : Model)
    (batches : list (Tensor * Tensor)) :
  Forall (fun e => quiet e = true) (val_events args m batches).
Proof.
  unfold val_events. repeat (apply Forall_app; split);
    try (repeat constructor).
  induction batches as [|b batches IH]; simpl; constructor; auto.
Qed.

(** ** Confusion matrices *)

Lemma zip_add_comm (r1 r2 : list Z) :
  zip_with Z.add r1 r2 = zip_with Z.add r2 r1.
Proof.
  revert r2. induction r1 as [|a r1 IH]; intros [|b r2]; simpl; try reflexivity.
  rewrite IH. f_equal. lia.
Qed.

Lemma zip_add_assoc (r1 r2 r3 : list Z) :
  zip_with Z.add (zip_with Z.add r1 r2) r3
  = zip_with Z.add r1 (zip_with Z.add r2 r3).
Proof.
  revert r2 r3. induction r1 as [|a r1 IH]; intros [|b r2] [|c r3]; simpl;
    try reflexivity.
  rewrite IH. f_equal. lia.
Qed.

Lemma hist_add_comm (h1 h2 : Hist) : hist_add h1 h2 = hist_add h2 h1.
Proof.
  unfold hist_add. revert h2.
  induction h1 as [|a h1 IH]; intros [|b h2]; simpl; try reflexivity.
  rewrite IH, zip_add_comm. reflexivity.
Qed.

Lemma hist_add_assoc (h1 h2 h3 : Hist) :
  hist_add (hist_add h1 h2) h3 = hist_add h1 (hist_add h2 h3).
Proof.
  unfold hist_add. revert h2 h3.
  induction h1 as [|a h1 IH]; intros [|b h2] [|c h3]; simpl; try reflexivity.
  rewrite IH, zip_add_assoc. reflexivity.
Qed.

(** Two batches may be added in either order. *)
Lemma hist_add_swap (h h1 h2 : Hist) :
  hist_add (hist_add h h1) h2 = hist_add (hist_add h h2) h1.
Proof.
  rewrite !hist_add_assoc. f_equal. apply hist_add_comm.
Qed.

(** So may any number of them. *)
Lemma hist_fold_permutation (hs hs' : list Hist) :
  Permutation hs hs' ->
  forall h, fold_left hist_add hs h = fold_left hist_add hs' h.
Proof.
  induction 1 as [|x l l' _ IH|x y l|l l' l'' _ IH1 _ IH2]; intros h; simpl.
  - reflexivity.
  - apply IH.
  - rewrite hist_add_swap. reflexivity.
  - rewrite IH1. apply IH2.
Qed.

(** ** [val] *)

Lemma val_batch_ok (args : Args Rate) (m : Model) (rec : list float)
    (hist : Hist) (b : Tensor * Tensor) w :
  training m = false ->
  val_batch args m (rec, hist) b w
  = (Ok (rec ++ [batch_accuracy args m b],
         hist_add hist (batch_hist args m b)),
     log w [EModelCall false (fst b)]).
Proof.
  intros Hm. destruct b as [data label].
  unfold val_batch, call_model, mbind, M_bind, mret, M_ret.
  rewrite emit_log, Hm. simpl.
  unfold batch_accuracy, batch_hist, batch_predict, batch_label. simpl.
  destruct (String.eqb (loss args) "dice"); reflexivity.
Qed.

Lemma val_loop_ok (args : Args Rate) (m : Model)
    (batches : list (Tensor * Tensor)) :
  training m = false ->
  forall (rec : list float) (hist : Hist) w,
    for_each batches (val_batch args m) (rec, hist) w
    = (Ok (rec ++ map (batch_accuracy args m) batches,
           fold_left hist_add (map (batch_hist args m) batches) hist),
       log w (map (fun b => EModelCall false (fst b)) batches)).
Proof.
  intros Hm. induction batches as [|b batches IH]; intros rec hist w; simpl.
  - rewrite app_nil_r, log_nil. reflexivity.
  - erewrite bind_ok by (apply val_batch_ok; exact Hm).
    rewrite IH, log_log, <- app_assoc. reflexivity.
Qed.

Lemma val_ok (args : Args Rate) (m : Model) (dl : Loader)
    (csv_path : string) w :
  0 <= num_classes args ->
  val args m dl csv_path w
  = (Ok (fst (val_spec args m (fst (loader_iter dl))),
         snd (val_spec args m (fst (loader_iter dl))),
         set_training false m, snd (loader_iter dl)),
     log w (val_events args m (fst (loader_iter dl)))).
Proof.
  intros Hn. unfold val, print.
  unfold mbind at 1, M_bind at 1. rewrite emit_log.
  unfold mbind at 1, M_bind at 1. rewrite emit_log.
  unfold mbind at 1, M_bind at 1.
  destruct (Z.ltb_spec (num_classes args) 0) as [Hneg|_]; [lia|].
  unfold mret at 1, M_ret at 1.
  destruct (loader_iter dl) as [batches dl'] eqn:Hdl. simpl fst; simpl snd.
  unfold val_loop.
  erewrite bind_ok by (apply val_loop_ok; reflexivity).
  unfold mbind, M_bind, mret, M_ret. rewrite !emit_log, !log_log.
  reflexivity.
Qed.

Lemma val_negative_classes (args : Args Rate) (m : Model) (dl : Loader)
    (csv_path : string) w :
  num_classes args < 0 ->
  val args m dl csv_path w
  = (Raise (ValueError "negative dimensions are not allowed"),
     log w [EPrint (nl +:+ banner "="); EPrint "Start val!"]).
Proof.
  intros Hn. unfold val, print.
  unfold mbind at 1, M_bind at 1. rewrite emit_log.
  unfold mbind at 1, M_bind at 1. rewrite emit_log.
  unfold mbind at 1, M_bind at 1.
  destruct (Z.ltb_spec (num_classes args) 0) as [_|Hpos]; [|lia].
  unfold raise. rewrite log_log. reflexivity.
Qed.

(** A validation that returns is the one [val_ok] describes. *)
Lemma val_ok_inv (args : Args Rate) (m : Model) (dl : Loader)
    (csv_path : string) w (r : float * float * Model * Loader) w' :
  val args m dl csv_path w = (Ok r, w') ->
  r = (fst (val_spec args m (fst (loader_iter dl))),
       snd (val_spec args m (fst (loader_iter dl))),
       set_training false m, snd (loader_iter dl))
  /\ w' = log w (val_events args m (fst (loader_iter dl))).
Proof.
  intros H. destruct (Z.lt_ge_cases (num_classes args) 0) as [Hn|Hn].
  - rewrite val_negative_classes in H by exact Hn. discriminate H.
  - rewrite val_ok in H by exact Hn. injection H as <- <-. split; reflexivity.
Qed.

(** ** The batch loop *)

Lemma same_but_weights_refl st : same_but_weights st st.
Proof. repeat split. Qed.

Lemma same_but_weights_trans st1 st2 st3 :
  same_but_weights st1 st2 -> same_but_weights st2 st3 ->
  same_but_weights st1 st3.
Proof.
  unfold same_but_weights.
  intros (A1 & A2 & A3 & A4 & A5 & A6 & A7) (B1 & B2 & B3 & B4 & B5 & B6 & B7).
  repeat split; congruence.
Qed.

Lemma backward_and_step_same st (l : Tensor) :
  same_but_weights st (backward_and_step st l).
Proof.
  unfold backward_and_step.
  destruct (scaler_step _ _ _ _) as [[sc acc] p]. repeat split.
Qed.

Lemma train_batch_ok (args : Args Rate) (f : LossFn) st (rec : list float)
    (data label : Tensor) w :
  training (model st) = true ->
  train_batch args (Some f) (st, rec) (data, label) w
  = (Ok (backward_and_step st
           (three_head_loss f (params (model st)) data label),
         rec ++ [item (three_head_loss f (params (model st)) data label)]),
     log w (batch_events args st data
              (three_head_loss f (params (model st)) data label))).
Proof.
  intros Hm. unfold train_batch, call_model, read_local, three_head_loss,
    aggregate_loss, batch_events.
  unfold mbind, M_bind, mret, M_ret. rewrite !emit_log, Hm.
  destruct (forward_train (params (model st)) data) as [[o s1] s2]. simpl.
  unfold backward_and_step.
  destruct (scaler_step _ _ _ _) as [[sc acc] p]. simpl.
  unfold log; simpl. rewrite <- !app_assoc. reflexivity.
Qed.

(** With no loss function bound, the batch is fetched and run through the
    network before the name is looked up. *)
Lemma train_batch_unbound (args : Args Rate) st (rec : list float)
    (data label : Tensor) w :
  training (model st) = true ->
  train_batch args None (st, rec) (data, label) w
  = (Raise (UnboundLocalError "loss_func"), log w [EModelCall true data]).
Proof.
  intros Hm. unfold train_batch, call_model, read_local.
  unfold mbind, M_bind, mret, M_ret. rewrite !emit_log, Hm.
  destruct (forward_train (params (model st)) data) as [[o s1] s2].
  reflexivity.
Qed.

Lemma train_batch_eval_mode (args : Args Rate) (lf : option LossFn) st
    (rec : list float) (data label : Tensor) w :
  training (model st) = false ->
  train_batch args lf (st, rec) (data, label) w
  = (Raise (ValueError "not enough values to unpack"),
     log w [EModelCall false data]).
Proof.
  intros Hm. unfold train_batch, call_model.
  unfold mbind, M_bind, mret, M_ret. rewrite !emit_log, Hm. reflexivity.
Qed.

Lemma quiet_batch_events (args : Args Rate) st (data l : Tensor) :
  Forall (fun e => quiet e = true) (batch_events args st data l).
Proof. repeat constructor. Qed.

Lemma train_batch_inv (args : Args Rate) (lf : option LossFn) st
    (rec : list float) (b : Tensor * Tensor) w st' (rec' : list float) w' :
  train_batch args lf (st, rec) b w = (Ok (st', rec'), w') ->
  exists f,
    lf = Some f /\ training (model st) = true
    /\ st' = backward_and_step st
               (three_head_loss f (params (model st)) (fst b) (snd b))
    /\ w' = log w (batch_events args st (fst b)
                     (three_head_loss f (params (model st)) (fst b) (snd b))).
Proof.
  destruct b as [data label]. intros H.
  destruct (training (model st)) eqn:Hm.
  - destruct lf as [f|].
    + rewrite train_batch_ok in H by exact Hm. injection H as <- _ <-.
      exists f. repeat split.
    + rewrite train_batch_unbound in H by exact Hm. discriminate H.
  - rewrite train_batch_eval_mode in H by exact Hm. discriminate H.
Qed.

Lemma train_batches_inv (args : Args Rate) (lf : option LossFn)
    (batches : list (Tensor * Tensor)) :
  forall st (rec : list float) w st' (rec' : list float) w',
    for_each batches (train_batch args lf) (st, rec) w = (Ok (st', rec'), w') ->
    same_but_weights st st'
    /\ exists tb, Forall (fun e => quiet e = true) tb /\ w' = log w tb.
Proof.
  induction batches as [|b batches IH]; intros st rec w st' rec' w' H; simpl in H.
  - injection H as <- _ <-. split; [apply same_but_weights_refl|].
    exists []. split; [constructor | symmetry; apply log_nil].
  - apply bind_ok_inv in H. destruct H as ([st1 rec1] & w1 & H1 & H2).
    apply train_batch_inv in H1. destruct H1 as (f & _ & _ & -> & ->).
    apply IH in H2. destruct H2 as (Hs & tb & Hq & ->).
    split.
    + eapply same_but_weights_trans; [apply backward_and_step_same | exact Hs].
    + eexists. split; [|rewrite log_log; reflexivity].
      apply Forall_app. split; [apply quiet_batch_events | exact Hq].
Qed.

(** A run of the batch loop that returns had a loss function, unless there
    was no batch. *)
Lemma train_batches_ok (args : Args Rate) (f : LossFn)
    (batches : list (Tensor * Tensor)) :
  forall st (rec : list float) w,
    training (model st) = true ->
    exists st' (rec' : list float) w',
      for_each batches (train_batch args (Some f)) (st, rec) w
      = (Ok (st', rec'), w').
Proof.
  induction batches as [|[data label] batches IH]; intros st rec w Hm; simpl.
  - eexists _, _, _. reflexivity.
  - erewrite bind_ok by (apply train_batch_ok; exact Hm).
    apply IH.
    destruct (backward_and_step_same st
                (three_head_loss f (params (model st)) data label))
      as (_ & _ & _ & _ & Ht & _).
    rewrite Ht. exact Hm.
Qed.

(** ** The checkpoint phase *)

Lemma due_test (step epoch : Z) :
  ((epoch mod step =? 0) && negb (epoch =? 0) = true)
  <-> (epoch mod step = 0 /\ epoch <> 0).
Proof.
  rewrite andb_true_iff, negb_true_iff, Z.eqb_eq, Z.eqb_neq. reflexivity.
Qed.

Lemma checkpoint_phase_inv (args : Args Rate) (epoch : Z) st w w' :
  checkpoint_phase args epoch st w = (Ok tt, w') ->
  checkpoint_step args <> 0
  /\ ((checkpoint_due args epoch
       /\ exists dir qa qb,
           save_model_path args = Some dir
           /\ wrapped (model st) = true
           /\ Forall (fun e => quiet e = true) qa
           /\ Forall (fun e => quiet e = true) qb
           /\ files w'
              = <[latest_path dir :=
                    CheckpointFile epoch (params (model st))
                                   (state_dict (optimizer st))]> (files w)
           /\ trace w'
              = trace w ++ qa
                ++ ESave (latest_path dir)
                     (CheckpointFile epoch (params (model st))
                                     (state_dict (optimizer st))) :: qb)
      \/ (~ checkpoint_due args epoch /\ w' = w)).
Proof.
  unfold checkpoint_phase, py_mod, checkpoint_due.
  destruct (Z.eqb_spec (checkpoint_step args) 0) as [Hz|Hz].
  { intros H. discriminate H. }
  unfold mbind at 1, M_bind at 1, mret at 1, M_ret at 1.
  destruct ((epoch mod checkpoint_step args =? 0) && negb (epoch =? 0))
    eqn:Hdue.
  - apply due_test in Hdue. intros H. split; [exact Hz|]. left.
    split; [exact Hdue|].
    unfold print, fspath, os_path_isdir, os_mkdir, module_state_dict,
      torch_save, emit, raise, mbind, M_bind, mret, M_ret in H.
    simpl in H.
    destruct (save_model_path args) as [dir|]; [|discriminate H].
    exists dir.
    destruct (bool_decide _) in H; cbn in H;
      (destruct (wrapped (model st)); cbn in H; [|discriminate H]);
      injection H as <-; cbn.
    + exists [EPrint (nl +:+ banner "*"); EPrint "Saving checkpoint..."],
        [EPrint "Done!"; EPrint (banner "*" +:+ nl)].
      repeat split; try (repeat constructor).
      rewrite <- !app_assoc. reflexivity.
    + exists [EPrint (nl +:+ banner "*"); EPrint "Saving checkpoint...";
              EMkdir dir],
        [EPrint "Done!"; EPrint (banner "*" +:+ nl)].
      repeat split; try (repeat constructor).
      rewrite <- !app_assoc. reflexivity.
  - intros H. injection H as <-. split; [exact Hz|]. right.
    split; [|reflexivity].
    intros Hd. apply due_test in Hd. congruence.
Qed.

(** ** The validation phase *)

Lemma validation_phase_inv (args : Args Rate) (csv_path : string) (epoch : Z)
    st w st' w' :
  validation_phase args csv_path epoch st w = (Ok st', w') ->
  validation_step args <> 0
  /\ ((~ validation_due args epoch /\ st' = st /\ w' = w)
      \/ (validation_due args epoch
          /\ let bs := fst (loader_iter (dataloader_val st)) in
             let precision := fst (val_spec args (model st) bs) in
             let miou := snd (val_spec args (model st) bs) in
             let stv := set_val_result st (set_training false (model st))
                          (snd (loader_iter (dataloader_val st))) in
             let tail :=
               [EAddScalar "epoch/precision_val" (SVFloat precision) epoch;
                EAddScalar "epoch/miou val" (SVFloat miou) epoch] in
             (gt miou (max_miou st) = false
              /\ st' = stv
              /\ w' = log w (val_events args (model st) bs ++ tail))
             \/ (gt miou (max_miou st) = true
                 /\ st' = set_max_miou stv miou
                 /\ exists dir qm,
                     save_model_path args = Some dir
                     /\ wrapped (model st) = true
                     /\ Forall (fun e => quiet e = true) qm
                     /\ files w'
                        = <[best_path dir :=
                              StateDictFile (params (model st))]> (files w)
                     /\ trace w'
                        = trace w ++ val_events args (model st) bs ++ qm
                          ++ ESave (best_path dir)
                               (StateDictFile (params (model st))) :: tail))).
Proof.
  unfold validation_phase, py_mod, validation_due.
  destruct (Z.eqb_spec (validation_step args) 0) as [Hz|Hz].
  { intros H. discriminate H. }
  unfold mbind at 1, M_bind at 1, mret at 1, M_ret at 1.
  destruct ((epoch mod validation_step args =? 0) && negb (epoch =? 0))
    eqn:Hdue.
  - apply due_test in Hdue. intros H. split; [exact Hz|]. right.
    split; [exact Hdue|].
    apply bind_ok_inv in H. destruct H as (r & w1 & Hval & H).
    apply val_ok_inv in Hval. destruct Hval as [-> ->].
    cbn zeta. cbn beta iota in H.
    set (bs := fst (loader_iter (dataloader_val st))) in *.
    set (miou := snd (val_spec args (model st) bs)) in *.
    set (precision := fst (val_spec args (model st) bs)) in *.
    simpl max_miou in H.
    destruct (gt miou (max_miou st)) eqn:Hgt.
    + right. split; [reflexivity|].
      unfold print, fspath, os_makedirs, os_mkdir, module_state_dict,
        torch_save, emit, raise, mbind, M_bind, mret, M_ret in H.
      cbn in H.
      destruct (save_model_path args) as [dir|]; [|discriminate H].
      destruct (bool_decide _) in H; cbn in H;
        (destruct (wrapped (model st)); cbn in H; [|discriminate H]);
        injection H as <- <-; (split; [reflexivity|]); exists dir.
      * exists []. repeat split; try constructor.
        cbn. rewrite <- !app_assoc. reflexivity.
      * exists [EMkdir dir]. repeat split; try (repeat constructor).
        cbn. rewrite <- !app_assoc. reflexivity.
    + left. split; [reflexivity|].
      unfold emit, mbind, M_bind, mret, M_ret in H. cbn in H.
      injection H as <- <-. split; [reflexivity|].
      unfold log. cbn. rewrite <- !app_assoc. reflexivity.
  - intros H. injection H as <- <-. split; [exact Hz|]. left.
    split; [|split; reflexivity].
    intros Hd. apply due_test in Hd. congruence.
Qed.

(** ** One epoch *)

Lemma new_events_app w w' t : trace w' = trace w ++ t -> new_events w w' = t.
Proof. intros H. unfold new_events. rewrite H. apply drop_app_length. Qed.

Lemma new_events_log w t : new_events w (log w t) = t.
Proof. apply new_events_app. reflexivity. Qed.

Lemma epoch_start_training (args : Args Rate) (epoch : Z) st :
  training (model (epoch_start args epoch st)) = true.
Proof.
  unfold epoch_start, epoch_prologue.
  destruct (poly_lr_scheduler _ _ _ _) as [opt lr]. reflexivity.
Qed.

Lemma epoch_start_max (args : Args Rate) (epoch : Z) st :
  max_miou (epoch_start args epoch st) = max_miou st.
Proof.
  unfold epoch_start, epoch_prologue.
  destruct (poly_lr_scheduler _ _ _ _) as [opt lr]. reflexivity.
Qed.

Lemma epoch_start_wrapped (args : Args Rate) (epoch : Z) st :
  wrapped (model (epoch_start args epoch st)) = wrapped (model st).
Proof.
  unfold epoch_start, epoch_prologue.
  destruct (poly_lr_scheduler _ _ _ _) as [opt lr]. reflexivity.
Qed.

Lemma epoch_start_optimizer (args : Args Rate) (epoch : Z) st :
  optimizer (epoch_start args epoch st)
  = fst (poly_lr_scheduler (optimizer st) (learning_rate args) epoch
           (num_epochs args)).
Proof.
  unfold epoch_start, epoch_prologue.
  destruct (poly_lr_scheduler _ _ _ _) as [opt lr]. reflexivity.
Qed.

Lemma train_epoch_inv (args : Args Rate) (lf : option LossFn)
    (csv_path : string) st (epoch : Z) w st' w' :
  train_epoch args lf csv_path st epoch w = (Ok st', w') ->
  exists st1 tb w2,
    same_but_weights (epoch_start args epoch st) st1
    /\ Forall (fun e => quiet e = true) tb
    /\ checkpoint_phase args epoch st1
         (log w (ETqdm (TqOpen (loader_len (dataloader_train st)
                                * batch_size args))
                 :: ETqdm (TqDescription epoch
                             (snd (epoch_prologue args epoch st)))
                 :: tb))
       = (Ok tt, w2)
    /\ validation_phase args csv_path epoch st1 w2 = (Ok st', w').
Proof.
  unfold train_epoch, epoch_start.
  destruct (epoch_prologue args epoch st) as [st0 lr] eqn:Hpro.
  assert (Hdl : dataloader_train st0 = dataloader_train st).
  { unfold epoch_prologue in Hpro.
    destruct (poly_lr_scheduler _ _ _ _). injection Hpro as <- _. reflexivity. }
  intros H.
  unfold mbind at 1, M_bind at 1 in H. rewrite emit_log in H.
  unfold mbind at 1, M_bind at 1 in H. rewrite emit_log, log_log in H.
  rewrite Hdl in H.
  destruct (loader_iter (dataloader_train st)) as [batches dl] eqn:Hit.
  apply bind_ok_inv in H. destruct H as ([st1 rec] & w1 & Hb & H).
  apply train_batches_inv in Hb. destruct Hb as (Hs & tb & Hq & ->).
  unfold mbind at 1, M_bind at 1 in H. rewrite emit_log, log_log in H.
  unfold mbind at 1, M_bind at 1 in H. rewrite emit_log, log_log in H.
  unfold mbind at 1, M_bind at 1 in H. rewrite emit_log, log_log in H.
  apply bind_ok_inv in H. destruct H as ([] & w2 & Hc & Hv).
  exists st1, (tb ++ [ETqdm TqClose;
                      EAddScalar "epoch/loss_epoch_train"
                        (SVFloat (np_mean rec)) epoch;
                      EPrintFloat "loss for train : " 6 (np_mean rec)]), w2.
  simpl fst; simpl snd.
  split; [exact Hs|]. split.
  { apply Forall_app. split; [exact Hq | repeat constructor]. }
  split; [|exact Hv].
  rewrite <- Hc, !log_log. simpl. rewrite <- ?app_assoc. reflexivity.
Qed.

(** ** What an epoch leaves on the trace *)

Lemma epochs_run_cons (e : Event) t :
  epochs_run (e :: t)
  = match epoch_of_event e with
    | Some x => x :: epochs_run t
    | None => epochs_run t
    end.
Proof. reflexivity. Qed.

Lemma saves_cons (e : Event) t :
  saves (e :: t)
  = match save_of_event e with
    | Some x => x :: saves t
    | None => saves t
    end.
Proof. reflexivity. Qed.

Lemma val_mious_cons (e : Event) t :
  val_mious (e :: t)
  = match miou_of_event e with
    | Some x => x :: val_mious t
    | None => val_mious t
    end.
Proof. reflexivity. Qed.

Lemma quiet_cons_save_digests (path : string) (f : File) t :
  Forall (fun e => quiet e = true) t ->
  epochs_run (ESave path f :: t) = []
  /\ val_mious (ESave path f :: t) = []
  /\ saves (ESave path f :: t) = [(path, f)].
Proof.
  intros H. rewrite epochs_run_cons, val_mious_cons, saves_cons. simpl.
  rewrite quiet_epochs_run, quiet_val_mious, quiet_saves by exact H.
  repeat split.
Qed.

(** The checkpoint phase, read through the digests. *)
Lemma checkpoint_phase_summary (args : Args Rate) (epoch : Z) st w w' :
  checkpoint_phase args epoch st w = (Ok tt, w') ->
  trace w' = trace w ++ new_events w w'
  /\ epochs_run (new_events w w') = []
  /\ val_mious (new_events w w') = []
  /\ Forall (save_ok args) (saves (new_events w w'))
  /\ (forall dir (p : bool),
        save_model_path args = Some dir ->
        best_log (best_path dir) p (new_events w w') = []
        /\ pending_end (best_path dir) p (new_events w w') = p)
  /\ (checkpoint_due args epoch ->
      exists dir,
        save_model_path args = Some dir
        /\ checkpoints_written (new_events w w')
           = [(latest_path dir,
               CheckpointFile epoch (params (model st))
                              (state_dict (optimizer st)))]
        /\ files w'
           = <[latest_path dir :=
                 CheckpointFile epoch (params (model st))
                                (state_dict (optimizer st))]> (files w))
  /\ (~ checkpoint_due args epoch -> w' = w).
Proof.
  intros H. apply checkpoint_phase_inv in H.
  destruct H as (_ & [(Hdue & dir & qa & qb & Hdir & _ & Hqa & Hqb & Hf & Ht)
                     | (Hnd & ->)]).
  - rewrite (new_events_app _ _ _ Ht).
    destruct (quiet_cons_save_digests (latest_path dir)
                (CheckpointFile epoch (params (model st))
                                (state_dict (optimizer st))) qb Hqb)
      as (E1 & E2 & E3).
    split; [exact Ht|].
    split; [rewrite epochs_run_app, E1, quiet_epochs_run by exact Hqa; reflexivity|].
    split; [rewrite val_mious_app, E2, quiet_val_mious by exact Hqa; reflexivity|].
    split.
    { rewrite saves_app, E3, quiet_saves by exact Hqa. simpl.
      constructor; [|constructor].
      exists dir. split; [exact Hdir|]. left. split; reflexivity. }
    split.
    { intros dir' p Hdir'. rewrite Hdir in Hdir'. injection Hdir' as <-.
      rewrite best_log_app, pending_end_app.
      rewrite quiet_best_log, quiet_pending_end by exact Hqa. simpl.
      rewrite eqb_latest_best.
      rewrite quiet_best_log, quiet_pending_end by exact Hqb.
      split; reflexivity. }
    split; [|intros Hnd; contradiction].
    intros _. exists dir. split; [exact Hdir|]. split; [|exact Hf].
    unfold checkpoints_written.
    rewrite saves_app, E3, quiet_saves by exact Hqa. reflexivity.
  - assert (Hn : new_events w w = []).
    { apply new_events_app. rewrite app_nil_r. reflexivity. }
    rewrite Hn. split; [rewrite app_nil_r; reflexivity|].
    repeat split; try constructor; try contradiction.
Qed.

(** The validation phase, read through the digests. *)
Lemma validation_phase_summary (args : Args Rate) (csv_path : string)
    (epoch : Z) st w st' w' :
  validation_phase args csv_path epoch st w = (Ok st', w') ->
  trace w' = trace w ++ new_events w w'
  /\ epochs_run (new_events w w') = []
  /\ checkpoints_written (new_events w w') = []
  /\ Forall (save_ok args) (saves (new_events w w'))
  /\ (forall dir,
        save_model_path args = Some dir ->
        best_log (best_path dir) false (new_events w w')
        = tracker (max_miou st) (val_mious (new_events w w'))
        /\ pending_end (best_path dir) false (new_events w w') = false
        /\ files w' !! latest_path dir = files w !! latest_path dir)
  /\ max_miou st' = running_max (max_miou st) (val_mious (new_events w w'))
  /\ params (model st') = params (model st)
  /\ optimizer st' = optimizer st
  /\ wrapped (model st') = wrapped (model st).
Proof.
  intros H. apply validation_phase_inv in H.
  destruct H as (_ & [(Hnd & -> & ->) | (Hdue & H)]).
  - assert (Hn : new_events w w = []).
    { apply new_events_app. rewrite app_nil_r. reflexivity. }
    rewrite Hn. split; [rewrite app_nil_r; reflexivity|].
    repeat split; constructor.
  - cbv zeta in H.
    set (bs := fst (loader_iter (dataloader_val st))) in *.
    set (miou := snd (val_spec args (model st) bs)) in *.
    set (precision := fst (val_spec args (model st) bs)) in *.
    pose proof (quiet_val_events args (model st) bs) as Hqv.
    destruct H as [(Hgt & -> & ->)
                  | (Hgt & -> & dir & qm & Hdir & _ & Hqm & Hf & Ht)].
    + rewrite new_events_log. split; [reflexivity|].
      unfold checkpoints_written.
      rewrite epochs_run_app, saves_app, val_mious_app.
      rewrite quiet_epochs_run, quiet_saves, quiet_val_mious by exact Hqv.
      cbn. repeat split; try constructor.
      * rewrite best_log_app, (quiet_best_log _ _ _ Hqv),
          (quiet_pending_end _ _ _ Hqv).
        cbn. rewrite Hgt. reflexivity.
      * rewrite pending_end_app, (quiet_pending_end _ _ _ Hqv). reflexivity.
      * rewrite Hgt. reflexivity.
    + rewrite (new_events_app _ _ _ Ht). split; [exact Ht|].
      unfold checkpoints_written.
      rewrite !epochs_run_app, !saves_app, !val_mious_app.
      rewrite !quiet_epochs_run, !quiet_saves, !quiet_val_mious
        by assumption.
      cbn. split; [reflexivity|]. split; [reflexivity|].
      split.
      { constructor; [|constructor]. exists dir. split; [exact Hdir|].
        right. split; [reflexivity|]. eexists. reflexivity. }
      split.
      { intros dir' Hdir'. rewrite Hdir in Hdir'. injection Hdir' as <-.
        rewrite best_log_app, (quiet_best_log _ _ _ Hqv),
          (quiet_pending_end _ _ _ Hqv), best_log_app,
          (quiet_best_log _ _ _ Hqm), (quiet_pending_end _ _ _ Hqm).
        rewrite pending_end_app, (quiet_pending_end _ _ _ Hqv),
          pending_end_app, (quiet_pending_end _ _ _ Hqm).
        cbn. rewrite String.eqb_refl, Hgt. cbn.
        split; [reflexivity|]. split; [reflexivity|].
        rewrite Hf. apply lookup_insert_ne.
        intros E. symmetry in E. exact (latest_ne_best _ E). }
      rewrite Hgt. repeat split.
Qed.

Lemma train_epoch_summary (args : Args Rate) (lf : option LossFn)
    (csv_path : string) st (epoch : Z) w st' w' :
  train_epoch args lf csv_path st epoch w = (Ok st', w') ->
  trace w' = trace w ++ new_events w w'
  /\ (exists q,
        new_events w w'
        = ETqdm (TqOpen (loader_len (dataloader_train st) * batch_size args))
          :: ETqdm (TqDescription epoch (snd (epoch_prologue args epoch st)))
          :: q
        /\ epochs_run q = [])
  /\ Forall (save_ok args) (saves (new_events w w'))
  /\ (forall dir,
        save_model_path args = Some dir ->
        best_log (best_path dir) false (new_events w w')
        = tracker (max_miou st) (val_mious (new_events w w'))
        /\ pending_end (best_path dir) false (new_events w w') = false)
  /\ max_miou st' = running_max (max_miou st) (val_mious (new_events w w'))
  /\ param_groups (optimizer st')
     = param_groups (optimizer (epoch_start args epoch st))
  /\ wrapped (model st') = wrapped (model st)
  /\ (checkpoint_due args epoch ->
      exists dir,
        save_model_path args = Some dir
        /\ checkpoints_written (new_events w w')
           = [(latest_path dir,
               CheckpointFile epoch (params (model st'))
                              (state_dict (optimizer st')))]
        /\ files w' !! latest_path dir
           = Some (CheckpointFile epoch (params (model st'))
                                  (state_dict (optimizer st'))))
  /\ (~ checkpoint_due args epoch ->
      checkpoints_written (new_events w w') = []
      /\ forall dir,
          save_model_path args = Some dir ->
          files w' !! latest_path dir = files w !! latest_path dir).
Proof.
  intros H. apply train_epoch_inv in H.
  destruct H as (st1 & tb & w2 & Hs & Hqb & Hc & Hv).
  set (hd := ETqdm (TqOpen (loader_len (dataloader_train st)
                            * batch_size args))
             :: ETqdm (TqDescription epoch
                         (snd (epoch_prologue args epoch st))) :: tb) in *.
  apply checkpoint_phase_summary in Hc.
  destruct Hc as (Tc & Ec & Mc & Sc & Bc & Dc & Nc).
  apply validation_phase_summary in Hv.
  destruct Hv as (Tv & Ev & Cv & Sv & Bv & Xv & Pv & Ov & Wv).
  set (tc := new_events (log w hd) w2) in *.
  set (tv := new_events w2 w') in *.
  assert (Ht : trace w' = trace w ++ hd ++ tc ++ tv).
  { rewrite Tv, Tc. simpl. rewrite <- !app_assoc. reflexivity. }
  rewrite (new_events_app _ _ _ Ht).
  assert (Hqhd : Forall (fun e => quiet e = true) tb) by exact Hqb.
  assert (Ehd : epochs_run hd = [epoch]).
  { unfold hd. rewrite !epochs_run_cons. simpl.
    rewrite (quiet_epochs_run _ Hqb). reflexivity. }
  assert (Shd : saves hd = []).
  { unfold hd. rewrite !saves_cons. simpl. apply quiet_saves, Hqb. }
  assert (Mhd : val_mious hd = []).
  { unfold hd. rewrite !val_mious_cons. simpl. apply quiet_val_mious, Hqb. }
  assert (Bhd : forall bp p, best_log bp p hd = []
                             /\ pending_end bp p hd = p).
  { intros bp p. unfold hd. simpl.
    rewrite (quiet_best_log _ _ _ Hqb), (quiet_pending_end _ _ _ Hqb).
    split; reflexivity. }
  destruct Hs as (Smax & Sgroups & _ & Swr & _ & _ & _).
  split; [exact Ht|].
  split.
  { exists (tb ++ tc ++ tv). split; [reflexivity|].
    rewrite !epochs_run_app, (quiet_epochs_run _ Hqb), Ec, Ev. reflexivity. }
  split.
  { rewrite !saves_app, Shd. simpl. apply Forall_app. split; assumption. }
  split.
  { intros dir Hdir.
    destruct (Bv dir Hdir) as (B1 & B2 & _).
    destruct (Bc dir false Hdir) as (B3 & B4).
    destruct (Bhd (best_path dir) false) as (B5 & B6).
    rewrite !best_log_app, !pending_end_app, !val_mious_app.
    rewrite B5, B6, B3, B4, B1, B2, Mhd, Mc, Smax, epoch_start_max.
    split; reflexivity. }
  split.
  { rewrite !val_mious_app, Mhd, Mc, Xv, Smax, epoch_start_max. reflexivity. }
  split; [rewrite Ov; exact Sgroups|].
  split; [rewrite Wv, Swr; apply epoch_start_wrapped|].
  unfold checkpoints_written in *.
  rewrite !saves_app, Shd, !filter_app, Cv, app_nil_r. simpl.
  split.
  - intros Hdue. destruct (Dc Hdue) as (dir & Hdir & Hcw & Hf).
    exists dir. split; [exact Hdir|].
    rewrite Pv, Ov. split; [exact Hcw|].
    destruct (Bv dir Hdir) as (_ & _ & ->).
    rewrite Hf. apply lookup_insert_eq.
  - intros Hnd. specialize (Nc Hnd). subst w2.
    split.
    + unfold tc, new_events. simpl. rewrite drop_all. reflexivity.
    + intros dir Hdir. destruct (Bv dir Hdir) as (_ & _ & ->). reflexivity.
Qed.

(** ** The best-model rule *)

Lemma running_max_app (mx : float) (a b : list float) :
  running_max mx (a ++ b) = running_max (running_max mx a) b.
Proof. apply fold_left_app. Qed.

Lemma tracker_app (mx : float) (a b : list float) :
  tracker mx (a ++ b) = tracker mx a ++ tracker (running_max mx a) b.
Proof.
  revert mx. induction a as [|m a IH]; intros mx; simpl; [reflexivity|].
  destruct (gt m mx); simpl; rewrite IH; reflexivity.
Qed.

(** The [i]-th validation is flagged exactly when its mean-IoU is strictly
    greater than the maximum left by the validations before it. *)
Lemma tracker_lookup (mx : float) (ms : list float) (i : nat) (m : float) :
  ms !! i = Some m ->
  tracker mx ms !! i = Some (m, gt m (running_max mx (take i ms))).
Proof.
  revert mx i. induction ms as [|m0 ms IH]; intros mx i H; [discriminate H|].
  destruct i as [|i]; simpl in *.
  - injection H as ->. destruct (gt m mx) eqn:E; reflexivity.
  - destruct (gt m0 mx) eqn:E; simpl; apply IH; exact H.
Qed.

Lemma tracker_length (mx : float) (ms : list float) :
  length (tracker mx ms) = length ms.
Proof.
  revert mx. induction ms as [|m ms IH]; intros mx; simpl; [reflexivity|].
  destruct (gt m mx); simpl; rewrite IH; reflexivity.
Qed.

Lemma running_max_not_nan (mx : float) (ms : list float) :
  is_nan mx = false -> is_nan (running_max mx ms) = false.
Proof.
  revert mx. induction ms as [|m ms IH]; intros mx H; simpl; [exact H|].
  apply IH, FloatFacts.update_not_nan, H.
Qed.

Lemma running_max_ge_zero (mx : float) (ms : list float) :
  le zero mx = true -> le zero (running_max mx ms) = true.
Proof.
  revert mx. induction ms as [|m ms IH]; intros mx H; simpl; [exact H|].
  apply IH, FloatFacts.le_zero_update, H.
Qed.

(** While no result has exceeded the starting value, the maximum stays. *)
Lemma running_max_stays (mx : float) (ms : list float) :
  Forall (fun x => gt x mx = false) ms -> running_max mx ms = mx.
Proof.
  induction 1 as [|m ms Hm _ IH]; simpl; [reflexivity|].
  rewrite Hm. exact IH.
Qed.

Lemma max_history_non_decreasing (mx : float) (ms : list float) :
  is_nan mx = false -> non_decreasing (mx :: max_history mx ms).
Proof.
  revert mx. induction ms as [|m ms IH]; intros mx H; simpl; [exact I|].
  split; [apply FloatFacts.le_update, H|].
  apply IH, FloatFacts.update_not_nan, H.
Qed.

Lemma max_history_last (mx : float) (ms : list float) :
  last (mx :: max_history mx ms) = Some (running_max mx ms).
Proof.
  revert mx. induction ms as [|m ms IH]; intros mx; [reflexivity|].
  change (max_history mx (m :: ms))
    with ((if gt m mx then m else mx)
          :: max_history (if gt m mx then m else mx) ms).
  rewrite last_cons_cons. apply IH.
Qed.

(** ** The epoch loop *)

Lemma train_loop_summary (args : Args Rate) (lf : option LossFn)
    (csv_path : string) (epochs : list Z) :
  forall st w st' w',
    for_each epochs (train_epoch args lf csv_path) st w = (Ok st', w') ->
    trace w' = trace w ++ new_events w w'
    /\ epochs_run (new_events w w') = epochs
    /\ Forall (save_ok args) (saves (new_events w w'))
    /\ (forall dir,
          save_model_path args = Some dir ->
          best_log (best_path dir) false (new_events w w')
          = tracker (max_miou st) (val_mious (new_events w w'))
          /\ pending_end (best_path dir) false (new_events w w') = false)
    /\ max_miou st' = running_max (max_miou st) (val_mious (new_events w w'))
    /\ wrapped (model st') = wrapped (model st).
Proof.
  induction epochs as [|epoch epochs IH]; intros st w st' w' H; simpl in H.
  - injection H as <- <-.
    assert (Hn : new_events w w = []).
    { apply new_events_app. rewrite app_nil_r. reflexivity. }
    rewrite Hn, app_nil_r. repeat split; constructor.
  - apply bind_ok_inv in H. destruct H as (st1 & w1 & H1 & H2).
    apply train_epoch_summary in H1.
    destruct H1 as (T1 & (q & Hq & Eq) & S1 & B1 & X1 & _ & W1 & _ & _).
    apply IH in H2. destruct H2 as (T2 & E2 & S2 & B2 & X2 & W2).
    set (t1 := new_events w w1) in *. set (t2 := new_events w1 w') in *.
    assert (Ht : trace w' = trace w ++ t1 ++ t2).
    { rewrite T2, T1, <- app_assoc. reflexivity. }
    rewrite (new_events_app _ _ _ Ht).
    split; [exact Ht|].
    split.
    { rewrite epochs_run_app, E2, Hq, !epochs_run_cons, Eq. reflexivity. }
    split; [rewrite saves_app; apply Forall_app; split; assumption|].
    split.
    { intros dir Hdir.
      destruct (B1 dir Hdir) as (L1 & P1). destruct (B2 dir Hdir) as (L2 & P2).
      rewrite best_log_app, pending_end_app, P1, L1, L2, P2, val_mious_app,
        tracker_app, X1.
      split; reflexivity. }
    split; [rewrite val_mious_app, running_max_app, X2, X1; reflexivity|].
    rewrite W2. exact W1.
Qed.

(** ** [train] *)

Lemma train_summary (args : Args Rate) (m : Model)
    (o : Optimizer Rate OptAcc) (dlt dlv : Loader) (csv_path : string)
    (curr_epoch : Z) w st' w' :
  train args m o dlt dlv csv_path curr_epoch w = (Ok st', w') ->
  trace w' = trace w ++ new_events w w'
  /\ epochs_run (new_events w w')
     = py_range (curr_epoch + 1) (num_epochs args + 1)
  /\ Forall (save_ok args) (saves (new_events w w'))
  /\ (forall dir,
        save_model_path args = Some dir ->
        best_log (best_path dir) false (new_events w w')
        = tracker zero (val_mious (new_events w w'))
        /\ pending_end (best_path dir) false (new_events w w') = false)
  /\ max_miou st' = running_max zero (val_mious (new_events w w'))
  /\ wrapped (model st') = wrapped m.
Proof.
  unfold train. intros H.
  unfold mbind at 1, M_bind at 1 in H. rewrite emit_log in H.
  apply train_loop_summary in H. simpl max_miou in H. simpl model in H.
  destruct H as (T & E & S & B & X & W).
  set (t := new_events (log w [ESummaryWriter ""]) w') in *.
  assert (Ht : trace w' = trace w ++ ESummaryWriter "" :: t).
  { rewrite T. simpl. rewrite <- app_assoc. reflexivity. }
  rewrite (new_events_app _ _ _ Ht).
  split; [exact Ht|].
  rewrite epochs_run_cons, saves_cons, val_mious_cons. simpl.
  repeat split; try assumption; apply B; assumption.
Qed.

(** ** [main] *)

Lemma load_pretrained_fresh (args : Args Rate) (m : Model)
    (o : Optimizer Rate OptAcc) w :
  pretrained_model_path args = None ->
  load_pretrained args m o w = (Ok (m, o, 0), w).
Proof. intros H. unfold load_pretrained. rewrite H. reflexivity. Qed.

(** Loading restores the saved parameters and optimizer state as they
    are, and sets the counter to the saved epoch plus one. *)
Lemma load_pretrained_ok (args : Args Rate) (m : Model)
    (o : Optimizer Rate OptAcc) w (path : string) (epoch : Z) (msd : Params)
    (osd : OptimizerState) :
  pretrained_model_path args = Some path ->
  files w !! path = Some (CheckpointFile epoch msd osd) ->
  wrapped m = true ->
  load_pretrained args m o w
  = (Ok (set_params msd m, load_state_dict o osd, epoch + 1),
     log w (load_events path epoch)).
Proof.
  intros Hp Hf Hw. unfold load_pretrained, print, torch_load, emit, raise.
  rewrite Hp. unfold mbind, M_bind, mret, M_ret. cbn.
  rewrite Hf, Hw. cbn. unfold log, load_events. cbn.
  rewrite <- !app_assoc. reflexivity.
Qed.

Lemma quiet_load_events (path : string) (epoch : Z) :
  Forall (fun e : Event => quiet e = true) (load_events path epoch).
Proof. repeat constructor. Qed.

Lemma load_pretrained_inv (args : Args Rate) (m : Model)
    (o : Optimizer Rate OptAcc) w (m' : Model) (o' : Optimizer Rate OptAcc)
    (curr_epoch : Z) w' :
  load_pretrained args m o w = (Ok (m', o', curr_epoch), w') ->
  curr_epoch = resume_epoch args w
  /\ wrapped m' = wrapped m
  /\ ((pretrained_model_path args = None /\ m' = m /\ o' = o /\ w' = w)
      \/ (exists path epoch msd osd,
            pretrained_model_path args = Some path
            /\ files w !! path = Some (CheckpointFile epoch msd osd)
            /\ m' = set_params msd m
            /\ o' = load_state_dict o osd
            /\ w' = log w (load_events path epoch))).
Proof.
  intros H. unfold resume_epoch.
  destruct (pretrained_model_path args) as [path|] eqn:Hp.
  - destruct (files w !! path) as [[epoch msd osd|msd]|] eqn:Hf.
    + destruct (wrapped m) eqn:Hw.
      * rewrite (load_pretrained_ok _ _ _ _ _ _ _ _ Hp Hf Hw) in H.
        injection H as <- <- <- <-.
        split; [reflexivity|]. split; [exact Hw|]. right.
        exists path, epoch, msd, osd. repeat split. exact Hf.
      * exfalso. revert H.
        unfold load_pretrained, print, torch_load, emit, raise.
        rewrite Hp. unfold mbind, M_bind, mret, M_ret. cbn.
        rewrite Hf, Hw. cbn. discriminate.
    + exfalso. revert H.
      unfold load_pretrained, print, torch_load, emit, raise.
      rewrite Hp. unfold mbind, M_bind, mret, M_ret. cbn.
      rewrite Hf. destruct (wrapped m); cbn; discriminate.
    + exfalso. revert H.
      unfold load_pretrained, print, torch_load, emit, raise.
      rewrite Hp. unfold mbind, M_bind, mret, M_ret. cbn.
      rewrite Hf. discriminate.
  - rewrite load_pretrained_fresh in H by exact Hp.
    injection H as <- <- <- <-.
    split; [reflexivity|]. split; [reflexivity|]. left. repeat split.
Qed.

(** An unsupported optimizer name ends [main] after two lines of output
    and an environment variable. *)
Lemma main_unsupported_optimizer (args : Args Rate) w :
  build_optimizer args (build_model args) = None ->
  main args w
  = (Ok tt,
     log w [EPrintArgs args; ESetEnv "CUDA_VISIBLE_DEVICES" (cuda args);
            EPrint ("not supported optimizer " +:+ nl)]).
Proof.
  intros H. unfold main, print.
  unfold mbind, M_bind. rewrite !emit_log, H, emit_log, !log_log.
  reflexivity.
Qed.

Lemma main_inv (args : Args Rate) (o0 : Optimizer Rate OptAcc) w w' :
  build_optimizer args (build_model args) = Some o0 ->
  main args w = (Ok tt, w') ->
  exists m o curr_epoch w1 st w2 r,
    load_pretrained args (build_model args) o0
      (log w [EPrintArgs args; ESetEnv "CUDA_VISIBLE_DEVICES" (cuda args)])
    = (Ok (m, o, curr_epoch), w1)
    /\ train args m o (build_dataloader_train args)
         (build_dataloader_val args) (csv_path_of args) curr_epoch w1
       = (Ok st, w2)
    /\ val args (model st) (dataloader_val st) (csv_path_of args) w2
       = (Ok r, w').
Proof.
  intros Ho H. unfold main in H.
  unfold mbind at 1, M_bind at 1 in H. rewrite emit_log in H.
  unfold mbind at 1, M_bind at 1 in H. rewrite emit_log, log_log, Ho in H.
  apply bind_ok_inv in H. destruct H as ([[m o] curr] & w1 & Hl & H).
  apply bind_ok_inv in H. destruct H as (st & w2 & Ht & H).
  apply bind_ok_inv in H. destruct H as (r & w3 & Hv & H).
  injection H as <-.
  exists m, o, curr, w1, st, w2, r. repeat split; assumption.
Qed.

(** A run of [main] that gets past the optimizer and returns. *)
Lemma main_summary (args : Args Rate) (o0 : Optimizer Rate OptAcc) w w' :
  build_optimizer args (build_model args) = Some o0 ->
  main args w = (Ok tt, w') ->
  trace w' = trace w ++ new_events w w'
  /\ epochs_run (new_events w w')
     = py_range (resume_epoch args w + 1) (num_epochs args + 1)
  /\ Forall (save_ok args) (saves (new_events w w'))
  /\ (forall dir,
        save_model_path args = Some dir ->
        best_log (best_path dir) false (new_events w w')
        = tracker zero (val_mious (new_events w w'))).
Proof.
  intros Ho H. destruct (main_inv _ _ _ _ Ho H)
    as (m & o & curr & w1 & st & w2 & r & Hl & Ht & Hv).
  apply load_pretrained_inv in Hl. destruct Hl as (Hc & _ & Hl).
  change (resume_epoch args (log w [EPrintArgs args; ESetEnv "CUDA_VISIBLE_DEVICES" (cuda args)]))
    with (resume_epoch args w) in Hc.
  apply train_summary in Ht. destruct Ht as (Tt & Et & St & Bt & _ & _).
  apply val_ok_inv in Hv. destruct Hv as (_ & ->).
  set (hd := [EPrintArgs args; ESetEnv "CUDA_VISIBLE_DEVICES" (cuda args)]) in *.
  set (tt' := new_events w1 w2) in *.
  set (tv := val_events args (model st) (fst (loader_iter (dataloader_val st)))).
  assert (Hqv : Forall (fun e => quiet e = true) tv) by apply quiet_val_events.
  assert (exists tl, Forall (fun e => quiet e = true) tl
                     /\ trace w1 = trace w ++ hd ++ tl) as (tl & Hql & Hw1).
  { destruct Hl as [(_ & _ & _ & ->) | (path & e & msd & osd & _ & _ & _ & _ & ->)].
    - exists []. split; [constructor | rewrite app_nil_r; reflexivity].
    - exists (load_events path e). split; [apply quiet_load_events|].
      simpl. rewrite <- app_assoc. reflexivity. }
  assert (Hqh : Forall (fun e => quiet e = true) (hd ++ tl)).
  { apply Forall_app. split; [repeat constructor | exact Hql]. }
  assert (Htr : trace (log w2 tv) = trace w ++ (hd ++ tl) ++ tt' ++ tv).
  { simpl. rewrite Tt, Hw1, <- !app_assoc. reflexivity. }
  rewrite (new_events_app _ _ _ Htr).
  split; [exact Htr|].
  split.
  { rewrite epochs_run_app, (quiet_epochs_run _ Hqh), epochs_run_app,
      (quiet_epochs_run _ Hqv), Et, Hc, app_nil_r. reflexivity. }
  split.
  { rewrite saves_app, (quiet_saves _ Hqh), saves_app, (quiet_saves _ Hqv),
      app_nil_r.
    exact St. }
  intros dir Hdir. destruct (Bt dir Hdir) as (Lt & Pt).
  rewrite best_log_app, (quiet_best_log _ _ _ Hqh),
    (quiet_pending_end _ _ _ Hqh), best_log_app, Lt, Pt,
    (quiet_best_log _ _ _ Hqv), val_mious_app, (quiet_val_mious _ Hqh),
    val_mious_app, (quiet_val_mious _ Hqv).
  cbn [app]. rewrite !app_nil_r. reflexivity.
Qed.

(** ** Counting the writes of the best-model file *)

Lemma best_writes_app (bp : string) t1 t2 :
  best_writes bp (t1 ++ t2) = (best_writes bp t1 + best_writes bp t2)%nat.
Proof.
  unfold best_writes. rewrite saves_app, filter_app, length_app. reflexivity.
Qed.

Lemma best_writes_quiet (bp : string) t :
  Forall (fun e => quiet e = true) t -> best_writes bp t = O.
Proof. intros H. unfold best_writes. rewrite quiet_saves; auto. Qed.

Lemma best_writes_nil (bp : string) : best_writes bp [] = O.
Proof. reflexivity. Qed.

Lemma flagged_app (l1 l2 : list (float * bool)) :
  flagged (l1 ++ l2) = (flagged l1 + flagged l2)%nat.
Proof. unfold flagged. rewrite filter_app, length_app. reflexivity. Qed.

Lemma checkpoint_phase_best_writes (args : Args Rate) (epoch : Z) st w w'
    (dir : string) :
  checkpoint_phase args epoch st w = (Ok tt, w') ->
  save_model_path args = Some dir ->
  best_writes (best_path dir) (new_events w w') = O.
Proof.
  intros H Hdir. apply checkpoint_phase_inv in H.
  destruct H as (_ & [(_ & dir' & qa & qb & Hdir' & _ & Hqa & Hqb & _ & Ht)
                     | (_ & ->)]).
  - rewrite Hdir in Hdir'. injection Hdir' as <-.
    rewrite (new_events_app _ _ _ Ht), best_writes_app,
      (best_writes_quiet _ _ Hqa).
    unfold best_writes. rewrite saves_cons. cbn [save_of_event].
    rewrite (quiet_saves _ Hqb), filter_cons_False; [reflexivity|].
    apply latest_ne_best.
  - unfold new_events. rewrite drop_all. reflexivity.
Qed.

Lemma validation_phase_best_writes (args : Args Rate) (csv_path : string)
    (epoch : Z) st w st' w' (dir : string) :
  validation_phase args csv_path epoch st w = (Ok st', w') ->
  save_model_path args = Some dir ->
  best_writes (best_path dir) (new_events w w')
  = flagged (tracker (max_miou st) (val_mious (new_events w w'))).
Proof.
  intros H Hdir. apply validation_phase_inv in H.
  destruct H as (_ & [(_ & -> & ->) | (_ & H)]).
  - unfold new_events. rewrite drop_all. reflexivity.
  - cbv zeta in H.
    set (bs := fst (loader_iter (dataloader_val st))) in *.
    set (miou := snd (val_spec args (model st) bs)) in *.
    set (precision := fst (val_spec args (model st) bs)) in *.
    pose proof (quiet_val_events args (model st) bs) as Hqv.
    destruct H as [(Hgt & _ & ->)
                  | (Hgt & _ & dir' & qm & Hdir' & _ & Hqm & _ & Ht)].
    + rewrite new_events_log, best_writes_app, (best_writes_quiet _ _ Hqv),
        val_mious_app, (quiet_val_mious _ Hqv).
      cbn. rewrite Hgt. reflexivity.
    + rewrite Hdir in Hdir'. injection Hdir' as <-.
      rewrite (new_events_app _ _ _ Ht), best_writes_app,
        (best_writes_quiet _ _ Hqv), best_writes_app,
        (best_writes_quiet _ _ Hqm), val_mious_app, (quiet_val_mious _ Hqv),
        val_mious_app, (quiet_val_mious _ Hqm).
      unfold best_writes. rewrite saves_cons. cbn.
      rewrite Hgt. cbn. rewrite decide_True by reflexivity. reflexivity.
Qed.

Lemma train_epoch_best_writes (args : Args Rate) (lf : option LossFn)
    (csv_path : string) st (epoch : Z) w st' w' (dir : string) :
  train_epoch args lf csv_path st epoch w = (Ok st', w') ->
  save_model_path args = Some dir ->
  best_writes (best_path dir) (new_events w w')
  = flagged (tracker (max_miou st) (val_mious (new_events w w'))).
Proof.
  intros H Hdir. apply train_epoch_inv in H.
  destruct H as (st1 & tb & w2 & Hs & Hqb & Hc & Hv).
  set (hd := ETqdm (TqOpen (loader_len (dataloader_train st)
                            * batch_size args))
             :: ETqdm (TqDescription epoch
                         (snd (epoch_prologue args epoch st))) :: tb) in *.
  assert (Hqh : Forall (fun e => quiet e = true) tb) by exact Hqb.
  pose proof (checkpoint_phase_best_writes _ _ _ _ _ _ Hc Hdir) as Wc.
  pose proof (validation_phase_best_writes _ _ _ _ _ _ _ _ Hv Hdir) as Wv.
  apply checkpoint_phase_summary in Hc.
  destruct Hc as (Tc & _ & Mc & _).
  apply validation_phase_summary in Hv. destruct Hv as (Tv & _).
  set (tc := new_events (log w hd) w2) in *.
  set (tv := new_events w2 w') in *.
  assert (Ht : trace w' = trace w ++ hd ++ tc ++ tv).
  { rewrite Tv, Tc. simpl. rewrite <- !app_assoc. reflexivity. }
  assert (Whd : best_writes (best_path dir) hd = O).
  { unfold best_writes, hd. rewrite !saves_cons. cbn [save_of_event].
    rewrite (quiet_saves _ Hqb). reflexivity. }
  assert (Mhd : val_mious hd = []).
  { unfold hd. rewrite !val_mious_cons. cbn [miou_of_event].
    apply quiet_val_mious, Hqb. }
  destruct Hs as (Smax & _).
  rewrite (new_events_app _ _ _ Ht), !best_writes_app, !val_mious_app,
    Whd, Wc, Wv, Mhd, Mc, Smax, epoch_start_max.
  reflexivity.
Qed.

Lemma train_loop_best_writes (args : Args Rate) (lf : option LossFn)
    (csv_path : string) (dir : string) (epochs : list Z) :
  save_model_path args = Some dir ->
  forall st w st' w',
    for_each epochs (train_epoch args lf csv_path) st w = (Ok st', w') ->
    best_writes (best_path dir) (new_events w w')
    = flagged (tracker (max_miou st) (val_mious (new_events w w'))).
Proof.
  intros Hdir.
  induction epochs as [|epoch epochs IH]; intros st w st' w' H; simpl in H.
  - injection H as <- <-. unfold new_events. rewrite drop_all. reflexivity.
  - apply bind_ok_inv in H. destruct H as (st1 & w1 & H1 & H2).
    pose proof (train_epoch_best_writes _ _ _ _ _ _ _ _ _ H1 Hdir) as W1.
    apply train_epoch_summary in H1.
    destruct H1 as (T1 & _ & _ & _ & X1 & _).
    pose proof (IH _ _ _ _ H2) as W2.
    apply train_loop_summary in H2. destruct H2 as (T2 & _).
    assert (Ht : trace w' = trace w ++ new_events w w1 ++ new_events w1 w').
    { rewrite T2, T1, <- app_assoc. reflexivity. }
    rewrite (new_events_app _ _ _ Ht), best_writes_app, val_mious_app,
      tracker_app, flagged_app, W1, W2, X1.
    reflexivity.
Qed.

Lemma train_best_writes (args : Args Rate) (m : Model)
    (o : Optimizer Rate OptAcc) (dlt dlv : Loader) (csv_path : string)
    (curr_epoch : Z) w st' w' (dir : string) :
  train args m o dlt dlv csv_path curr_epoch w = (Ok st', w') ->
  save_model_path args = Some dir ->
  best_writes (best_path dir) (new_events w w')
  = flagged (tracker zero (val_mious (new_events w w'))).
Proof.
  unfold train. intros H Hdir.
  unfold mbind at 1, M_bind at 1 in H. rewrite emit_log in H.
  pose proof (train_loop_best_writes _ _ _ _ _ Hdir _ _ _ _ H) as W.
  apply train_loop_summary in H. destruct H as (T & _).
  cbn [max_miou] in W.
  assert (Ht : trace w'
               = trace w ++ ESummaryWriter ""
                 :: new_events (log w [ESummaryWriter ""]) w').
  { rewrite T. simpl. rewrite <- app_assoc. reflexivity. }
  rewrite (new_events_app _ _ _ Ht).
  change (best_writes (best_path dir) (ESummaryWriter "" :: ?t))
    with (best_writes (best_path dir) t).
  rewrite val_mious_cons. cbn [miou_of_event]. exact W.
Qed.

(** ** Validation results *)

(** C5 — A validation pass over the batches of its loader returns the pair
    (precision, miou): precision is the mean of the per-batch global pixel
    accuracies, miou is the mean of the per-class IoU vector of the
    accumulated confusion matrix without its last (void) entry. *)
Theorem val_returns_mean_accuracy_and_miou (args : Args Rate) (m : Model)
    (dl : Loader) (csv_path : string) w :
  0 <= num_classes args ->
  exists w',
    val args m dl csv_path w
    = (Ok (np_mean (map (batch_accuracy args m) (fst (loader_iter dl))),
           np_mean (removelast
                      (per_class_iu
                         (accumulated_hist args m (fst (loader_iter dl))))),
           set_training false m, snd (loader_iter dl)),
       w').
Proof.
  intros Hn. eexists. rewrite val_ok by exact Hn. reflexivity.
Qed.

(** C8 — Accumulating the per-batch histograms of two batches from the
    zero matrix gives the same confusion matrix in either batch order. *)
Theorem confusion_matrix_accumulation_commutes (args : Args Rate)
    (m : Model) (b1 b2 : Tensor * Tensor) w :
  exists (rec1 rec2 : list float) w1 w2 (h : Hist),
    val_loop args (set_training false m) [b1; b2]
      (np_zeros (Z.to_nat (num_classes args))) w
    = (Ok (rec1, h), w1)
    /\ val_loop args (set_training false m) [b2; b1]
         (np_zeros (Z.to_nat (num_classes args))) w
       = (Ok (rec2, h), w2)
    /\ h = accumulated_hist args m [b1; b2]
    /\ h = accumulated_hist args m [b2; b1].
Proof.
  unfold val_loop. do 5 eexists.
  rewrite !val_loop_ok by reflexivity.
  split; [reflexivity|]. split.
  - simpl. rewrite hist_add_swap. reflexivity.
  - split; [reflexivity|].
    unfold accumulated_hist. simpl. apply hist_add_swap.
Qed.

(** The same matrix for any reordering of any number of batches. *)
Lemma accumulated_hist_permutation (args : Args Rate) (m : Model)
    (bs bs' : list (Tensor * Tensor)) :
  Permutation bs bs' ->
  accumulated_hist args m bs = accumulated_hist args m bs'.
Proof.
  intros H. unfold accumulated_hist.
  apply hist_fold_permutation, Permutation_map, H.
Qed.

(** ** Loss aggregation *)

(** C9 — For a training batch, the selected loss function is applied to
    each of the three outputs of the network against the same label, and
    the loss that is backpropagated is the plain sum of the three. *)
Theorem three_head_losses_summed_unweighted (args : Args Rate) (f : LossFn)
    st (rec : list float) (data label : Tensor) w :
  select_loss args = Some f ->
  training (model st) = true ->
  let outs := forward_train (params (model st)) data in
  let l :=
    tensor_add
      (tensor_add (f (fst (fst outs)) label) (f (snd (fst outs)) label))
      (f (snd outs) label) in
  (f = DiceLoss \/ f = CrossEntropyLoss)
  /\ train_batch args (select_loss args) (st, rec) (data, label) w
     = (Ok (backward_and_step st l, rec ++ [item l]),
        log w [EModelCall true data; ETqdm (TqUpdate (batch_size args));
               ETqdm (TqPostfix l);
               EAddScalar "loss_step" (SVTensor l) (step st + 1)])
  /\ params (model (backward_and_step st l))
     = snd (scaler_step (scaler st) (param_groups (optimizer st))
              (opt_state (optimizer st))
              (scaled_backward (scaler st) l
                 (zero_grad (params (model st))))).
Proof.
  intros Hsel Hm outs l. split.
  - unfold select_loss in Hsel.
    destruct (String.eqb (loss args) "dice"); [left; congruence|].
    destruct (String.eqb (loss args) "crossentropy"); [right; congruence|].
    discriminate Hsel.
  - split.
    + rewrite Hsel, train_batch_ok by exact Hm. reflexivity.
    + unfold backward_and_step.
      destruct (scaler_step _ _ _ _) as [[sc acc] p]. reflexivity.
Qed.

(** ** Unsupported optimizer *)

Lemma build_optimizer_none (args : Args Rate) (m : Model) :
  optimizer_name args <> "rmsprop" ->
  optimizer_name args <> "sgd" ->
  optimizer_name args <> "adam" ->
  build_optimizer args m = None.
Proof.
  intros H1 H2 H3. unfold build_optimizer.
  apply String.eqb_neq in H1, H2, H3. rewrite H1, H2, H3. reflexivity.
Qed.

(** C6 — With an optimizer name other than 'rmsprop', 'sgd' and 'adam',
    [main] echoes its arguments (the name among them), prints that the
    optimizer is not supported and returns: no batch goes through the
    network and no file is written. *)
Theorem unsupported_optimizer_aborts_before_training (args : Args Rate) w :
  optimizer_name args <> "rmsprop" ->
  optimizer_name args <> "sgd" ->
  optimizer_name args <> "adam" ->
  exists w',
    main args w = (Ok tt, w')
    /\ new_events w w'
       = [EPrintArgs args; ESetEnv "CUDA_VISIBLE_DEVICES" (cuda args);
          EPrint ("not supported optimizer " +:+ nl)]
    /\ model_calls (new_events w w') = []
    /\ epochs_run (new_events w w') = []
    /\ saves (new_events w w') = []
    /\ files w' = files w
    /\ dirs w' = dirs w.
Proof.
  intros H1 H2 H3. eexists. split.
  - apply main_unsupported_optimizer, build_optimizer_none; assumption.
  - rewrite new_events_log. repeat split.
Qed.

(** ** Checkpoints *)

(** C7 — An epoch that runs to its end writes a checkpoint exactly when
    [epoch mod checkpoint_step = 0] and [epoch <> 0]; the file holds the
    epoch, the model state and the optimizer state, and it is written at
    the one "latest" path, replacing what was there. *)
Theorem checkpoint_written_iff_due (args : Args Rate) (lf : option LossFn)
    (csv_path : string) st (epoch : Z) w st' w' :
  train_epoch args lf csv_path st epoch w = (Ok st', w') ->
  (checkpoint_due args epoch <-> checkpoints_written (new_events w w') <> [])
  /\ (checkpoint_due args epoch ->
      exists dir,
        save_model_path args = Some dir
        /\ checkpoints_written (new_events w w')
           = [(latest_path dir,
               CheckpointFile epoch (params (model st'))
                              (state_dict (optimizer st')))]
        /\ files w' !! latest_path dir
           = Some (CheckpointFile epoch (params (model st'))
                                  (state_dict (optimizer st'))))
  /\ (~ checkpoint_due args epoch ->
      checkpoints_written (new_events w w') = []
      /\ forall dir,
          save_model_path args = Some dir ->
          files w' !! latest_path dir = files w !! latest_path dir).
Proof.
  intros H. apply train_epoch_summary in H.
  destruct H as (_ & _ & _ & _ & _ & _ & _ & Hdue & Hnd).
  split; [|split; assumption].
  split.
  - intros Hd. destruct (Hdue Hd) as (dir & _ & -> & _). discriminate.
  - intros Hne.
    destruct (Z.eq_dec (epoch mod checkpoint_step args) 0) as [E1|E1];
      destruct (Z.eq_dec epoch 0) as [E2|E2];
      try (split; assumption);
      exfalso; apply Hne, Hnd; intros [D1 D2]; contradiction.
Qed.

(** ** The best model *)

Lemma save_ok_best (args : Args Rate) (dir path : string) (f : File) t :
  Forall (save_ok args) (saves t) ->
  save_model_path args = Some dir ->
  (path, f) ∈ saves t ->
  path = best_path dir ->
  exists msd, f = StateDictFile msd.
Proof.
  intros Hall Hdir Hin ->.
  rewrite Forall_forall in Hall. specialize (Hall _ Hin).
  destruct Hall as (dir' & Hdir' & [(Hp & _) | (_ & msd & Hf)]).
  - rewrite Hdir in Hdir'. injection Hdir' as <-. simpl in Hp.
    symmetry in Hp. destruct (latest_ne_best _ Hp).
  - exists msd. exact Hf.
Qed.

(** C3 — In a run of the training loop the best-model file is written
    exactly at the validations whose mean-IoU is strictly greater than the
    maximum so far (for the results 0.40, 0.35, 0.50: twice, at the first
    and the third); the tracked maximum never decreases from one
    validation to the next; and what is written is the model's state dict
    alone. *)
Theorem best_model_written_on_strict_improvement (args : Args Rate)
    (m : Model) (o : Optimizer Rate OptAcc) (dlt dlv : Loader)
    (csv_path : string) (curr_epoch : Z) w st' w' (dir : string) :
  train args m o dlt dlv csv_path curr_epoch w = (Ok st', w') ->
  save_model_path args = Some dir ->
  let t := new_events w w' in
  let ms := val_mious t in
  best_log (best_path dir) false t = tracker zero ms
  /\ (forall (i : nat) (mi : float),
        ms !! i = Some mi ->
        tracker zero ms !! i
        = Some (mi, gt mi (running_max zero (take i ms))))
  /\ best_writes (best_path dir) t = flagged (tracker zero ms)
  /\ (ms = [Toy.f040; Toy.f035; Toy.f050] ->
      best_writes (best_path dir) t = 2%nat
      /\ best_log (best_path dir) false t
         = [(Toy.f040, true); (Toy.f035, false); (Toy.f050, true)])
  /\ non_decreasing (zero :: max_history zero ms)
  /\ last (zero :: max_history zero ms) = Some (max_miou st')
  /\ (forall (path : string) (f : File),
        (path, f) ∈ saves t -> path = best_path dir ->
        exists msd, f = StateDictFile msd).
Proof.
  intros H Hdir t ms.
  pose proof (train_best_writes _ _ _ _ _ _ _ _ _ _ _ H Hdir) as W.
  apply train_summary in H. destruct H as (_ & _ & S & B & X & _).
  destruct (B dir Hdir) as (L & _).
  fold t in W, S, L, X. fold ms in W, L, X.
  split; [exact L|].
  split; [intros i mi Hi; apply tracker_lookup; exact Hi|].
  split; [exact W|].
  split.
  { intros Hms. rewrite W, L, Hms. split; reflexivity. }
  split; [apply max_history_non_decreasing; reflexivity|].
  split; [rewrite max_history_last, X; reflexivity|].
  intros path f Hin Hp. eapply save_ok_best; eauto.
Qed.

(** C10 — The tracker starts from 0 in every call of the training loop,
    whatever was loaded and whatever an earlier run left on disk: in any
    run of [main], resumed or not, the first validation with a mean-IoU
    strictly greater than 0 writes the best-model file, and a validation
    with a mean-IoU less than or equal to 0 never does. *)
Theorem best_tracker_restarts_from_zero (args : Args Rate) w w'
    (dir : string) :
  main args w = (Ok tt, w') ->
  save_model_path args = Some dir ->
  let t := new_events w w' in
  let ms := val_mious t in
  best_log (best_path dir) false t = tracker zero ms
  /\ (forall (i : nat) (mi : float),
        ms !! i = Some mi ->
        Forall (fun x => gt x zero = false) (take i ms) ->
        gt mi zero = true ->
        best_log (best_path dir) false t !! i = Some (mi, true))
  /\ (forall (i : nat) (mi : float),
        ms !! i = Some mi ->
        le mi zero = true ->
        best_log (best_path dir) false t !! i = Some (mi, false)).
Proof.
  intros H Hdir t ms.
  assert (L : best_log (best_path dir) false t = tracker zero ms).
  { destruct (build_optimizer args (build_model args)) as [o0|] eqn:Ho.
    - destruct (main_summary _ _ _ _ Ho H) as (_ & _ & _ & B).
      apply B, Hdir.
    - rewrite (main_unsupported_optimizer _ _ Ho) in H. injection H as <-.
      unfold ms, t. rewrite new_events_log. reflexivity. }
  split; [exact L|]. rewrite L. split.
  - intros i mi Hi Hpre Hgt.
    rewrite (tracker_lookup _ _ _ _ Hi), (running_max_stays _ _ Hpre), Hgt.
    reflexivity.
  - intros i mi Hi Hle.
    rewrite (tracker_lookup _ _ _ _ Hi).
    rewrite (FloatFacts.le_zero_not_gt (running_max zero (take i ms)) mi);
      [reflexivity | | exact Hle].
    apply running_max_ge_zero. reflexivity.
Qed.

(** ** Which epochs run *)

(** The loop runs the epochs [curr_epoch + 1 .. num_epochs], each once and
    in order. *)
Lemma train_runs_epochs (args : Args Rate) (m : Model)
    (o : Optimizer Rate OptAcc) (dlt dlv : Loader) (csv_path : string)
    (curr_epoch : Z) w st' w' :
  train args m o dlt dlv csv_path curr_epoch w = (Ok st', w') ->
  epochs_run (new_events w w')
  = py_range (curr_epoch + 1) (num_epochs args + 1).
Proof. intros H. apply train_summary in H. tauto. Qed.

(** A run resumed from a checkpoint of epoch [e] starts at epoch [e + 2]:
    [main] hands [e + 1] to [train], which starts one after what it is
    given. *)
Lemma resumed_run_epochs (args : Args Rate) (o0 : Optimizer Rate OptAcc)
    w w' (path : string) (e : Z) (msd : Params) (osd : OptimizerState) :
  build_optimizer args (build_model args) = Some o0 ->
  pretrained_model_path args = Some path ->
  files w !! path = Some (CheckpointFile e msd osd) ->
  main args w = (Ok tt, w') ->
  epochs_run (new_events w w') = py_range (e + 2) (num_epochs args + 1).
Proof.
  intros Ho Hp Hf H.
  destruct (main_summary _ _ _ _ Ho H) as (_ & E & _).
  rewrite E. unfold resume_epoch. rewrite Hp, Hf. f_equal. lia.
Qed.

(** A fresh run starts at epoch 1. *)
Lemma fresh_run_epochs (args : Args Rate) (o0 : Optimizer Rate OptAcc) w w' :
  build_optimizer args (build_model args) = Some o0 ->
  pretrained_model_path args = None ->
  main args w = (Ok tt, w') ->
  epochs_run (new_events w w') = py_range 1 (num_epochs args + 1).
Proof.
  intros Ho Hp H.
  destruct (main_summary _ _ _ _ Ho H) as (_ & E & _).
  rewrite E. unfold resume_epoch. rewrite Hp. reflexivity.
Qed.

(** ** An unsupported loss name *)

Lemma for_each_cons_raise {A S : Type} (x : A) (l : list A)
    (body : S -> A -> M S) (s : S) w (e : exn) w' :
  body s x w = (Raise e, w') -> for_each (x :: l) body s w = (Raise e, w').
Proof. intros H. simpl. apply bind_raise. exact H. Qed.

(** [train] does not look at the loss name before the first batch: with
    a name other than the two known ones, the first epoch sets the
    learning rate, draws the first batch and runs it through the network,
    and only then fails on the unassigned local. *)
Lemma unsupported_loss_fails_in_first_batch (args : Args Rate)
    (csv_path : string) st (epoch : Z) w (b : Tensor * Tensor)
    (bs : list (Tensor * Tensor)) :
  select_loss args = None ->
  fst (loader_iter (dataloader_train st)) = b :: bs ->
  train_epoch args (select_loss args) csv_path st epoch w
  = (Raise (UnboundLocalError "loss_func"),
     log w [ETqdm (TqOpen (loader_len (dataloader_train st)
                           * batch_size args));
            ETqdm (TqDescription epoch (snd (epoch_prologue args epoch st)));
            EModelCall true (fst b)]).
Proof.
  intros Hsel Hb. unfold train_epoch. rewrite Hsel.
  pose proof (epoch_start_training args epoch st) as Htr.
  unfold epoch_start in Htr.
  destruct (epoch_prologue args epoch st) as [st0 lr] eqn:Hpro.
  assert (Hdl : dataloader_train st0 = dataloader_train st).
  { unfold epoch_prologue in Hpro.
    destruct (poly_lr_scheduler _ _ _ _). injection Hpro as <- _. reflexivity. }
  simpl fst in Htr. simpl snd.
  unfold mbind at 1, M_bind at 1. rewrite emit_log.
  unfold mbind at 1, M_bind at 1. rewrite emit_log, log_log.
  rewrite Hdl.
  destruct (loader_iter (dataloader_train st)) as [batches dl] eqn:Hit.
  simpl in Hb. subst batches. destruct b as [data label].
  erewrite bind_raise;
    [| apply for_each_cons_raise; apply train_batch_unbound; exact Htr].
  rewrite log_log. reflexivity.
Qed.

Lemma select_loss_none (args : Args Rate) :
  loss args <> "dice" -> loss args <> "crossentropy" ->
  select_loss args = None.
Proof.
  intros H1 H2. unfold select_loss.
  apply String.eqb_neq in H1, H2. rewrite H1, H2. reflexivity.
Qed.

End ProgramFacts.

(** * Runs that return

    The theorems above speak of runs that return. With a supported loss,
    non-zero steps, a class count that is not negative, an output
    directory and a network wrapped in [DataParallel], every epoch and
    every run of [train] does. *)

Section ProgramTotal.

Context {Rate : Type} `{C : Collab Rate}.

Implicit Types (w : World) (st : TrainState).

Lemma checkpoint_phase_ok (args : Args Rate) (epoch : Z) st w :
  well_configured args ->
  wrapped (model st) = true ->
  exists w', checkpoint_phase args epoch st w = (Ok tt, w').
Proof.
  intros [_ Hc _ _ (dir & Hdir)] Hw.
  unfold checkpoint_phase, py_mod.
  destruct (Z.eqb_spec (checkpoint_step args) 0) as [Hz|_]; [contradiction|].
  unfold mbind at 1, M_bind at 1, mret at 1, M_ret at 1.
  destruct ((epoch mod checkpoint_step args =? 0) && negb (epoch =? 0)).
  - unfold print, fspath, os_path_isdir, os_mkdir, module_state_dict,
      torch_save, emit, raise, mbind, M_bind, mret, M_ret.
    rewrite Hdir, Hw. cbn.
    destruct (bool_decide _); cbn; eexists; reflexivity.
  - eexists. reflexivity.
Qed.

Lemma validation_phase_ok (args : Args Rate) (csv_path : string) (epoch : Z)
    st w :
  well_configured args ->
  wrapped (model st) = true ->
  exists st' w', validation_phase args csv_path epoch st w = (Ok st', w').
Proof.
  intros [_ _ Hv Hn (dir & Hdir)] Hw.
  unfold validation_phase, py_mod.
  destruct (Z.eqb_spec (validation_step args) 0) as [Hz|_]; [contradiction|].
  unfold mbind at 1, M_bind at 1, mret at 1, M_ret at 1.
  destruct ((epoch mod validation_step args =? 0) && negb (epoch =? 0)).
  - erewrite bind_ok by (apply val_ok; exact Hn).
    cbn beta iota zeta. cbn [max_miou set_val_result].
    destruct (gt _ _).
    + unfold print, fspath, os_makedirs, os_mkdir, module_state_dict,
        torch_save, emit, raise, mbind, M_bind, mret, M_ret.
      rewrite Hdir. cbn. rewrite Hw.
      destruct (bool_decide _); cbn; eexists _, _; reflexivity.
    + unfold emit, mbind, M_bind, mret, M_ret. eexists _, _. reflexivity.
  - eexists _, _. reflexivity.
Qed.

Lemma train_epoch_ok (args : Args Rate) (csv_path : string) st (epoch : Z) w :
  well_configured args ->
  wrapped (model st) = true ->
  exists st' w',
    train_epoch args (select_loss args) csv_path st epoch w = (Ok st', w').
Proof.
  intros Hwc Hw. destruct (wc_loss _ Hwc) as (f & Hf). rewrite Hf.
  unfold train_epoch.
  pose proof (epoch_start_training args epoch st) as Htr.
  pose proof (epoch_start_wrapped args epoch st) as Hwr.
  unfold epoch_start in Htr, Hwr.
  destruct (epoch_prologue args epoch st) as [st0 lr] eqn:Hpro.
  simpl fst in Htr, Hwr.
  unfold mbind at 1, M_bind at 1. rewrite emit_log.
  unfold mbind at 1, M_bind at 1. rewrite emit_log.
  destruct (loader_iter (dataloader_train st0)) as [batches dl] eqn:Hit.
  destruct (train_batches_ok args f batches (set_dataloader_train st0 dl) []
              (log (log w [ETqdm (TqOpen (loader_len (dataloader_train st0)
                                          * batch_size args))])
                   [ETqdm (TqDescription epoch lr)]))
    as (st1 & rec & w1 & Hb); [exact Htr|].
  erewrite bind_ok by exact Hb.
  apply train_batches_inv in Hb. destruct Hb as ((_ & _ & _ & Hw1 & _) & _).
  cbn [model set_dataloader_train] in Hw1, Hwr.
  cbn beta iota zeta.
  unfold mbind at 1, M_bind at 1. rewrite emit_log.
  unfold mbind at 1, M_bind at 1. rewrite emit_log.
  unfold mbind at 1, M_bind at 1. rewrite emit_log.
  assert (Hwrap : wrapped (model st1) = true) by congruence.
  match goal with
  | |- exists _ _, (_ ≫= _) ?w0 = _ =>
      destruct (checkpoint_phase_ok args epoch st1 w0 Hwc Hwrap) as (w2 & Hc)
  end.
  erewrite bind_ok by exact Hc.
  apply validation_phase_ok; assumption.
Qed.

Lemma train_loop_ok (args : Args Rate) (csv_path : string) (epochs : list Z) :
  well_configured args ->
  forall st w,
    wrapped (model st) = true ->
    exists st' w',
      for_each epochs (train_epoch args (select_loss args) csv_path) st w
      = (Ok st', w').
Proof.
  intros Hwc. induction epochs as [|epoch epochs IH]; intros st w Hw; simpl.
  - eexists _, _. reflexivity.
  - destruct (train_epoch_ok args csv_path st epoch w Hwc Hw)
      as (st1 & w1 & H1).
    erewrite bind_ok by exact H1. apply IH.
    apply train_epoch_summary in H1.
    destruct H1 as (_ & _ & _ & _ & _ & _ & W & _). congruence.
Qed.

(** [train] returns on every well-configured input. *)
Lemma train_ok (args : Args Rate) (m : Model) (o : Optimizer Rate OptAcc)
    (dlt dlv : Loader) (csv_path : string) (curr_epoch : Z) w :
  well_configured args ->
  wrapped m = true ->
  exists st' w', train args m o dlt dlv csv_path curr_epoch w = (Ok st', w').
Proof.
  intros Hwc Hw. unfold train.
  unfold mbind at 1, M_bind at 1. rewrite emit_log.
  apply train_loop_ok; assumption.
Qed.

(** So does a fresh run of [main] on a machine with CUDA. *)
Lemma main_ok (args : Args Rate) (o0 : Optimizer Rate OptAcc) w :
  well_configured args ->
  build_optimizer args (build_model args) = Some o0 ->
  cuda_is_available = true ->
  use_gpu args = true ->
  pretrained_model_path args = None ->
  exists w', main args w = (Ok tt, w').
Proof.
  intros Hwc Ho Hcuda Hgpu Hp. unfold main.
  unfold mbind at 1, M_bind at 1. rewrite emit_log.
  unfold mbind at 1, M_bind at 1. rewrite emit_log, Ho.
  erewrite bind_ok by (apply load_pretrained_fresh; exact Hp).
  assert (Hw : wrapped (build_model args) = true).
  { unfold build_model. rewrite Hcuda, Hgpu. reflexivity. }
  cbn beta iota zeta.
  match goal with
  | |- exists _, (train args ?m ?o ?a ?b ?c ?d ≫= _) ?w0 = _ =>
      destruct (train_ok args m o a b c d w0 Hwc Hw) as (st & w1 & Ht)
  end.
  erewrite bind_ok by exact Ht.
  erewrite bind_ok by (apply val_ok, (wc_num_classes _ Hwc)).
  eexists. reflexivity.
Qed.

End ProgramTotal.

(** * The learning-rate schedule *)

Module ScheduleFacts.

Import Schedule.

Local Open Scope R_scope.

Lemma py_pow_nonneg (x p : R) : 0 <= py_pow x p.
Proof.
  unfold py_pow. destruct (Req_dec_T x 0); [lra|].
  unfold Rpower. left. apply exp_pos.
Qed.

(** [x ** p] grows with its base, on non-negative bases. *)
Lemma py_pow_mono (x y p : R) :
  0 < p -> 0 <= x <= y -> py_pow x p <= py_pow y p.
Proof.
  intros Hp [Hx Hxy]. unfold py_pow at 1.
  destruct (Req_dec_T x 0) as [->|Hx0]; [apply py_pow_nonneg|].
  unfold py_pow. destruct (Req_dec_T y 0) as [->|Hy0]; [lra|].
  apply Rle_Rpower_l; lra.
Qed.

Lemma base_decreases (t1 t2 T : Z) :
  (1 <= t1 <= t2)%Z -> (t2 <= T)%Z ->
  0 <= 1 - IZR t2 / IZR T <= 1 - IZR t1 / IZR T.
Proof.
  intros [H1 H12] H2T.
  assert (HT : 0 < IZR T) by (apply IZR_lt; lia).
  assert (Ht : IZR t1 <= IZR t2) by (apply IZR_le; lia).
  assert (Ht2 : IZR t2 <= IZR T) by (apply IZR_le; lia).
  assert (Hi : 0 < / IZR T) by (apply Rinv_0_lt_compat, HT).
  assert (Hone : IZR T * / IZR T = 1) by (apply Rinv_r; lra).
  unfold Rdiv. split; nra.
Qed.

Lemma clamp_mono (m x y : R) : x <= y -> clamp m x <= clamp m y.
Proof.
  intros H. unfold clamp.
  destruct (Rlt_dec x m), (Rlt_dec y m); lra.
Qed.

Lemma clamp_floor (m x : R) : m <= clamp m x.
Proof. unfold clamp. destruct (Rlt_dec x m); lra. Qed.

Lemma clamp_below (m x : R) : x <= m -> clamp m x = m.
Proof. intros H. unfold clamp. destruct (Rlt_dec x m); lra. Qed.

(** The applied rate never goes up from one epoch to a later one. *)
Lemma poly_lr_non_increasing (min_lr lr0 : R) (t1 t2 T : Z) :
  0 <= min_lr -> (1 <= t1 <= t2)%Z -> (t2 <= T)%Z ->
  poly_lr min_lr lr0 t2 T <= poly_lr min_lr lr0 t1 T.
Proof.
  intros Hmin H12 H2T. unfold poly_lr, poly.
  pose proof (base_decreases t1 t2 T H12 H2T) as Hb.
  assert (Hp : py_pow (1 - IZR t2 / IZR T) power
               <= py_pow (1 - IZR t1 / IZR T) power).
  { apply py_pow_mono; [unfold power; lra | exact Hb]. }
  pose proof (py_pow_nonneg (1 - IZR t2 / IZR T) power) as Hn2.
  pose proof (py_pow_nonneg (1 - IZR t1 / IZR T) power) as Hn1.
  destruct (Rle_lt_dec 0 lr0) as [Hpos|Hneg].
  - apply clamp_mono, Rmult_le_compat_l; assumption.
  - rewrite !clamp_below; [lra | |]; nra.
Qed.

Lemma set_lr_all {OptAcc : Type} (min_lr : R) (o : Optimizer R OptAcc)
    (lr0 : R) (t T : Z) :
  Forall (fun g => lr g = poly_lr min_lr lr0 t T)
         (param_groups (fst (poly_lr_scheduler_spec min_lr o lr0 t T))).
Proof.
  unfold poly_lr_scheduler_spec. simpl.
  induction (param_groups o) as [|g gs IH]; simpl; constructor; auto.
Qed.

Section Applied.

Context `{C : Collab R} (min_lr : R).

Hypothesis scheduler_spec :
  forall (o : Optimizer R OptAcc) (lr0 : R) (t T : Z),
    poly_lr_scheduler o lr0 t T = poly_lr_scheduler_spec min_lr o lr0 t T.

(** C4 — In epoch [t] of [1..T] the scheduler puts
    [lr0 * (1 - t/T)^0.9], raised to the minimum threshold when it is
    below it, into every parameter group of the optimizer before the
    batches of the epoch, and returns that value; the value does not
    increase with [t]. *)
Theorem poly_learning_rate_applied_each_epoch (args : Args R)
    (lf : option (Tensor -> Tensor -> Tensor)) (csv_path : string)
    (st : TrainState) (t : Z) (w : World) (st' : TrainState) (w' : World) :
  0 <= min_lr ->
  (1 <= t <= num_epochs args)%Z ->
  train_epoch args lf csv_path st t w = (Ok st', w') ->
  let lr0 := learning_rate args in
  let T := num_epochs args in
  let raw := lr0 * py_pow (1 - IZR t / IZR T) (9 / 10) in
  let rate := if Rlt_dec raw min_lr then min_lr else raw in
  snd (epoch_prologue args t st) = rate
  /\ Forall (fun g => lr g = rate)
            (param_groups (optimizer (epoch_start args t st)))
  /\ (exists q,
        new_events w w'
        = ETqdm (TqOpen (loader_len (dataloader_train st) * batch_size args))
          :: ETqdm (TqDescription t rate) :: q
        /\ epochs_run q = [])
  /\ Forall (fun g => lr g = rate) (param_groups (optimizer st'))
  /\ (forall t2 : Z,
        (t <= t2 <= T)%Z -> poly_lr min_lr lr0 t2 T <= rate).
Proof.
  intros Hmin Ht H lr0 T raw rate.
  assert (Hrate : rate = poly_lr min_lr lr0 t T) by reflexivity.
  assert (Hret : snd (epoch_prologue args t st) = rate).
  { unfold epoch_prologue. rewrite scheduler_spec. reflexivity. }
  assert (Hgroups : Forall (fun g => lr g = rate)
                      (param_groups (optimizer (epoch_start args t st)))).
  { rewrite epoch_start_optimizer, scheduler_spec, Hrate. apply set_lr_all. }
  apply train_epoch_summary in H.
  destruct H as (_ & (q & Hq & Eq) & _ & _ & _ & G & _).
  split; [exact Hret|]. split; [exact Hgroups|].
  split; [exists q; rewrite <- Hret; split; assumption|].
  split; [rewrite G; exact Hgroups|].
  intros t2 Ht2. rewrite Hrate.
  apply poly_lr_non_increasing; [exact Hmin | lia | lia].
Qed.

End Applied.

(** Epoch 50 of the 100 of the script's parameter list. *)
Lemma poly_learning_rate_applied_each_epoch_witness :
  0 <= Toy.min_lr
  /\ (1 <= 50 <= num_epochs Toy.argsR)%Z
  /\ exists st' w',
      @train_epoch R Toy.collabR Toy.argsR
        (@select_loss R Toy.collabR Toy.argsR) "class_dict.csv"
        Toy.state0R 50 Toy.world0R
      = (Ok st', w')
      /\ Forall (fun g => lr g
                          = poly_lr Toy.min_lr (25 / 1000) 50 100)
                (param_groups (optimizer st'))
      /\ poly_lr Toy.min_lr (25 / 1000) 100 100
         <= poly_lr Toy.min_lr (25 / 1000) 50 100.
Proof.
  assert (Hmin : 0 <= Toy.min_lr) by (unfold Toy.min_lr; lra).
  assert (Ht : (1 <= 50 <= num_epochs Toy.argsR)%Z) by (simpl; lia).
  split; [exact Hmin|]. split; [exact Ht|].
  assert (Hwc : @well_configured R Toy.collabR Toy.argsR).
  { constructor.
    - eexists. reflexivity.
    - discriminate.
    - discriminate.
    - simpl. lia.
    - eexists. reflexivity. }
  destruct (@train_epoch_ok R Toy.collabR Toy.argsR "class_dict.csv"
              Toy.state0R 50 Toy.world0R Hwc eq_refl)
    as (st' & w' & E).
  exists st', w'. split; [exact E|].
  destruct (@poly_learning_rate_applied_each_epoch Toy.collabR Toy.min_lr
              (fun _ _ _ _ => eq_refl) Toy.argsR _ _ _ _ _ _ _ Hmin Ht E)
    as (_ & _ & _ & Hg & Hmono).
  split; [exact Hg|].
  apply Hmono. simpl. lia.
Defined.

End ScheduleFacts.

(** * The small instance at work *)

Section ToyRuns.

#[local] Existing Instance Toy.collabZ.

Import Toy.

(** The second epoch of the small run, and the whole of its [train]. *)
Abbreviation epoch2_run :=
  (@train_epoch Z collabZ args (select_loss args) (csv_path_of args) state0
     2 world0).

Abbreviation train_run :=
  (@train Z collabZ args (build_model args) (sgd 1 0)
     (build_dataloader_train args) (build_dataloader_val args)
     (csv_path_of args) 0 world0).

Lemma val_returns_mean_accuracy_and_miou_witness :
  0 <= num_classes args
  /\ exists w',
      val args (net true 1) (build_dataloader_val args) (csv_path_of args)
          world0
      = (Ok (f040, f040, net false 1, val_batches), w').
Proof.
  split; [simpl; lia|].
  destruct (val_returns_mean_accuracy_and_miou args (net true 1)
              (build_dataloader_val args) (csv_path_of args) world0)
    as [w' Hw']; [simpl; lia|].
  exists w'. rewrite Hw'. reflexivity.
Defined.

(** Two validation batches, in both orders: the same 2x2 matrix. *)
Example confusion_matrix_two_orders :
  let b1 := ([0; 1; 2; 3], [0; 0; 1; 1]) in
  let b2 := ([4; 5; 6; 7; 8; 9], [0; 1; 1; 1; 0; 0]) in
  accumulated_hist args (net false 2) [b1; b2] = [[3; 2]; [4; 1]]
  /\ accumulated_hist args (net false 2) [b2; b1] = [[3; 2]; [4; 1]].
Proof. split; reflexivity. Qed.

Lemma three_head_losses_summed_unweighted_witness :
  select_loss args = Some DiceLoss
  /\ training (model state0) = true
  /\ train_batch args (select_loss args) (state0, [])
       ([0; 1; 2; 3], [0; 1; 0; 1]) world0
     = (Ok (backward_and_step state0 [6], [of_Z 6]),
        log world0 [EModelCall true [0; 1; 2; 3]; ETqdm (TqUpdate 4);
                    ETqdm (TqPostfix [6]);
                    EAddScalar "loss_step" (SVTensor [6]) 1]).
Proof.
  split; [reflexivity|]. split; [reflexivity|].
  destruct (three_head_losses_summed_unweighted args DiceLoss state0 []
              [0; 1; 2; 3] [0; 1; 0; 1] world0 eq_refl eq_refl)
    as (_ & H & _).
  refine (eq_trans H _). reflexivity.
Defined.

Lemma unsupported_optimizer_aborts_before_training_witness :
  optimizer_name args_foo_optimizer <> "rmsprop"
  /\ optimizer_name args_foo_optimizer <> "sgd"
  /\ optimizer_name args_foo_optimizer <> "adam"
  /\ exists w',
      main args_foo_optimizer world0 = (Ok tt, w')
      /\ trace w'
         = [EPrintArgs args_foo_optimizer;
            ESetEnv "CUDA_VISIBLE_DEVICES" "0";
            EPrint ("not supported optimizer " +:+ nl)]
      /\ files w' = ∅.
Proof.
  assert (H1 : optimizer_name args_foo_optimizer <> "rmsprop")
    by discriminate.
  assert (H2 : optimizer_name args_foo_optimizer <> "sgd") by discriminate.
  assert (H3 : optimizer_name args_foo_optimizer <> "adam") by discriminate.
  repeat (split; [assumption|]).
  destruct (unsupported_optimizer_aborts_before_training
              args_foo_optimizer world0 H1 H2 H3)
    as (w' & Hm & Hn & _ & _ & _ & Hf & _).
  exists w'. split; [exact Hm|]. split; [|exact Hf].
  rewrite main_unsupported_optimizer in Hm by reflexivity.
  injection Hm as <-. reflexivity.
Defined.

(** The second epoch of the small run: a checkpoint step of 2 makes it
    due, and the file holds the epoch, the weights and the optimizer. *)
Lemma checkpoint_written_iff_due_witness :
  exists st' w',
    epoch2_run = (Ok st', w')
    /\ checkpoint_due args 2
    /\ checkpoints_written (new_events world0 w')
       = [(ckpt_path, CheckpointFile 2 1 (sgd_state 1 1))]
    /\ files w' !! ckpt_path
       = Some (CheckpointFile 2 (params (model st'))
                              (state_dict (optimizer st'))).
Proof.
  assert (Fok : is_ok (fst epoch2_run) = true) by (vm_compute; reflexivity).
  assert (F : final_weights epoch2_run = Some (1, sgd_state 1 1))
    by reflexivity.
  destruct epoch2_run as [[st'|e] w'] eqn:E; [|discriminate Fok].
  exists st', w'. split; [reflexivity|].
  assert (Hdue : checkpoint_due args 2) by (split; [reflexivity | discriminate]).
  split; [exact Hdue|].
  destruct (checkpoint_written_iff_due args (select_loss args)
              (csv_path_of args) state0 2 world0 st' w' E) as (_ & H & _).
  destruct (H Hdue) as (dir & Hdir & Hcw & Hf).
  injection Hdir as <-.
  split; [|exact Hf].
  rewrite Hcw.
  exact (f_equal (fun x => match x with
                           | Some (p, o) => [(ckpt_path, CheckpointFile 2 p o)]
                           | None => []
                           end) F).
Defined.

(** The small run validates after each of its three epochs with the
    results 0.40, 0.35 and 0.50, and writes the best file twice. *)
Lemma best_model_written_on_strict_improvement_witness :
  exists st' w',
    train_run = (Ok st', w')
    /\ save_model_path args = Some "./checkpoints_18_sgd_100"
    /\ val_mious (new_events world0 w') = [f040; f035; f050]
    /\ best_writes best_file_path (new_events world0 w') = 2%nat
    /\ best_log best_file_path false (new_events world0 w')
       = [(f040, true); (f035, false); (f050, true)]
    /\ max_miou st' = f050.
Proof.
  assert (Fok : is_ok (fst train_run) = true) by (vm_compute; reflexivity).
  assert (Fms : val_mious (new_events world0 (snd train_run))
                = [f040; f035; f050]) by (vm_compute; reflexivity).
  assert (Fmax : final_max_miou train_run = Some f050)
    by (vm_compute; reflexivity).
  destruct train_run as [[st'|e] w'] eqn:E; [|discriminate Fok].
  exists st', w'. split; [reflexivity|]. split; [reflexivity|].
  destruct (best_model_written_on_strict_improvement args _ _ _ _ _ 0
              world0 st' w' "./checkpoints_18_sgd_100" E eq_refl)
    as (_ & _ & _ & H & _).
  destruct (H Fms) as (H2 & HL).
  split; [exact Fms|]. split; [exact H2|]. split; [exact HL|].
  injection Fmax as ->. reflexivity.
Defined.

(** The run resumed from the checkpoint of epoch 5: its first validation
    has a mean-IoU of 0.25, below the 0.50 of the earlier run, and it
    replaces the best file all the same. *)
Lemma best_tracker_restarts_from_zero_witness :
  exists w',
    resumed_run = (Ok tt, w')
    /\ save_model_path resume_args = Some "./checkpoints_18_sgd_100"
    /\ files resume_world !! best_file_path = Some (StateDictFile 3)
    /\ val_mious (new_events resume_world w')
       = [fdiv (of_Z 1) (of_Z 4); zero]
    /\ best_log best_file_path false (new_events resume_world w') !! 0%nat
       = Some (fdiv (of_Z 1) (of_Z 4), true)
    /\ best_log best_file_path false (new_events resume_world w') !! 1%nat
       = Some (zero, false)
    /\ files w' !! best_file_path = Some (StateDictFile 6).
Proof.
  assert (Fok : is_ok (fst resumed_run) = true) by (vm_compute; reflexivity).
  assert (Fms : val_mious (new_events resume_world (snd resumed_run))
                = [fdiv (of_Z 1) (of_Z 4); zero]) by (vm_compute; reflexivity).
  assert (Ff : files (snd resumed_run) !! best_file_path
               = Some (StateDictFile 6)) by reflexivity.
  destruct resumed_run as [[[]|e] w'] eqn:E; [|discriminate Fok].
  exists w'. split; [reflexivity|]. split; [reflexivity|].
  split; [reflexivity|].
  destruct (best_tracker_restarts_from_zero resume_args resume_world w'
              "./checkpoints_18_sgd_100" E eq_refl) as (_ & Hfirst & Hle).
  cbn [snd] in Fms, Ff.
  split; [exact Fms|].
  split.
  { apply Hfirst; try rewrite Fms; [reflexivity | constructor | reflexivity]. }
  split; [|exact Ff].
  apply Hle; try rewrite Fms; reflexivity.
Defined.

(** ** Resuming skips an epoch *)

(** C1 — Loading the checkpoint of epoch 5 gives [curr_epoch = 6] and
    restores the saved model and optimizer states as they are; but the
    epochs of a run of 8 resumed from it are 7 and 8, not 6, 7 and 8:
    epoch 6 is skipped. *)
Theorem resume_from_epoch_5_skips_epoch_6 :
  load_pretrained resume_args (build_model resume_args) (sgd 1 0)
    resume_world
  = (Ok (net true 5, sgd 3 5, 6),
     log resume_world (load_events ckpt_path 5))
  /\ fst resumed_run = Ok tt
  /\ epochs_run (trace (snd resumed_run)) = [7; 8]
  /\ py_range (5 + 1) (num_epochs resume_args + 1) = [6; 7; 8].
Proof. repeat split; reflexivity. Qed.

(** ** An unsupported loss name is found in the first batch *)

(** C2 — With [--loss foo] the run is not stopped before training: the
    first epoch sets the learning rate and sends the first batch through
    the network, and only then the run dies on the unassigned
    [loss_func], with nothing printed about the loss name. With a batch
    size that leaves no training batch, the same run is not stopped at
    all: it goes through its three epochs and writes a checkpoint. *)
Theorem unsupported_loss_is_not_detected_before_training :
  foo_loss_run
  = (Raise (UnboundLocalError "loss_func"),
     log world0
       [EPrintArgs args_foo_loss; ESetEnv "CUDA_VISIBLE_DEVICES" "0";
        ESummaryWriter ""; ETqdm (TqOpen 4); ETqdm (TqDescription 1 2);
        EModelCall true [0; 1; 2; 3]])
  /\ fst foo_loss_no_batch_run = Ok tt
  /\ epochs_run (trace (snd foo_loss_no_batch_run)) = [1; 2; 3]
  /\ files (snd foo_loss_no_batch_run) !! ckpt_path
     = Some (CheckpointFile 2 0 (sgd_state 1 0)).
Proof. repeat split; reflexivity. Qed.

End ToyRuns.

(** * Further properties of the script *)

Section ProgramExtra.

Context {Rate : Type} `{C : Collab Rate}.

Implicit Types (w : World) (t : list Event) (st : TrainState).

#[local] Arguments banner : simpl never.
#[local] Arguments nl : simpl never.
#[local] Arguments tab : simpl never.
#[local] Arguments latest_path : simpl never.
#[local] Arguments best_path : simpl never.
#[local] Arguments val_events : simpl never.
#[local] Arguments val_spec : simpl never.
#[local] Arguments String.append : simpl never.

(** ** Digests, again *)

Lemma training_calls_app t1 t2 :
  training_calls (t1 ++ t2) = training_calls t1 ++ training_calls t2.
Proof. apply omap_app. Qed.

Lemma eval_calls_app t1 t2 :
  eval_calls (t1 ++ t2) = eval_calls t1 ++ eval_calls t2.
Proof. apply omap_app. Qed.

Lemma loss_steps_app t1 t2 :
  loss_steps (t1 ++ t2) = loss_steps t1 ++ loss_steps t2.
Proof. apply omap_app. Qed.

Lemma checkpoint_epochs_app t1 t2 :
  checkpoint_epochs (t1 ++ t2) = checkpoint_epochs t1 ++ checkpoint_epochs t2.
Proof. unfold checkpoint_epochs. rewrite saves_app. apply omap_app. Qed.

(** Silent events show in no digest. *)
Lemma silent_digests t :
  Forall (fun e => silent e = true) t ->
  training_calls t = [] /\ eval_calls t = [] /\ loss_steps t = []
  /\ epochs_run t = [] /\ val_mious t = [] /\ saves t = [].
Proof.
  induction 1 as [|e t He _ IH]; [repeat split|].
  unfold training_calls, eval_calls, loss_steps, epochs_run, val_mious,
    saves in *.
  destruct e as [?|?|? ? ?|? ?|tq|?|tag v gs|? ?|[] ?|?|? ?|?];
    simpl in *; try discriminate He; exact IH.
Qed.

Lemma training_calls_cons (e : Event) t :
  training_calls (e :: t)
  = match training_call_of_event e with
    | Some x => x :: training_calls t
    | None => training_calls t
    end.
Proof. reflexivity. Qed.

Lemma eval_calls_cons (e : Event) t :
  eval_calls (e :: t)
  = match eval_call_of_event e with
    | Some x => x :: eval_calls t
    | None => eval_calls t
    end.
Proof. reflexivity. Qed.

Lemma loss_steps_cons (e : Event) t :
  loss_steps (e :: t)
  = match loss_step_of_event e with
    | Some x => x :: loss_steps t
    | None => loss_steps t
    end.
Proof. reflexivity. Qed.

Lemma eval_batch_calls (batches : list (Tensor * Tensor)) :
  training_calls (map (fun b => EModelCall false (fst b)) batches) = []
  /\ eval_calls (map (fun b => EModelCall false (fst b)) batches)
     = map fst batches
  /\ loss_steps (map (fun b => EModelCall false (fst b)) batches) = [].
Proof.
  induction batches as [|b batches (IH1 & IH2 & IH3)]; [repeat split|].
  cbn [map].
  rewrite training_calls_cons, eval_calls_cons, loss_steps_cons, IH1, IH2, IH3.
  repeat split.
Qed.

Lemma val_events_calls (args : Args Rate) (m : Model)
    (batches : list (Tensor * Tensor)) :
  training_calls (val_events args m batches) = []
  /\ eval_calls (val_events args m batches) = map fst batches
  /\ loss_steps (val_events args m batches) = [].
Proof.
  destruct (eval_batch_calls batches) as (E1 & E2 & E3).
  unfold val_events.
  rewrite !training_calls_app, !eval_calls_app, !loss_steps_app, E1, E2, E3.
  cbn. rewrite app_nil_r. repeat split.
Qed.

(** ** A fresh run *)

Lemma build_optimizer_some (args : Args Rate) (m : Model) :
  optimizer_name args = "rmsprop" \/ optimizer_name args = "sgd"
  \/ optimizer_name args = "adam" ->
  exists o, build_optimizer args m = Some o.
Proof.
  unfold build_optimizer. intros [H|[H|H]]; rewrite H; simpl;
    eexists; reflexivity.
Qed.

(** X1 — A run of [main] that is not resumed and returns has run the
    epochs 1, 2, ..., num_epochs, each once and in this order. *)
Theorem fresh_run_executes_every_epoch_once (args : Args Rate) w w' :
  optimizer_name args = "rmsprop" \/ optimizer_name args = "sgd"
  \/ optimizer_name args = "adam" ->
  pretrained_model_path args = None ->
  main args w = (Ok tt, w') ->
  epochs_run (new_events w w') = seqZ 1 (num_epochs args).
Proof.
  intros Hopt Hp H.
  destruct (build_optimizer_some args (build_model args) Hopt) as (o0 & Ho).
  rewrite (fresh_run_epochs args o0 w w' Ho Hp H).
  unfold py_range. f_equal. lia.
Qed.

(** ** Saving and loading *)

(** X2 — The checkpoint an epoch writes can be loaded back: loading the
    file at the "latest" path gives the weights and the optimizer state
    (parameter groups and accumulators) of the end of that epoch, and the
    epoch number plus one as [curr_epoch]. *)
Theorem checkpoint_round_trip (args : Args Rate)
    (lf : option (Tensor -> Tensor -> Tensor)) (csv_path : string) st
    (epoch : Z) w st' w' (dir : string) (args2 : Args Rate) (m2 : Model)
    (o2 : Optimizer Rate OptAcc) :
  train_epoch args lf csv_path st epoch w = (Ok st', w') ->
  checkpoint_due args epoch ->
  save_model_path args = Some dir ->
  pretrained_model_path args2 = Some (latest_path dir) ->
  wrapped m2 = true ->
  exists w2 (o2' : Optimizer Rate OptAcc),
    load_pretrained args2 m2 o2 w' = (Ok (set_params (params (model st')) m2, o2', epoch + 1), w2)
    /\ param_groups o2' = param_groups (optimizer st')
    /\ opt_state o2' = opt_state (optimizer st')
    /\ opt_kind o2' = opt_kind o2
    /\ files w2 = files w'.
Proof.
  intros H Hdue Hdir Hp Hw.
  apply train_epoch_summary in H.
  destruct H as (_ & _ & _ & _ & _ & _ & _ & Hd & _).
  destruct (Hd Hdue) as (dir' & Hdir' & _ & Hf).
  rewrite Hdir in Hdir'. injection Hdir' as <-.
  eexists _, _. split.
  - apply (load_pretrained_ok args2 m2 o2 w' _ _ _ _ Hp Hf Hw).
  - repeat split.
Qed.

Lemma load_pretrained_state_dict_file (args : Args Rate) (m : Model)
    (o : Optimizer Rate OptAcc) w (path : string) (msd : Params) :
  pretrained_model_path args = Some path ->
  files w !! path = Some (StateDictFile msd) ->
  wrapped m = true ->
  load_pretrained args m o w
  = (Raise (KeyError "model_state_dict"),
     log w [EPrint (nl +:+ banner "*");
            EPrint ("Loading model from " +:+ path +:+ " ...");
            ELoad path]).
Proof.
  intros Hp Hf Hw. unfold load_pretrained, print, torch_load, emit, raise.
  rewrite Hp. unfold mbind, M_bind, mret, M_ret. cbn.
  rewrite Hf, Hw. cbn. unfold log. cbn. rewrite <- !app_assoc. reflexivity.
Qed.

Lemma load_pretrained_missing_file (args : Args Rate) (m : Model)
    (o : Optimizer Rate OptAcc) w (path : string) :
  pretrained_model_path args = Some path ->
  files w !! path = None ->
  load_pretrained args m o w
  = (Raise (FileNotFoundError path),
     log w [EPrint (nl +:+ banner "*");
            EPrint ("Loading model from " +:+ path +:+ " ...")]).
Proof.
  intros Hp Hf. unfold load_pretrained, print, torch_load, emit, raise.
  rewrite Hp. unfold mbind, M_bind, mret, M_ret. cbn.
  rewrite Hf. unfold log. cbn. rewrite <- !app_assoc. reflexivity.
Qed.

Lemma build_model_wrapped (args : Args Rate) :
  cuda_is_available = true -> use_gpu args = true ->
  wrapped (build_model args) = true.
Proof. intros H1 H2. unfold build_model. rewrite H1, H2. reflexivity. Qed.

Lemma build_model_not_wrapped (args : Args Rate) :
  cuda_is_available && use_gpu args = false ->
  wrapped (build_model args) = false.
Proof. intros H. unfold build_model. rewrite H. reflexivity. Qed.

(** What [main] does up to the loading of the checkpoint. *)
Lemma main_load_raises (args : Args Rate) (o0 : Optimizer Rate OptAcc) w
    (e : exn) (q : list Event) :
  build_optimizer args (build_model args) = Some o0 ->
  load_pretrained args (build_model args) o0
    (log w [EPrintArgs args; ESetEnv "CUDA_VISIBLE_DEVICES" (cuda args)])
  = (Raise e,
     log (log w [EPrintArgs args; ESetEnv "CUDA_VISIBLE_DEVICES" (cuda args)])
         q) ->
  main args w
  = (Raise e,
     log w ([EPrintArgs args; ESetEnv "CUDA_VISIBLE_DEVICES" (cuda args)]
            ++ q)).
Proof.
  intros Ho Hl. unfold main.
  unfold mbind at 1, M_bind at 1. rewrite emit_log.
  unfold mbind at 1, M_bind at 1. rewrite emit_log, log_log, Ho.
  cbn [app] in *.
  erewrite bind_raise by exact Hl. rewrite log_log. reflexivity.
Qed.

(** X3 — The best-model file cannot be resumed from: it is a bare state
    dict, and [main] given one as [--pretrained_model_path] stops with
    [KeyError: 'model_state_dict'] before any epoch, with no file
    changed. *)
Theorem resuming_from_a_state_dict_is_a_key_error (args : Args Rate) w
    (path : string) (msd : Params) :
  optimizer_name args = "rmsprop" \/ optimizer_name args = "sgd"
  \/ optimizer_name args = "adam" ->
  cuda_is_available = true ->
  use_gpu args = true ->
  pretrained_model_path args = Some path ->
  files w !! path = Some (StateDictFile msd) ->
  exists w',
    main args w = (Raise (KeyError "model_state_dict"), w')
    /\ epochs_run (new_events w w') = []
    /\ training_calls (new_events w w') = []
    /\ saves (new_events w w') = []
    /\ files w' = files w
    /\ dirs w' = dirs w.
Proof.
  intros Hopt Hc Hg Hp Hf.
  destruct (build_optimizer_some args (build_model args) Hopt) as (o0 & Ho).
  pose proof (load_pretrained_state_dict_file args (build_model args) o0
                (log w [EPrintArgs args;
                        ESetEnv "CUDA_VISIBLE_DEVICES" (cuda args)])
                path msd Hp Hf (build_model_wrapped args Hc Hg)) as Hl.
  eexists. split.
  - exact (main_load_raises args o0 w _ _ Ho Hl).
  - rewrite new_events_log. repeat split.
Qed.

(** X4 — With a [--pretrained_model_path] at which there is no file,
    [main] stops with [FileNotFoundError] on that path before any epoch:
    there is no fallback to a fresh start. *)
Theorem resuming_from_a_missing_file_is_fatal (args : Args Rate) w
    (path : string) :
  optimizer_name args = "rmsprop" \/ optimizer_name args = "sgd"
  \/ optimizer_name args = "adam" ->
  pretrained_model_path args = Some path ->
  files w !! path = None ->
  exists w',
    main args w = (Raise (FileNotFoundError path), w')
    /\ epochs_run (new_events w w') = []
    /\ training_calls (new_events w w') = []
    /\ saves (new_events w w') = []
    /\ files w' = files w
    /\ dirs w' = dirs w.
Proof.
  intros Hopt Hp Hf.
  destruct (build_optimizer_some args (build_model args) Hopt) as (o0 & Ho).
  pose proof (load_pretrained_missing_file args (build_model args) o0
                (log w [EPrintArgs args;
                        ESetEnv "CUDA_VISIBLE_DEVICES" (cuda args)])
                path Hp Hf) as Hl.
  eexists. split.
  - exact (main_load_raises args o0 w _ _ Ho Hl).
  - rewrite new_events_log. repeat split.
Qed.


(** ** What a validation touches *)

(** X5 — A validation pass, whether it returns or raises, writes no file,
    creates no directory, logs no scalar and runs no forward pass in
    training mode; when it returns, the network it hands back has the
    same weights and is in inference mode, and every batch of the loader
    went through it once, in the loader's order. *)
Theorem val_only_reads (args : Args Rate) (m : Model) (dl : Loader)
    (csv_path : string) w (r : result (float * float * Model * Loader)) w' :
  val args m dl csv_path w = (r, w') ->
  files w' = files w
  /\ dirs w' = dirs w
  /\ saves (new_events w w') = []
  /\ val_mious (new_events w w') = []
  /\ training_calls (new_events w w') = []
  /\ (forall (precision miou : float) (m' : Model) (dl' : Loader),
        r = Ok (precision, miou, m', dl') ->
        params m' = params m /\ wrapped m' = wrapped m
        /\ training m' = false
        /\ dl' = snd (loader_iter dl)
        /\ eval_calls (new_events w w') = map fst (fst (loader_iter dl))).
Proof.
  intros H. destruct (Z.lt_ge_cases (num_classes args) 0) as [Hn|Hn].
  - rewrite val_negative_classes in H by exact Hn. injection H as <- <-.
    rewrite new_events_log.
    do 5 (split; [reflexivity|]).
    intros precision miou m' dl' Heq. discriminate Heq.
  - rewrite val_ok in H by exact Hn. injection H as <- <-.
    rewrite new_events_log.
    pose proof (quiet_val_events args m (fst (loader_iter dl))) as Hq.
    destruct (val_events_calls args m (fst (loader_iter dl)))
      as (E1 & E2 & E3).
    rewrite (quiet_saves _ Hq), (quiet_val_mious _ Hq), E1.
    do 5 (split; [reflexivity|]).
    intros precision miou m' dl' Heq. injection Heq as <- <- <- <-.
    repeat split. exact E2.
Qed.

(** X6 — The mean-IoU a validation returns does not depend on the order
    in which the loader yields its batches (the validation loader
    shuffles): two loaders with the same batches in different orders give
    the same mean-IoU. *)
Theorem miou_independent_of_batch_order (args : Args Rate) (m : Model)
    (dl1 dl2 : Loader) (csv_path : string) w1 w2 :
  0 <= num_classes args ->
  Permutation (fst (loader_iter dl1)) (fst (loader_iter dl2)) ->
  exists (p1 p2 miou : float) (m1 m2 : Model) (d1 d2 : Loader) w1' w2',
    val args m dl1 csv_path w1 = (Ok (p1, miou, m1, d1), w1')
    /\ val args m dl2 csv_path w2 = (Ok (p2, miou, m2, d2), w2').
Proof.
  intros Hn Hperm.
  do 9 eexists. rewrite !val_ok by exact Hn. split; [reflexivity|].
  unfold val_spec. cbn [snd].
  rewrite (accumulated_hist_permutation args m _ _ Hperm). reflexivity.
Qed.

(** ** Runs that cannot fail, and runs with nothing to do *)


Lemma train_nothing_to_do (args : Args Rate) (m : Model)
    (o : Optimizer Rate OptAcc) (dlt dlv : Loader) (csv_path : string)
    (curr_epoch : Z) w :
  num_epochs args <= curr_epoch ->
  train args m o dlt dlv csv_path curr_epoch w
  = (Ok {| model := m; optimizer := o; scaler := GradScaler;
           dataloader_train := dlt; dataloader_val := dlv;
           max_miou := zero; step := 0 |},
     log w [ESummaryWriter ""]).
Proof.
  intros H. unfold train.
  unfold mbind at 1, M_bind at 1. rewrite emit_log.
  rewrite py_range_nil by lia. reflexivity.
Qed.

(** X8 — Resuming from a checkpoint of epoch [e] with
    [num_epochs <= e + 1] trains nothing: [main] loads the checkpoint,
    runs no epoch and no training batch, writes no file, and ends with
    its final validation. This includes [num_epochs = e + 1], one epoch
    short of the configured count, and it does not look at the loss name
    or the steps. *)
Theorem resuming_a_finished_run_trains_nothing (args : Args Rate) w
    (path : string) (e : Z) (msd : Params) (osd : OptimizerState) :
  optimizer_name args = "rmsprop" \/ optimizer_name args = "sgd"
  \/ optimizer_name args = "adam" ->
  cuda_is_available = true ->
  use_gpu args = true ->
  0 <= num_classes args ->
  pretrained_model_path args = Some path ->
  files w !! path = Some (CheckpointFile e msd osd) ->
  num_epochs args <= e + 1 ->
  exists w',
    main args w = (Ok tt, w')
    /\ epochs_run (new_events w w') = []
    /\ training_calls (new_events w w') = []
    /\ eval_calls (new_events w w')
       = map fst (fst (loader_iter (build_dataloader_val args)))
    /\ saves (new_events w w') = []
    /\ files w' = files w.
Proof.
  intros Hopt Hcuda Hgpu Hn Hp Hf Hfin.
  destruct (build_optimizer_some args (build_model args) Hopt) as (o0 & Ho).
  pose proof (build_model_wrapped args Hcuda Hgpu) as Hw.
  set (hd := [EPrintArgs args; ESetEnv "CUDA_VISIBLE_DEVICES" (cuda args)]).
  set (m1 := set_params msd (build_model args)).
  set (bs := fst (loader_iter (build_dataloader_val args))).
  exists (log w (hd ++ load_events path e ++ [ESummaryWriter ""]
                 ++ val_events args m1 bs)).
  split.
  - unfold main.
    unfold mbind at 1, M_bind at 1. rewrite emit_log.
    unfold mbind at 1, M_bind at 1. rewrite emit_log, log_log, Ho.
    erewrite bind_ok
      by (apply (load_pretrained_ok args _ _ _ path e msd osd Hp);
          [exact Hf | exact Hw]).
    cbn beta iota zeta.
    erewrite bind_ok by (apply train_nothing_to_do; lia).
    cbn [model dataloader_val].
    erewrite bind_ok by (apply val_ok; exact Hn).
    unfold mret, M_ret. rewrite !log_log. reflexivity.
  - rewrite new_events_log.
    pose proof (quiet_val_events args m1 bs) as Hqv.
    pose proof (quiet_load_events path e) as Hql.
    destruct (val_events_calls args m1 bs) as (V1 & V2 & V3).
    rewrite !epochs_run_app, !training_calls_app, !eval_calls_app, !saves_app.
    rewrite (quiet_epochs_run _ Hqv), (quiet_epochs_run _ Hql),
      (quiet_saves _ Hqv), (quiet_saves _ Hql), V1, V2.
    repeat split.
Qed.

(** ** NaN results *)

Lemma gt_nan_left (m x : float) : is_nan m = true -> gt m x = false.
Proof.
  destruct m; try discriminate. intros _. unfold gt, SFltb.
  destruct x; reflexivity.
Qed.

(** X9 — A validation whose mean-IoU is NaN (a class absent from both the
    labels and the predictions) never writes the best-model file, and the
    tracked maximum is never NaN and never below 0. *)
Theorem nan_miou_is_never_the_best (args : Args Rate) (m : Model)
    (o : Optimizer Rate OptAcc) (dlt dlv : Loader) (csv_path : string)
    (curr_epoch : Z) w st' w' (dir : string) :
  train args m o dlt dlv csv_path curr_epoch w = (Ok st', w') ->
  save_model_path args = Some dir ->
  is_nan (max_miou st') = false
  /\ le zero (max_miou st') = true
  /\ (forall (i : nat) (mi : float),
        val_mious (new_events w w') !! i = Some mi ->
        is_nan mi = true ->
        best_log (best_path dir) false (new_events w w') !! i
        = Some (mi, false)).
Proof.
  intros H Hdir. apply train_summary in H.
  destruct H as (_ & _ & _ & B & X & _).
  destruct (B dir Hdir) as (L & _).
  split; [rewrite X; apply running_max_not_nan; reflexivity|].
  split; [rewrite X; apply running_max_ge_zero; reflexivity|].
  intros i mi Hi Hnan.
  rewrite L, (tracker_lookup _ _ _ _ Hi), (gt_nan_left _ _ Hnan).
  reflexivity.
Qed.


(** ** The batch loop, event by event *)

Lemma batch_events_digests (args : Args Rate) st (data l : Tensor) :
  training_calls (batch_events args st data l) = [data]
  /\ eval_calls (batch_events args st data l) = []
  /\ loss_steps (batch_events args st data l) = [step st + 1].
Proof. repeat split. Qed.

Lemma backward_and_step_counts st (l : Tensor) :
  step (backward_and_step st l) = step st + 1.
Proof.
  unfold backward_and_step.
  destruct (scaler_step _ _ _ _) as [[sc acc] p]. reflexivity.
Qed.

Lemma for_each_cons {A S : Type} (x : A) (l : list A)
    (body : S -> A -> M S) (s : S) :
  for_each (x :: l) body s = body s x ≫= fun s' => for_each l body s'.
Proof. reflexivity. Qed.

Lemma train_batches_inv_calls (args : Args Rate)
    (lf : option (Tensor -> Tensor -> Tensor))
    (batches : list (Tensor * Tensor)) :
  forall st (rec : list float) w st' (rec' : list float) w',
    for_each batches (train_batch args lf) (st, rec) w = (Ok (st', rec'), w') ->
    exists tb,
      w' = log w tb
      /\ Forall (fun e => quiet e = true) tb
      /\ training_calls tb = map fst batches
      /\ eval_calls tb = []
      /\ loss_steps tb = seqZ (step st + 1) (Z.of_nat (length batches))
      /\ step st' = step st + Z.of_nat (length batches)
      /\ length rec' = (length rec + length batches)%nat.
Proof.
  induction batches as [|b batches IH]; intros st rec w st' rec' w' H.
  - simpl in H. injection H as <- <- <-. exists [].
    rewrite log_nil. repeat split; try constructor; simpl; lia.
  - destruct b as [data label]. rewrite for_each_cons in H.
    apply bind_ok_inv in H. destruct H as ([st1 rec1] & w1 & H1 & H2).
    pose proof H1 as H1'.
    apply train_batch_inv in H1. destruct H1 as (f & -> & Hm & -> & ->).
    rewrite train_batch_ok in H1' by exact Hm. injection H1' as Hrec.
    apply IH in H2.
    destruct H2 as (tb & -> & Hq & T & E & L & S & R).
    rewrite backward_and_step_counts in L, S.
    cbn [fst snd] in *.
    set (l := three_head_loss f (params (model st)) data label) in *.
    exists (batch_events args st data l ++ tb).
    rewrite log_log.
    split; [reflexivity|].
    split; [apply Forall_app; split; [apply quiet_batch_events | exact Hq]|].
    rewrite training_calls_app, eval_calls_app, loss_steps_app, T, E, L.
    destruct (batch_events_digests args st data l) as (-> & -> & ->).
    split; [reflexivity|]. split; [reflexivity|].
    split.
    { cbn [length app]. rewrite Nat2Z.inj_succ.
      rewrite (seqZ_cons (step st + 1)) by lia.
      f_equal. f_equal; lia. }
    split; [cbn [length]; lia|].
    rewrite R, <- Hrec, length_app. cbn [length]. lia.
Qed.

(** An epoch, once its batch loop has returned, is its two phases. *)
Lemma train_epoch_after_batches (args : Args Rate)
    (lf : option (Tensor -> Tensor -> Tensor)) (csv_path : string) st
    (epoch : Z) w st1 (rec : list float) w1 :
  for_each (fst (loader_iter (dataloader_train st))) (train_batch args lf)
    (epoch_start args epoch st, [])
    (log w [ETqdm (TqOpen (loader_len (dataloader_train st)
                           * batch_size args));
            ETqdm (TqDescription epoch (snd (epoch_prologue args epoch st)))])
  = (Ok (st1, rec), w1) ->
  train_epoch args lf csv_path st epoch w
  = (checkpoint_phase args epoch st1
       ≫= fun _ => validation_phase args csv_path epoch st1)
      (log w1 [ETqdm TqClose;
               EAddScalar "epoch/loss_epoch_train" (SVFloat (np_mean rec))
                          epoch;
               EPrintFloat "loss for train : " 6 (np_mean rec)]).
Proof.
  unfold train_epoch, epoch_start.
  destruct (epoch_prologue args epoch st) as [st0 lr] eqn:Hpro.
  assert (Hdl : dataloader_train st0 = dataloader_train st).
  { unfold epoch_prologue in Hpro.
    destruct (poly_lr_scheduler _ _ _ _). injection Hpro as <- _. reflexivity. }
  cbn [fst snd]. intros H.
  unfold mbind at 1, M_bind at 1. rewrite emit_log.
  unfold mbind at 1, M_bind at 1. rewrite emit_log, log_log.
  rewrite Hdl.
  destruct (loader_iter (dataloader_train st)) as [batches dl] eqn:Hit.
  cbn [fst snd app] in *.
  erewrite bind_ok by exact H. cbn beta iota zeta.
  unfold mbind at 1, M_bind at 1. rewrite emit_log.
  unfold mbind at 1, M_bind at 1. rewrite emit_log, log_log.
  unfold mbind at 1, M_bind at 1. rewrite emit_log, log_log.
  reflexivity.
Qed.

(** With a supported loss the batch loop of an epoch always returns. *)
Lemma epoch_batches_run (args : Args Rate) (f : Tensor -> Tensor -> Tensor)
    st (epoch : Z) w0 :
  exists st1 (rec : list float) tb,
    for_each (fst (loader_iter (dataloader_train st)))
      (train_batch args (Some f)) (epoch_start args epoch st, []) w0
    = (Ok (st1, rec), log w0 tb)
    /\ same_but_weights (epoch_start args epoch st) st1
    /\ Forall (fun e => quiet e = true) tb
    /\ training_calls tb
       = map fst (fst (loader_iter (dataloader_train st))).
Proof.
  destruct (train_batches_ok args f (fst (loader_iter (dataloader_train st)))
              (epoch_start args epoch st) [] w0
              (epoch_start_training args epoch st))
    as (st1 & rec & w1 & H).
  pose proof H as H'. apply train_batches_inv in H'. destruct H' as (Hs & _).
  pose proof H as H''. apply train_batches_inv_calls in H''.
  destruct H'' as (tb & -> & Hq & T & _).
  exists st1, rec, tb. repeat split; try assumption; apply Hs.
Qed.

(** ** The checkpoint phase, outcome by outcome *)

Lemma checkpoint_due_step (args : Args Rate) (epoch : Z) :
  checkpoint_due args epoch -> checkpoint_step args <> 0.
Proof.
  intros [Hm Hne] Hz. rewrite Hz, Z.mod_0_r in Hm. contradiction.
Qed.

Lemma checkpoint_phase_zero_step (args : Args Rate) (epoch : Z) st w :
  checkpoint_step args = 0 ->
  checkpoint_phase args epoch st w = (Raise ZeroDivisionError, w).
Proof.
  intros Hz. unfold checkpoint_phase, py_mod. rewrite Hz. reflexivity.
Qed.

Lemma checkpoint_phase_due_start (args : Args Rate) (epoch : Z) st :
  checkpoint_due args epoch ->
  checkpoint_phase args epoch st
  = (print (nl +:+ banner "*");;
     print "Saving checkpoint...";;
     dir ← fspath (save_model_path args);
     isdir ← os_path_isdir dir;
     (if (isdir : bool) then mret tt else os_mkdir dir);;
     msd ← module_state_dict (model st);
     torch_save (CheckpointFile epoch msd (state_dict (optimizer st)))
                (latest_path dir);;
     print "Done!";;
     print (banner "*" +:+ nl)).
Proof.
  intros Hdue. pose proof (checkpoint_due_step _ _ Hdue) as Hz.
  unfold checkpoint_phase, py_mod.
  destruct (Z.eqb_spec (checkpoint_step args) 0) as [E|_]; [contradiction|].
  apply due_test in Hdue.
  unfold mbind at 1, M_bind at 1, mret at 1, M_ret at 1.
  rewrite Hdue. reflexivity.
Qed.

Lemma checkpoint_phase_no_path (args : Args Rate) (epoch : Z) st w :
  checkpoint_due args epoch ->
  save_model_path args = None ->
  checkpoint_phase args epoch st w
  = (Raise (TypeError "expected str, bytes or os.PathLike object, not NoneType"),
     log w [EPrint (nl +:+ banner "*"); EPrint "Saving checkpoint..."]).
Proof.
  intros Hdue Hs. rewrite checkpoint_phase_due_start by exact Hdue.
  unfold print, fspath, emit, raise, mbind, M_bind. rewrite Hs.
  unfold log. cbn. rewrite <- app_assoc. reflexivity.
Qed.


Lemma val_epochs_app t1 t2 :
  val_epochs (t1 ++ t2) = val_epochs t1 ++ val_epochs t2.
Proof. apply omap_app. Qed.

Lemma quiet_val_epochs t :
  Forall (fun e => quiet e = true) t -> val_epochs t = [].
Proof.
  induction 1 as [|e t He _ IH]; [reflexivity|].
  unfold val_epochs in *.
  destruct e as [?|?|? ? ?|? ?|tq|?|tag v gs|? ?|? ?|?|? ?|?];
    try destruct v; simpl in *; try exact IH.
  destruct (String.eqb tag "epoch/miou val"); [discriminate He | exact IH].
Qed.

Lemma quiet_checkpoint_epochs t :
  Forall (fun e => quiet e = true) t -> checkpoint_epochs t = [].
Proof. intros H. unfold checkpoint_epochs. rewrite (quiet_saves _ H). reflexivity. Qed.

(** A checkpoint phase that returns called no network and logged no
    scalar; it wrote one checkpoint, of this epoch, when the test of line
    116 holds, and none otherwise. *)
Lemma checkpoint_phase_report (args : Args Rate) (epoch : Z) st w w' :
  checkpoint_phase args epoch st w = (Ok tt, w') ->
  exists q,
    trace w' = trace w ++ q
    /\ training_calls q = [] /\ eval_calls q = [] /\ loss_steps q = []
    /\ val_epochs q = [] /\ val_mious q = []
    /\ checkpoint_epochs q
       = (if checkpoint_due_b args epoch then [epoch] else []).
Proof.
  intros H. unfold checkpoint_due_b.
  destruct ((epoch mod checkpoint_step args =? 0) && negb (epoch =? 0))
    eqn:Hb.
  - apply due_test in Hb.
    rewrite checkpoint_phase_due_start in H by exact Hb.
    unfold print, fspath, os_path_isdir, os_mkdir, module_state_dict,
      torch_save, emit, raise, mbind, M_bind, mret, M_ret in H.
    cbn in H.
    destruct (save_model_path args) as [dir|]; [|discriminate H].
    destruct (bool_decide _) in H; cbn in H;
      (destruct (wrapped (model st)); cbn in H; [|discriminate H]);
      apply (f_equal snd) in H; cbn in H; subst w'; cbn;
      (eexists; split; [rewrite <- !app_assoc; reflexivity|]);
      repeat split.
  - apply checkpoint_phase_inv in H.
    destruct H as (_ & [(Hdue & _) | (_ & ->)]).
    + apply due_test in Hdue. congruence.
    + exists []. rewrite app_nil_r. repeat split.
Qed.

(** ** The validation phase, event by event *)

Lemma validation_phase_report (args : Args Rate) (csv_path : string)
    (epoch : Z) st w st' w' :
  validation_phase args csv_path epoch st w = (Ok st', w') ->
  exists q,
    trace w' = trace w ++ q
    /\ training_calls q = []
    /\ loss_steps q = []
    /\ checkpoint_epochs q = []
    /\ step st' = step st
    /\ dataloader_train st' = dataloader_train st
    /\ val_epochs q = (if validation_due_b args epoch then [epoch] else [])
    /\ (validation_due args epoch ->
        eval_calls q = map fst (fst (loader_iter (dataloader_val st)))
        /\ val_mious q
           = [snd (val_spec args (model st)
                     (fst (loader_iter (dataloader_val st))))]
        /\ model st' = set_training false (model st)
        /\ dataloader_val st' = snd (loader_iter (dataloader_val st)))
    /\ (~ validation_due args epoch -> st' = st /\ q = []).
Proof.
  intros H. pose proof H as Hinv. apply validation_phase_inv in Hinv.
  destruct Hinv as (Hz & [(Hnd & -> & ->) | (Hdue & Hcases)]).
  { exists []. rewrite app_nil_r.
    assert (Hb : validation_due_b args epoch = false).
    { unfold validation_due_b.
      destruct ((epoch mod validation_step args =? 0) && negb (epoch =? 0))
        eqn:Hb; [|reflexivity].
      apply due_test in Hb. contradiction. }
    rewrite Hb. repeat split; try contradiction. }
  assert (Hb : validation_due_b args epoch = true) by (apply due_test; exact Hdue).
  rewrite Hb.
  cbv zeta in Hcases.
  set (bs := fst (loader_iter (dataloader_val st))) in *.
  destruct (val_events_calls args (model st) bs) as (V1 & V2 & V3).
  pose proof (quiet_val_events args (model st) bs) as Hqv.
  assert (exists q,
            trace w' = trace w ++ val_events args (model st) bs ++ q
            /\ training_calls q = [] /\ eval_calls q = []
            /\ loss_steps q = []
            /\ val_mious q = [snd (val_spec args (model st) bs)]
            /\ val_epochs q = [epoch]
            /\ checkpoint_epochs q = []
            /\ model st' = set_training false (model st)
            /\ dataloader_val st' = snd (loader_iter (dataloader_val st))
            /\ step st' = step st
            /\ dataloader_train st' = dataloader_train st)
    as (q & Ht & Q1 & Q2 & Q3 & Q4 & Q5 & Q6 & Q7 & Q8 & Q9 & Q10).
  { destruct Hcases as [(_ & -> & ->) | (Hgt & -> & _)].
    - eexists. split; [reflexivity|]. repeat split.
    - clear Hz. revert H.
      unfold validation_phase, py_mod.
      destruct (Z.eqb_spec (validation_step args) 0) as [E|_];
        [intros H; discriminate H|].
      unfold mbind at 1, M_bind at 1, mret at 1, M_ret at 1.
      unfold validation_due_b in Hb. rewrite Hb.
      intros H. apply bind_ok_inv in H. destruct H as (r & w1 & Hval & H).
      apply val_ok_inv in Hval. destruct Hval as [-> ->].
      cbn beta iota zeta in H. cbn [max_miou set_val_result] in H.
      fold bs in H. rewrite Hgt in H.
      unfold print, fspath, os_makedirs, os_mkdir, module_state_dict,
        torch_save, emit, raise, mbind, M_bind, mret, M_ret in H.
      cbn in H.
      destruct (save_model_path args) as [d|]; [|discriminate H].
      destruct (bool_decide _) in H; cbn in H;
        (destruct (wrapped (model st)); cbn in H; [|discriminate H]);
        apply (f_equal snd) in H; cbn in H; subst w'; cbn;
        (eexists; split; [rewrite <- !app_assoc; reflexivity|]);
        repeat split. }
  exists (val_events args (model st) bs ++ q).
  rewrite training_calls_app, eval_calls_app, loss_steps_app, val_mious_app,
    val_epochs_app, checkpoint_epochs_app,
    V1, V2, V3, Q1, Q2, Q3, Q4, Q5, Q6, (quiet_val_mious _ Hqv),
    (quiet_val_epochs _ Hqv), (quiet_checkpoint_epochs _ Hqv), !app_nil_r.
  split; [exact Ht|].
  split; [reflexivity|]. split; [reflexivity|]. split; [reflexivity|].
  split; [exact Q9|]. split; [exact Q10|]. split; [reflexivity|]. split.
  - intros _. subst bs. repeat split; assumption.
  - intros Hn. contradiction.
Qed.

(** ** An epoch, event by event *)

Lemma epoch_start_step (args : Args Rate) (epoch : Z) st :
  step (epoch_start args epoch st) = step st.
Proof.
  unfold epoch_start, epoch_prologue.
  destruct (poly_lr_scheduler _ _ _ _). reflexivity.
Qed.

Lemma epoch_start_loaders (args : Args Rate) (epoch : Z) st :
  dataloader_train (epoch_start args epoch st)
  = snd (loader_iter (dataloader_train st))
  /\ dataloader_val (epoch_start args epoch st) = dataloader_val st.
Proof.
  unfold epoch_start, epoch_prologue.
  destruct (poly_lr_scheduler _ _ _ _). split; reflexivity.
Qed.

(** What an epoch that returns has done, digest by digest. *)
Lemma train_epoch_report (args : Args Rate)
    (lf : option (Tensor -> Tensor -> Tensor)) (csv_path : string) st
    (epoch : Z) w st' w' :
  train_epoch args lf csv_path st epoch w = (Ok st', w') ->
  let batches := fst (loader_iter (dataloader_train st)) in
  let vbatches := fst (loader_iter (dataloader_val st)) in
  let t := new_events w w' in
  trace w' = trace w ++ t
  /\ training_calls t = map fst batches
  /\ loss_steps t = seqZ (step st + 1) (Z.of_nat (length batches))
  /\ step st' = step st + Z.of_nat (length batches)
  /\ dataloader_train st' = snd (loader_iter (dataloader_train st))
  /\ checkpoint_epochs t = (if checkpoint_due_b args epoch then [epoch] else [])
  /\ val_epochs t = (if validation_due_b args epoch then [epoch] else [])
  /\ (validation_due args epoch ->
      eval_calls t = map fst vbatches
      /\ val_mious t = [snd (val_spec args (model st') vbatches)]
      /\ training (model st') = false
      /\ dataloader_val st' = snd (loader_iter (dataloader_val st)))
  /\ (~ validation_due args epoch ->
      eval_calls t = []
      /\ val_mious t = []
      /\ training (model st') = true
      /\ dataloader_val st' = dataloader_val st
      /\ max_miou st' = max_miou st).
Proof.
  intros H batches vbatches t. subst t.
  pose proof H as H0. revert H0.
  unfold train_epoch.
  pose proof (epoch_start_step args epoch st) as Hstep.
  pose proof (epoch_start_loaders args epoch st) as [Hdlt Hdlv].
  pose proof (epoch_start_training args epoch st) as Htr.
  pose proof (epoch_start_max args epoch st) as Hmx.
  unfold epoch_start in Hstep, Hdlt, Hdlv, Htr, Hmx.
  destruct (epoch_prologue args epoch st) as [st0 lr] eqn:Hpro.
  assert (Hdl : dataloader_train st0 = dataloader_train st).
  { unfold epoch_prologue in Hpro.
    destruct (poly_lr_scheduler _ _ _ _). injection Hpro as <- _. reflexivity. }
  cbn [fst snd] in *.
  intros H0.
  unfold mbind at 1, M_bind at 1 in H0. rewrite emit_log in H0.
  unfold mbind at 1, M_bind at 1 in H0. rewrite emit_log, log_log in H0.
  rewrite Hdl in H0.
  subst batches.
  destruct (loader_iter (dataloader_train st)) as [batches dl] eqn:Hit.
  cbn [fst snd] in *.
  apply bind_ok_inv in H0. destruct H0 as ([st1 rec] & w1 & Hb & H0).
  pose proof Hb as Hs. apply train_batches_inv in Hs. destruct Hs as (Hs & _).
  apply train_batches_inv_calls in Hb.
  destruct Hb as (tb & -> & Hqb & B1 & B2 & B3 & B4 & _).
  destruct Hs as (S1 & _ & _ & _ & S5 & S6 & S7).
  unfold mbind at 1, M_bind at 1 in H0. rewrite emit_log, !log_log in H0.
  unfold mbind at 1, M_bind at 1 in H0. rewrite emit_log, !log_log in H0.
  unfold mbind at 1, M_bind at 1 in H0. rewrite emit_log, !log_log in H0.
  apply bind_ok_inv in H0. destruct H0 as ([] & w2 & Hc & Hv).
  apply checkpoint_phase_report in Hc.
  destruct Hc as (qc & Tc & C1 & C2 & C3 & C4 & C5 & C6).
  apply validation_phase_report in Hv.
  destruct Hv as (qv & Tv & V1 & V2 & V3 & V4 & V5 & V6 & Vd & Vn).
  cbn [step set_dataloader_train dataloader_train dataloader_val model
       max_miou] in *.
  match type of Tc with
  | trace w2 = trace (log w ?l) ++ qc => set (hd := l) in *
  end.
  assert (Ht : trace w' = trace w ++ hd ++ qc ++ qv).
  { rewrite Tv, Tc. cbn [trace log]. rewrite <- !app_assoc. reflexivity. }
  assert (Hhd : training_calls hd = map fst batches
                /\ eval_calls hd = []
                /\ loss_steps hd = seqZ (step st + 1)
                                     (Z.of_nat (length batches))
                /\ checkpoint_epochs hd = []
                /\ val_epochs hd = []
                /\ val_mious hd = []).
  { unfold hd.
rewrite !training_calls_app, !eval_calls_app, !loss_steps_app,
      !checkpoint_epochs_app, !val_epochs_app, !val_mious_app,
      B1, B2, B3, Hstep, (quiet_checkpoint_epochs _ Hqb),
      (quiet_val_epochs _ Hqb), (quiet_val_mious _ Hqb).
    cbn [app]. rewrite !app_nil_r. repeat split. }
  destruct Hhd as (H1 & H2 & H3 & H4 & H5 & H6).
  rewrite (new_events_app _ _ _ Ht).
  split; [exact Ht|].
  rewrite !training_calls_app, !loss_steps_app, !checkpoint_epochs_app,
    !val_epochs_app, !eval_calls_app, !val_mious_app,
    H1, H2, H3, H4, H5, H6, C1, C2, C3, C4, C5, C6, V1, V2, V3, V6,
    !app_nil_r.
  cbn [app].
  split; [reflexivity|]. split; [reflexivity|].
  split; [rewrite V4, B4, Hstep; reflexivity|].
  split; [rewrite V5, S6; reflexivity|].
  split; [reflexivity|]. split; [reflexivity|]. split.
  - intros Hdue. destruct (Vd Hdue) as (E1 & E2 & E3 & E4).
    rewrite E1, E2, E3, E4, S7, Hdlv. subst vbatches.
    repeat split.
  - intros Hnd. destruct (Vn Hnd) as (-> & ->).
    rewrite S5, S7, S1. repeat split; assumption.
Qed.

(** X10 — In every epoch that returns, the network saw each batch of the
    training loader once, in the loader's order and in training mode; one
    ['loss_step'] scalar was logged per batch, under the next values of
    the step counter; and the loader handed to the next epoch is the one
    the iteration left. *)
Theorem epoch_trains_every_batch_once (args : Args Rate)
    (lf : option (Tensor -> Tensor -> Tensor)) (csv_path : string) st
    (epoch : Z) w st' w' :
  train_epoch args lf csv_path st epoch w = (Ok st', w') ->
  training_calls (new_events w w')
  = map fst (fst (loader_iter (dataloader_train st)))
  /\ loss_steps (new_events w w')
     = seqZ (step st + 1)
         (Z.of_nat (length (fst (loader_iter (dataloader_train st)))))
  /\ step st'
     = step st + Z.of_nat (length (fst (loader_iter (dataloader_train st))))
  /\ dataloader_train st' = snd (loader_iter (dataloader_train st)).
Proof.
  intros H. apply train_epoch_report in H. cbv zeta in H.
  destruct H as (_ & H1 & H2 & H3 & H4 & _).
  repeat split; assumption.
Qed.

(** X11 — An epoch validates exactly when its number is a nonzero
    multiple of [validation_step]. When it does, the network sees each
    batch of the validation loader once in inference mode, the logged
    mean-IoU is that of the weights the epoch ends with, and the network
    is left in inference mode. When it does not, no validation batch is
    run, nothing is logged under ['epoch/miou val'], the network stays in
    training mode and the maximum is unchanged. *)
Theorem epoch_validates_iff_due (args : Args Rate)
    (lf : option (Tensor -> Tensor -> Tensor)) (csv_path : string) st
    (epoch : Z) w st' w' :
  train_epoch args lf csv_path st epoch w = (Ok st', w') ->
  (validation_due args epoch ->
   eval_calls (new_events w w')
   = map fst (fst (loader_iter (dataloader_val st)))
   /\ val_mious (new_events w w')
      = [snd (val_spec args (model st')
                (fst (loader_iter (dataloader_val st))))]
   /\ val_epochs (new_events w w') = [epoch]
   /\ training (model st') = false
   /\ dataloader_val st' = snd (loader_iter (dataloader_val st)))
  /\ (~ validation_due args epoch ->
      eval_calls (new_events w w') = []
      /\ val_mious (new_events w w') = []
      /\ training (model st') = true
      /\ dataloader_val st' = dataloader_val st
      /\ max_miou st' = max_miou st).
Proof.
  intros H. apply train_epoch_report in H. cbv zeta in H.
  destruct H as (_ & _ & _ & _ & _ & _ & Hv & Hd & Hn).
  split; [|exact Hn].
  intros Hdue. destruct (Hd Hdue) as (E1 & E2 & E3 & E4).
  assert (Hb : validation_due_b args epoch = true) by (apply due_test; exact Hdue).
  rewrite Hb in Hv. repeat split; assumption.
Qed.

(** ** Epochs that fail after their batches *)

(** An epoch whose checkpoint phase raises, having only printed and made
    directories: the batches were trained, and no file was written. *)
Lemma train_epoch_fails_at_checkpoint (args : Args Rate)
    (f : Tensor -> Tensor -> Tensor) (csv_path : string) st (epoch : Z) w
    (e : exn) :
  (forall st1 w1,
     wrapped (model st1) = wrapped (model st) ->
     exists w2 q,
       checkpoint_phase args epoch st1 w1 = (Raise e, w2)
       /\ files w2 = files w1
       /\ trace w2 = trace w1 ++ q
       /\ Forall (fun e => silent e = true) q) ->
  exists w',
    train_epoch args (Some f) csv_path st epoch w = (Raise e, w')
    /\ files w' = files w
    /\ saves (new_events w w') = []
    /\ training_calls (new_events w w')
       = map fst (fst (loader_iter (dataloader_train st))).
Proof.
  intros Hc.
  destruct (epoch_batches_run args f st epoch
              (log w [ETqdm (TqOpen (loader_len (dataloader_train st)
                                     * batch_size args));
                      ETqdm (TqDescription epoch
                               (snd (epoch_prologue args epoch st)))]))
    as (st1 & rec & tb & Hb & Hs & Hq & Ht).
  rewrite (train_epoch_after_batches _ _ csv_path _ _ _ _ _ _ Hb).
  assert (Hw : wrapped (model st1) = wrapped (model st)).
  { destruct Hs as (_ & _ & _ & Hw & _). rewrite Hw.
    apply epoch_start_wrapped. }
  match goal with
  | |- exists w', (_ ≫= _) ?w0 = _ /\ _ =>
      destruct (Hc st1 w0 Hw) as (w2 & q & Hr & Hf & Htr & Hsil)
  end.
  exists w2. split; [apply bind_raise; exact Hr|].
  split; [rewrite Hf; reflexivity|].
  apply silent_digests in Hsil.
  destruct Hsil as (Q1 & _ & _ & _ & _ & Q6).
  cbn [trace log] in Htr. rewrite <- !app_assoc in Htr.
  rewrite (new_events_app _ _ _ Htr).
  rewrite !saves_app, !training_calls_app, Q1, Q6, Ht, (quiet_saves _ Hq).
  cbn. rewrite !app_nil_r. split; reflexivity.
Qed.


(** X13 — Without [--save_model_path] (its default is [None]) the first
    due checkpoint ends the run: the epoch trains its batches, then
    [os.path.isdir(None)] of line 119 raises a [TypeError], and no file
    is written. *)
Theorem checkpoint_without_save_path_raises (args : Args Rate)
    (f : Tensor -> Tensor -> Tensor) (csv_path : string) st (epoch : Z) w :
  select_loss args = Some f ->
  checkpoint_due args epoch ->
  save_model_path args = None ->
  exists (msg : string) w',
    train_epoch args (select_loss args) csv_path st epoch w
    = (Raise (TypeError msg), w')
    /\ files w' = files w
    /\ saves (new_events w w') = []
    /\ training_calls (new_events w w')
       = map fst (fst (loader_iter (dataloader_train st))).
Proof.
  intros Hl Hdue Hdir. rewrite Hl. eexists.
  apply train_epoch_fails_at_checkpoint.
  intros st1 w1 _.
  rewrite (checkpoint_phase_no_path args epoch st1 w1 Hdue Hdir).
  eexists. eexists. split; [reflexivity|]. split; [reflexivity|].
  split; [reflexivity|]. repeat constructor.
Qed.

(** X14 — A step of zero is a [ZeroDivisionError]: no epoch returns when
    [checkpoint_step] or [validation_step] is 0, and with
    [checkpoint_step = 0] the first epoch trains all its batches before
    the modulo of line 116 raises, leaving no file. *)
Theorem zero_step_is_a_division_error (args : Args Rate)
    (f : Tensor -> Tensor -> Tensor) (csv_path : string) st (epoch : Z) w :
  select_loss args = Some f ->
  checkpoint_step args = 0 \/ validation_step args = 0 ->
  (forall st' w',
     train_epoch args (select_loss args) csv_path st epoch w <> (Ok st', w'))
  /\ (checkpoint_step args = 0 ->
      exists w',
        train_epoch args (select_loss args) csv_path st epoch w
        = (Raise ZeroDivisionError, w')
        /\ files w' = files w
        /\ saves (new_events w w') = []
        /\ training_calls (new_events w w')
           = map fst (fst (loader_iter (dataloader_train st)))).
Proof.
  intros Hl Hz. split.
  - intros st' w' H. apply train_epoch_inv in H.
    destruct H as (st1 & tb & w2 & _ & _ & Hc & Hv).
    apply checkpoint_phase_inv in Hc. destruct Hc as (Hc & _).
    apply validation_phase_inv in Hv. destruct Hv as (Hv & _).
    destruct Hz; contradiction.
  - intros Hc. rewrite Hl.
    apply train_epoch_fails_at_checkpoint.
    intros st1 w1 _.
    rewrite (checkpoint_phase_zero_step args epoch st1 w1 Hc).
    exists w1, []. rewrite app_nil_r. repeat split. constructor.
Qed.

(** ** A whole run, digest by digest *)

Lemma filter_due_cons (p : Z -> bool) (e : Z) (l : list Z) :
  List.filter p (e :: l) = (if p e then [e] else []) ++ List.filter p l.
Proof. simpl. destruct (p e); reflexivity. Qed.

Lemma train_loop_report (args : Args Rate)
    (lf : option (Tensor -> Tensor -> Tensor)) (csv_path : string)
    (epochs : list Z) :
  forall st w st' w',
    for_each epochs (train_epoch args lf csv_path) st w = (Ok st', w') ->
    trace w' = trace w ++ new_events w w'
    /\ checkpoint_epochs (new_events w w')
       = List.filter (checkpoint_due_b args) epochs
    /\ val_epochs (new_events w w')
       = List.filter (validation_due_b args) epochs
    /\ step st <= step st'
    /\ loss_steps (new_events w w')
       = seqZ (step st + 1) (step st' - step st)
    /\ Z.of_nat (length (training_calls (new_events w w')))
       = step st' - step st
    /\ (forall dir,
          save_model_path args = Some dir ->
          file_epoch (files w' !! latest_path dir)
          = match last (List.filter (checkpoint_due_b args) epochs) with
            | Some e => Some e
            | None => file_epoch (files w !! latest_path dir)
            end).
Proof.
  induction epochs as [|epoch epochs IH]; intros st w st' w' H; simpl in H.
  - injection H as <- <-.
    assert (Hn : new_events w w = []).
    { apply new_events_app. rewrite app_nil_r. reflexivity. }
    rewrite Hn, app_nil_r, Z.sub_diag. repeat split. lia.
  - apply bind_ok_inv in H. destruct H as (st1 & w1 & H1 & H2).
    pose proof (train_epoch_summary _ _ _ _ _ _ _ _ H1)
      as (_ & _ & _ & _ & _ & _ & _ & Fd & Fn).
    apply train_epoch_report in H1. cbv zeta in H1.
    destruct H1 as (T1 & A1 & L1 & S1 & _ & C1 & V1 & _ & _).
    apply IH in H2. destruct H2 as (T2 & C2 & V2 & Sle & L2 & A2 & F2).
    set (t1 := new_events w w1) in *. set (t2 := new_events w1 w') in *.
    set (n := Z.of_nat (length (fst (loader_iter (dataloader_train st)))))
      in *.
    assert (Hn : 0 <= n) by (subst n; lia).
    assert (Ht : trace w' = trace w ++ t1 ++ t2).
    { rewrite T2, T1, <- app_assoc. reflexivity. }
    rewrite (new_events_app _ _ _ Ht).
    split; [exact Ht|].
    rewrite checkpoint_epochs_app, val_epochs_app, loss_steps_app,
      training_calls_app, !filter_due_cons, C1, C2, V1, V2, L1, L2, A1.
    split; [reflexivity|]. split; [reflexivity|].
    split; [lia|]. split.
    { replace (step st' - step st) with (n + (step st' - step st1)) by lia.
      rewrite seqZ_app by lia. do 2 f_equal. lia. }
    split.
    { rewrite length_app, length_map, Nat2Z.inj_add, A2. fold n. lia. }
    intros dir Hdir. rewrite (F2 dir Hdir).
    destruct (checkpoint_due_b args epoch) eqn:Hb; cbn [app].
    + rewrite last_cons.
      destruct (last (List.filter (checkpoint_due_b args) epochs));
        [reflexivity|].
      apply due_test in Hb. destruct (Fd Hb) as (dir' & Hdir' & _ & Hf).
      rewrite Hdir in Hdir'. injection Hdir' as <-. rewrite Hf. reflexivity.
    + destruct (last (List.filter (checkpoint_due_b args) epochs));
        [reflexivity|].
      assert (Hnd : ~ checkpoint_due args epoch).
      { intros Hd. apply due_test in Hd. unfold checkpoint_due_b in Hb.
        congruence. }
      destruct (Fn Hnd) as (_ & Hf). rewrite (Hf dir Hdir). reflexivity.
Qed.

Lemma train_report (args : Args Rate) (m : Model)
    (o : Optimizer Rate OptAcc) (dlt dlv : Loader) (csv_path : string)
    (curr_epoch : Z) w st' w' :
  train args m o dlt dlv csv_path curr_epoch w = (Ok st', w') ->
  trace w' = trace w ++ new_events w w'
  /\ checkpoint_epochs (new_events w w')
     = List.filter (checkpoint_due_b args)
         (py_range (curr_epoch + 1) (num_epochs args + 1))
  /\ val_epochs (new_events w w')
     = List.filter (validation_due_b args)
         (py_range (curr_epoch + 1) (num_epochs args + 1))
  /\ loss_steps (new_events w w') = seqZ 1 (step st')
  /\ Z.of_nat (length (training_calls (new_events w w'))) = step st'
  /\ (forall dir,
        save_model_path args = Some dir ->
        file_epoch (files w' !! latest_path dir)
        = match last (List.filter (checkpoint_due_b args)
                        (py_range (curr_epoch + 1) (num_epochs args + 1))) with
          | Some e => Some e
          | None => file_epoch (files w !! latest_path dir)
          end).
Proof.
  unfold train. intros H.
  unfold mbind at 1, M_bind at 1 in H. rewrite emit_log in H.
  apply train_loop_report in H. cbn [step] in H.
  destruct H as (T & Cc & V & _ & L & A & F).
  set (t := new_events (log w [ESummaryWriter ""]) w') in *.
  assert (Ht : trace w' = trace w ++ ESummaryWriter "" :: t).
  { rewrite T. simpl. rewrite <- app_assoc. reflexivity. }
  rewrite (new_events_app _ _ _ Ht).
  split; [exact Ht|].
  rewrite training_calls_cons, loss_steps_cons.
  cbn [training_call_of_event loss_step_of_event].
  rewrite Z.sub_0_r in L, A.
  repeat split; try assumption.
Qed.

(** X15 — Over a call of [train] the ['loss_step'] scalars are logged
    under 1, 2, 3, ... without gap or repeat, one per training batch of
    the whole run; the counter starts at 0 in every call, also in a
    resumed one. *)
Theorem loss_steps_count_the_batches_of_a_run (args : Args Rate) (m : Model)
    (o : Optimizer Rate OptAcc) (dlt dlv : Loader) (csv_path : string)
    (curr_epoch : Z) w st' w' :
  train args m o dlt dlv csv_path curr_epoch w = (Ok st', w') ->
  loss_steps (new_events w w') = seqZ 1 (step st')
  /\ Z.of_nat (length (training_calls (new_events w w'))) = step st'.
Proof.
  intros H. apply train_report in H.
  destruct H as (_ & _ & _ & L & A & _). split; assumption.
Qed.

(** The digests of [main] are those of its call of [train]. *)
Lemma main_report (args : Args Rate) w w' :
  optimizer_name args = "rmsprop" \/ optimizer_name args = "sgd"
  \/ optimizer_name args = "adam" ->
  main args w = (Ok tt, w') ->
  let epochs := py_range (resume_epoch args w + 1) (num_epochs args + 1) in
  checkpoint_epochs (new_events w w')
  = List.filter (checkpoint_due_b args) epochs
  /\ val_epochs (new_events w w') = List.filter (validation_due_b args) epochs
  /\ (forall dir,
        save_model_path args = Some dir ->
        file_epoch (files w' !! latest_path dir)
        = match last (List.filter (checkpoint_due_b args) epochs) with
          | Some e => Some e
          | None => file_epoch (files w !! latest_path dir)
          end).
Proof.
  intros Hopt H epochs. subst epochs.
  destruct (build_optimizer_some args (build_model args) Hopt) as (o0 & Ho).
  destruct (main_inv _ _ _ _ Ho H)
    as (m & o & curr & w1 & st & w2 & r & Hl & Ht & Hv).
  apply load_pretrained_inv in Hl. destruct Hl as (Hc & _ & Hl).
  change (resume_epoch args (log w [EPrintArgs args; ESetEnv "CUDA_VISIBLE_DEVICES" (cuda args)]))
    with (resume_epoch args w) in Hc.
  apply train_report in Ht. destruct Ht as (Tt & Ct & Vt & _ & _ & Ft).
  apply val_ok_inv in Hv. destruct Hv as (_ & ->).
  set (hd := [EPrintArgs args; ESetEnv "CUDA_VISIBLE_DEVICES" (cuda args)]) in *.
  set (tt' := new_events w1 w2) in *.
  set (tv := val_events args (model st) (fst (loader_iter (dataloader_val st)))).
  assert (Hqv : Forall (fun e => quiet e = true) tv) by apply quiet_val_events.
  assert (exists tl, Forall (fun e => quiet e = true) tl
                     /\ trace w1 = trace w ++ hd ++ tl
                     /\ files w1 = files w) as (tl & Hql & Hw1 & Hf1).
  { destruct Hl as [(_ & _ & _ & ->) | (path & e & msd & osd & _ & _ & _ & _ & ->)].
    - exists []. split; [constructor|].
      split; [rewrite app_nil_r|]; reflexivity.
    - exists (load_events path e). split; [apply quiet_load_events|].
      split; [|reflexivity].
      simpl. rewrite <- app_assoc. reflexivity. }
  assert (Hqh : Forall (fun e => quiet e = true) (hd ++ tl)).
  { apply Forall_app. split; [repeat constructor | exact Hql]. }
  assert (Htr : trace (log w2 tv) = trace w ++ (hd ++ tl) ++ tt' ++ tv).
  { simpl. rewrite Tt, Hw1, <- !app_assoc. reflexivity. }
  rewrite (new_events_app _ _ _ Htr).
  rewrite checkpoint_epochs_app, (quiet_checkpoint_epochs _ Hqh),
    checkpoint_epochs_app, (quiet_checkpoint_epochs _ Hqv),
    val_epochs_app, (quiet_val_epochs _ Hqh),
    val_epochs_app, (quiet_val_epochs _ Hqv), Ct, Vt, Hc, !app_nil_r.
  cbn [app]. split; [reflexivity|]. split; [reflexivity|].
  intros dir Hdir. cbn [files log].
  rewrite (Ft dir Hdir), Hc, Hf1. reflexivity.
Qed.

(** X16 — Over a run of [main] that returns, checkpoints are written at
    exactly the epochs of the run that are nonzero multiples of
    [checkpoint_step], and validations are logged at exactly those that
    are nonzero multiples of [validation_step], each once and in order
    (the validation that ends [main] logs nothing). *)
Theorem run_checkpoints_and_validates_on_schedule (args : Args Rate) w w' :
  optimizer_name args = "rmsprop" \/ optimizer_name args = "sgd"
  \/ optimizer_name args = "adam" ->
  main args w = (Ok tt, w') ->
  checkpoint_epochs (new_events w w')
  = List.filter (checkpoint_due_b args)
      (py_range (resume_epoch args w + 1) (num_epochs args + 1))
  /\ val_epochs (new_events w w')
     = List.filter (validation_due_b args)
         (py_range (resume_epoch args w + 1) (num_epochs args + 1)).
Proof.
  intros Hopt H. destruct (main_report args w w' Hopt H) as (Hc & Hv & _).
  split; assumption.
Qed.

(** X17 — Checkpoints share one file: after a run of [main] the file
    [latest_dice_loss.pth] holds the checkpoint of the last due epoch of
    the run, every earlier one having been overwritten; a run with no due
    epoch leaves what was there. *)
Theorem only_the_last_checkpoint_survives (args : Args Rate) w w'
    (dir : string) :
  optimizer_name args = "rmsprop" \/ optimizer_name args = "sgd"
  \/ optimizer_name args = "adam" ->
  main args w = (Ok tt, w') ->
  save_model_path args = Some dir ->
  file_epoch (files w' !! latest_path dir)
  = match last (List.filter (checkpoint_due_b args)
                  (py_range (resume_epoch args w + 1) (num_epochs args + 1)))
    with
    | Some e => Some e
    | None => file_epoch (files w !! latest_path dir)
    end.
Proof.
  intros Hopt H Hdir.
  destruct (main_report args w w' Hopt H) as (_ & _ & Hf).
  exact (Hf dir Hdir).
Qed.
End ProgramExtra.

(** * The further properties on the small runs *)

Section ToyExtra.

#[local] Existing Instance Toy.collabZ.

Import Toy.

Abbreviation main_run := (@main Z collabZ args world0).

Abbreviation epoch2 :=
  (@train_epoch Z collabZ args (select_loss args) (csv_path_of args) state0
     2 world0).

Abbreviation whole_train :=
  (@train Z collabZ args (build_model args) (sgd 1 0)
     (build_dataloader_train args) (build_dataloader_val args)
     (csv_path_of args) 0 world0).

Abbreviation nan_train :=
  (@train Z collabZ args_four_classes (build_model args_four_classes)
     (sgd 1 0) (build_dataloader_train args_four_classes)
     (build_dataloader_val args_four_classes)
     (csv_path_of args_four_classes) 0 world0).

Lemma sgd_is_supported (a : Args Z) :
  optimizer_name a = "sgd" ->
  optimizer_name a = "rmsprop" \/ optimizer_name a = "sgd"
  \/ optimizer_name a = "adam".
Proof. intros H. right. left. exact H. Qed.

Lemma fresh_run_executes_every_epoch_once_witness :
  exists w',
    main args world0 = (Ok tt, w')
    /\ epochs_run (new_events world0 w') = [1; 2; 3].
Proof.
  assert (Fok : is_ok (fst main_run) = true) by (vm_compute; reflexivity).
  destruct main_run as [[[]|e] w'] eqn:E; [|discriminate Fok].
  exists w'. split; [reflexivity|].
  exact (fresh_run_executes_every_epoch_once args world0 w'
           (sgd_is_supported args eq_refl) eq_refl E).
Defined.

(** The checkpoint of the second epoch, loaded by the run that resumes. *)
Lemma checkpoint_round_trip_witness :
  exists st' w',
    epoch2 = (Ok st', w')
    /\ checkpoint_due args 2
    /\ exists w2 (o2' : Optimizer Z Z),
        load_pretrained resume_args (net true 0) (sgd 1 0) w'
        = (Ok (set_params (params (model st')) (net true 0), o2', 3), w2)
        /\ param_groups o2' = param_groups (optimizer st')
        /\ opt_state o2' = opt_state (optimizer st').
Proof.
  assert (Fok : is_ok (fst epoch2) = true) by (vm_compute; reflexivity).
  destruct epoch2 as [[st'|e] w'] eqn:E; [|discriminate Fok].
  exists st', w'. split; [reflexivity|].
  assert (Hdue : checkpoint_due args 2) by (split; [reflexivity | discriminate]).
  split; [exact Hdue|].
  destruct (checkpoint_round_trip args (select_loss args) (csv_path_of args)
              state0 2 world0 st' w' "./checkpoints_18_sgd_100" resume_args
              (net true 0) (sgd 1 0) E Hdue eq_refl eq_refl eq_refl)
    as (w2 & o2' & Hl & Hg & Hs & _).
  exists w2, o2'. repeat split; assumption.
Defined.

Lemma resuming_from_a_state_dict_is_a_key_error_witness :
  files resume_world !! best_file_path = Some (StateDictFile 3)
  /\ exists w',
      main args_resume_best resume_world
      = (Raise (KeyError "model_state_dict"), w')
      /\ epochs_run (new_events resume_world w') = []
      /\ files w' = files resume_world.
Proof.
  split; [reflexivity|].
  destruct (resuming_from_a_state_dict_is_a_key_error args_resume_best
              resume_world best_file_path 3
              (sgd_is_supported args_resume_best eq_refl)
              eq_refl eq_refl eq_refl eq_refl)
    as (w' & Hm & He & _ & _ & Hf & _).
  exists w'. repeat split; assumption.
Defined.

Lemma resuming_from_a_missing_file_is_fatal_witness :
  files world0 !! "./nowhere.pth" = None
  /\ exists w',
      main args_resume_missing world0
      = (Raise (FileNotFoundError "./nowhere.pth"), w')
      /\ epochs_run (new_events world0 w') = []
      /\ files w' = files world0.
Proof.
  split; [reflexivity|].
  destruct (resuming_from_a_missing_file_is_fatal args_resume_missing
              world0 "./nowhere.pth"
              (sgd_is_supported args_resume_missing eq_refl)
              eq_refl eq_refl)
    as (w' & Hm & He & _ & _ & Hf & _).
  exists w'. repeat split; assumption.
Defined.

Lemma val_only_reads_witness :
  exists r w',
    val args (net true 1) (build_dataloader_val args) (csv_path_of args)
        resume_world
    = (r, w')
    /\ files w' = files resume_world
    /\ dirs w' = dirs resume_world
    /\ saves (new_events resume_world w') = []
    /\ training_calls (new_events resume_world w') = [].
Proof.
  destruct (val args (net true 1) (build_dataloader_val args)
              (csv_path_of args) resume_world) as [r w'] eqn:E.
  exists r, w'. split; [reflexivity|].
  destruct (val_only_reads args (net true 1) (build_dataloader_val args)
              (csv_path_of args) resume_world r w' E)
    as (Hf & Hd & Hs & _ & Ht & _).
  repeat split; assumption.
Defined.

Lemma miou_independent_of_batch_order_witness :
  0 <= num_classes args
  /\ Permutation val_set_a val_set_b
  /\ exists (p1 p2 miou : float) (m1 m2 : Model)
        (d1 d2 : list (list Z * list Z)) w1' w2',
      val args (net true 2) val_set_a (csv_path_of args) world0
      = (Ok (p1, miou, m1, d1), w1')
      /\ val args (net true 2) val_set_b (csv_path_of args) world0
         = (Ok (p2, miou, m2, d2), w2').
Proof.
  assert (Hn : 0 <= num_classes args) by (simpl; lia).
  assert (Hp : Permutation val_set_a val_set_b) by apply perm_swap.
  split; [exact Hn|]. split; [exact Hp|].
  exact (miou_independent_of_batch_order args (net true 2) val_set_a
           val_set_b (csv_path_of args) world0 world0 Hn Hp).
Defined.


(** Six epochs asked for, the checkpoint of epoch 5 loaded: nothing is
    trained, and the loss name 'foo' is never looked at. *)
Lemma resuming_a_finished_run_trains_nothing_witness :
  files resume_world !! ckpt_path = Some (CheckpointFile 5 5 saved_optimizer)
  /\ num_epochs args_resume_finished <= 5 + 1
  /\ exists w',
      main args_resume_finished resume_world = (Ok tt, w')
      /\ epochs_run (new_events resume_world w') = []
      /\ training_calls (new_events resume_world w') = []
      /\ files w' = files resume_world.
Proof.
  assert (Hf : files resume_world !! ckpt_path
               = Some (CheckpointFile 5 5 saved_optimizer)) by reflexivity.
  assert (Hfin : num_epochs args_resume_finished <= 5 + 1) by (simpl; lia).
  assert (Hn : 0 <= num_classes args_resume_finished) by (simpl; lia).
  split; [exact Hf|]. split; [exact Hfin|].
  destruct (resuming_a_finished_run_trains_nothing args_resume_finished
              resume_world ckpt_path 5 5 saved_optimizer
              (sgd_is_supported args_resume_finished eq_refl)
              eq_refl eq_refl Hn eq_refl Hf Hfin)
    as (w' & Hm & He & Ht & _ & _ & Hfs).
  exists w'. repeat split; assumption.
Defined.

(** Four classes, the last two in no label and no prediction: the three
    validations of the run give NaN, none is flagged as a best, and the
    maximum ends at 0. *)
Lemma nan_miou_is_never_the_best_witness :
  exists st' w',
    nan_train = (Ok st', w')
    /\ map is_nan (val_mious (new_events world0 w')) = [true; true; true]
    /\ map snd (best_log best_file_path false (new_events world0 w'))
       = [false; false; false]
    /\ is_nan (max_miou st') = false
    /\ le zero (max_miou st') = true
    /\ (forall (i : nat) (mi : float),
          val_mious (new_events world0 w') !! i = Some mi ->
          is_nan mi = true ->
          best_log best_file_path false (new_events world0 w') !! i
          = Some (mi, false)).
Proof.
  assert (Fok : is_ok (fst nan_train) = true) by (vm_compute; reflexivity).
  assert (Fms : map is_nan (val_mious (new_events world0 (snd nan_train)))
                = [true; true; true]) by (vm_compute; reflexivity).
  assert (Fbl : map snd (best_log best_file_path false
                           (new_events world0 (snd nan_train)))
                = [false; false; false]) by (vm_compute; reflexivity).
  destruct nan_train as [[st'|e] w'] eqn:E; [|discriminate Fok].
  exists st', w'. split; [reflexivity|].
  cbn [snd] in Fms, Fbl.
  split; [exact Fms|]. split; [exact Fbl|].
  exact (nan_miou_is_never_the_best args_four_classes _ _ _ _ _ 0 world0
           st' w' out_dir E eq_refl).
Defined.

Lemma epoch_trains_every_batch_once_witness :
  exists st' w',
    epoch2 = (Ok st', w')
    /\ training_calls (new_events world0 w') = [[0; 1; 2; 3]]
    /\ loss_steps (new_events world0 w') = [1]
    /\ step st' = 1.
Proof.
  assert (Fok : is_ok (fst epoch2) = true) by (vm_compute; reflexivity).
  destruct epoch2 as [[st'|e] w'] eqn:E; [|discriminate Fok].
  exists st', w'. split; [reflexivity|].
  destruct (epoch_trains_every_batch_once args (select_loss args)
              (csv_path_of args) state0 2 world0 st' w' E)
    as (H1 & H2 & H3 & _).
  split; [exact H1|]. split; [exact H2|]. exact H3.
Defined.

Lemma epoch_validates_iff_due_witness :
  exists st' w',
    epoch2 = (Ok st', w')
    /\ validation_due args 2
    /\ eval_calls (new_events world0 w') = [seqZ 0 20]
    /\ val_epochs (new_events world0 w') = [2]
    /\ training (model st') = false.
Proof.
  assert (Fok : is_ok (fst epoch2) = true) by (vm_compute; reflexivity).
  destruct epoch2 as [[st'|e] w'] eqn:E; [|discriminate Fok].
  exists st', w'. split; [reflexivity|].
  assert (Hdue : validation_due args 2) by (split; [reflexivity | discriminate]).
  split; [exact Hdue|].
  destruct (epoch_validates_iff_due args (select_loss args)
              (csv_path_of args) state0 2 world0 st' w' E) as (H & _).
  destruct (H Hdue) as (H1 & _ & H3 & H4 & _).
  split; [exact H1|]. split; [exact H3|]. exact H4.
Defined.


Lemma checkpoint_without_save_path_raises_witness :
  save_model_path args_no_save_path = None
  /\ checkpoint_due args_no_save_path 2
  /\ exists (msg : string) w',
      train_epoch args_no_save_path (select_loss args_no_save_path)
        (csv_path_of args_no_save_path) state0 2 world0
      = (Raise (TypeError msg), w')
      /\ files w' = files world0
      /\ training_calls (new_events world0 w') = [[0; 1; 2; 3]].
Proof.
  assert (Hdue : checkpoint_due args_no_save_path 2)
    by (split; [reflexivity | discriminate]).
  split; [reflexivity|]. split; [exact Hdue|].
  destruct (checkpoint_without_save_path_raises args_no_save_path DiceLoss
              (csv_path_of args_no_save_path) state0 2 world0
              eq_refl Hdue eq_refl)
    as (msg & w' & Hr & Hf & _ & Ht).
  exists msg, w'. split; [exact Hr|]. split; [exact Hf|]. exact Ht.
Defined.

Lemma zero_step_is_a_division_error_witness :
  checkpoint_step args_zero_step = 0
  /\ exists w',
      train_epoch args_zero_step (select_loss args_zero_step)
        (csv_path_of args_zero_step) state0 1 world0
      = (Raise ZeroDivisionError, w')
      /\ files w' = files world0
      /\ training_calls (new_events world0 w') = [[0; 1; 2; 3]].
Proof.
  split; [reflexivity|].
  destruct (zero_step_is_a_division_error args_zero_step DiceLoss
              (csv_path_of args_zero_step) state0 1 world0
              eq_refl (or_introl eq_refl))
    as (_ & H).
  destruct (H eq_refl) as (w' & Hr & Hf & _ & Ht).
  exists w'. split; [exact Hr|]. split; [exact Hf|]. exact Ht.
Defined.

Lemma loss_steps_count_the_batches_of_a_run_witness :
  exists st' w',
    whole_train = (Ok st', w')
    /\ step st' = 3
    /\ loss_steps (new_events world0 w') = [1; 2; 3]
    /\ length (training_calls (new_events world0 w')) = 3%nat.
Proof.
  assert (Fok : is_ok (fst whole_train) = true) by (vm_compute; reflexivity).
  assert (Fst : match fst whole_train with Ok st => step st | Raise _ => 0 end
                = 3) by (vm_compute; reflexivity).
  destruct whole_train as [[st'|e] w'] eqn:E; [|discriminate Fok].
  exists st', w'. split; [reflexivity|].
  cbn [fst] in Fst.
  destruct (loss_steps_count_the_batches_of_a_run args _ _ _ _ _ 0 world0
              st' w' E) as (H1 & H2).
  split; [exact Fst|]. rewrite Fst in H1, H2.
  split; [exact H1|]. lia.
Defined.

Lemma run_checkpoints_and_validates_on_schedule_witness :
  exists w',
    main args world0 = (Ok tt, w')
    /\ checkpoint_epochs (new_events world0 w') = [2]
    /\ val_epochs (new_events world0 w') = [1; 2; 3].
Proof.
  assert (Fok : is_ok (fst main_run) = true) by (vm_compute; reflexivity).
  destruct main_run as [[[]|e] w'] eqn:E; [|discriminate Fok].
  exists w'. split; [reflexivity|].
  exact (run_checkpoints_and_validates_on_schedule args world0 w'
           (sgd_is_supported args eq_refl) E).
Defined.

(** Eight epochs resumed after epoch 5: the run does 7 and 8, and the
    file ends with the checkpoint of epoch 8 in place of that of 5. *)
Lemma only_the_last_checkpoint_survives_witness :
  exists w',
    main resume_args resume_world = (Ok tt, w')
    /\ file_epoch (files resume_world !! ckpt_path) = Some 5
    /\ file_epoch (files w' !! ckpt_path) = Some 8.
Proof.
  assert (Fok : is_ok (fst (@main Z collabZ resume_args resume_world)) = true)
    by (vm_compute; reflexivity).
  destruct (@main Z collabZ resume_args resume_world) as [[[]|e] w'] eqn:E;
    [|discriminate Fok].
  exists w'. split; [reflexivity|]. split; [reflexivity|].
  exact (only_the_last_checkpoint_survives resume_args resume_world w'
           "./checkpoints_18_sgd_100"
           (sgd_is_supported resume_args eq_refl) E eq_refl).
Defined.
End ToyExtra.
